(** * Complaint intake: ticket codes, row-level policies, validation and
      the classification endpoint

    A shallow embedding of
    - [supabase/migrations/20251112153653_*.sql]: the [complaints] table, its
      row-level policies and the triggers [set_complaint_id] and
      [update_updated_at_column];
    - [supabase/functions/analyze-complaint/index.ts]: the classification
      endpoint;
    - the complaint form ([complaintSchema], [handleSubmit]), the admin
      dashboard ([loadComplaints], [updateComplaint], the counters, the
      filter and the card of a complaint) and the student dashboard;
    - [handle_new_user], the trigger of a registration.

    Text is a list of code units (UTF-16 code units on the TypeScript side,
    characters on the SQL side); literals are written with [lit]. *)

From Stdlib Require Import String Ascii Decimal DecimalN.
From Stdlib Require Import List NArith ZArith QArith Qround Bool Lia.
From Stdlib Require Import Permutation.
Import ListNotations.

Close Scope Q_scope.
Close Scope Z_scope.
Set Implicit Arguments.

(* ===================================================================== *)
(** * Text *)
(* ===================================================================== *)

Definition code_unit := N.
Definition text := list code_unit.

(** A literal of the source, character by character. *)
Definition lit (s : string) : text :=
  List.map N_of_ascii (list_ascii_of_string s).
Arguments lit s%_string : simpl never.

(** The empty string, [''] in SQL. *)
Definition empty_string : text := [].

Fixpoint text_eqb (a b : text) : bool :=
  match a, b with
  | [], [] => true
  | x :: a', y :: b' => N.eqb x y && text_eqb a' b'
  | _, _ => false
  end.

Fixpoint starts_with (p s : text) : bool :=
  match p, s with
  | [], _ => true
  | x :: p', y :: s' => N.eqb x y && starts_with p' s'
  | _ :: _, [] => false
  end.

Definition is_digit (c : code_unit) : bool := (48 <=? c)%N && (c <=? 57)%N.

(* ===================================================================== *)
(** * PostgreSQL functions used by the migration *)
(* ===================================================================== *)

Module Pg.

(** Decimal digits of a [Decimal.uint], most significant first. *)
Fixpoint text_of_uint (d : uint) : text :=
  match d with
  | Nil => []
  | D0 d => 48%N :: text_of_uint d
  | D1 d => 49%N :: text_of_uint d
  | D2 d => 50%N :: text_of_uint d
  | D3 d => 51%N :: text_of_uint d
  | D4 d => 52%N :: text_of_uint d
  | D5 d => 53%N :: text_of_uint d
  | D6 d => 54%N :: text_of_uint d
  | D7 d => 55%N :: text_of_uint d
  | D8 d => 56%N :: text_of_uint d
  | D9 d => 57%N :: text_of_uint d
  end.

(** [n::TEXT] for an integer: a minus sign for negative numbers, then the
    decimal digits. *)
Definition int_to_text (z : Z) : text :=
  match z with
  | Z0 => lit "0"
  | Zpos p => text_of_uint (Pos.to_uint p)
  | Zneg p => 45%N :: text_of_uint (Pos.to_uint p)
  end.

(** [LPAD(s, len, fill)]: [s] is extended on the left with [fill], repeated
    as often as needed, up to [len] characters; a string that is already
    longer than [len] is truncated on the right. *)
Definition lpad (s : text) (len : nat) (fill : text) : text :=
  if Nat.leb len (length s) then firstn len s
  else firstn (len - length s) (concat (repeat fill (len - length s))) ++ s.

(** [s LIKE p]: [%] matches any sequence of characters, [_] any single
    character, a backslash quotes the next pattern character.  A pattern
    that ends in a lone backslash (an error in PostgreSQL) matches nothing
    here; no pattern built by [generate_complaint_id] has one. *)
Fixpoint like (p : text) (s : text) {struct p} : bool :=
  match p with
  | [] => match s with [] => true | _ :: _ => false end
  | c :: p' =>
      if N.eqb c 37 (* % *) then
        (fix any_suffix (s : text) : bool :=
           like p' s ||
           match s with [] => false | _ :: s' => any_suffix s' end) s
      else if N.eqb c 95 (* _ *) then
        match s with [] => false | _ :: s' => like p' s' end
      else if N.eqb c 92 (* backslash *) then
        match p' with
        | [] => false
        | e :: p'' =>
            match s with
            | [] => false
            | x :: s' => N.eqb x e && like p'' s'
            end
        end
      else
        match s with
        | [] => false
        | x :: s' => N.eqb x c && like p' s'
        end
  end.

(** A pattern character that stands for itself. *)
Definition plain (c : code_unit) : bool :=
  negb ((c =? 37) || (c =? 95) || (c =? 92))%N.

(** [TO_CHAR(ts, 'YYYY')]: the year, at least four digits. *)
Definition to_char_YYYY (year : N) : text :=
  let d := text_of_uint (N.to_uint year) in
  firstn (4 - length d) (lit "0000") ++ d.

End Pg.

(* ===================================================================== *)
(** * The migration: tables, policies, triggers *)
(* ===================================================================== *)

Module Schema.

Inductive app_role := student | admin.
Inductive complaint_priority := Low | Medium | High.
Inductive complaint_status := Pending | In_Progress | Resolved | Withdrawn.

Definition uuid := N.

(** A [TIMESTAMPTZ]: the calendar year and the time elapsed within it. *)
Record timestamptz := { ts_year : N; ts_rest : N }.

Definition app_role_eqb (a b : app_role) : bool :=
  match a, b with
  | student, student | admin, admin => true
  | _, _ => false
  end.

Definition status_eqb (a b : complaint_status) : bool :=
  match a, b with
  | Pending, Pending | In_Progress, In_Progress
  | Resolved, Resolved | Withdrawn, Withdrawn => true
  | _, _ => false
  end.

(** Enum labels, and the casts of a text to an enum (an unknown label is
    an error). *)
Definition priority_label (p : complaint_priority) : text :=
  match p with
  | Low => lit "Low" | Medium => lit "Medium" | High => lit "High"
  end.

Definition status_label (s : complaint_status) : text :=
  match s with
  | Pending => lit "Pending"
  | In_Progress => lit "In Progress"
  | Resolved => lit "Resolved"
  | Withdrawn => lit "Withdrawn"
  end.

Definition cast_priority (t : text) : option complaint_priority :=
  if text_eqb t (lit "Low") then Some Low
  else if text_eqb t (lit "Medium") then Some Medium
  else if text_eqb t (lit "High") then Some High
  else None.

Definition cast_status (t : text) : option complaint_status :=
  if text_eqb t (lit "Pending") then Some Pending
  else if text_eqb t (lit "In Progress") then Some In_Progress
  else if text_eqb t (lit "Resolved") then Some Resolved
  else if text_eqb t (lit "Withdrawn") then Some Withdrawn
  else None.

(** [DECIMAL(3,2)]: a value is stored as its number of hundredths, between
    -999 and 999.  A number is rounded to two decimals, half away from
    zero; a rounded value of 10 or more in absolute value overflows. *)
Definition round_hundredths (q : Q) : Z :=
  if Qle_bool 0 q then Qfloor (q * 100 + (1 # 2))%Q
  else (- Qfloor (- q * 100 + (1 # 2))%Q)%Z.

Definition cast_decimal_3_2 (q : Q) : option Z :=
  let h := round_hundredths q in
  if ((-999 <=? h) && (h <=? 999))%Z then Some h else None.

(** The value of a stored [DECIMAL(3,2)]. *)
Definition decimal_value (h : Z) : Q := h # 100.

(** A stored [DECIMAL(3,2)]: a number of hundredths, or the special value
    [NaN], which [numeric] admits whatever the precision. *)
Inductive decimal :=
| Hundredths (h : Z)
| NaN.

(** ** Tables *)

Record user_role := { ur_user_id : uuid; ur_role : app_role }.

(** A stored row of [public.complaints]; the [NOT NULL] columns are plain,
    the others optional.  The table [auth.users] is not part of the
    migration: the reference of [student_id] to it is left out. *)
Record complaint := {
  id : uuid;
  complaint_id : text;
  student_id : uuid;
  title : text;
  description : text;
  category : option text;
  ai_suggested_category : option text;
  priority : option complaint_priority;
  ai_priority_score : option decimal;
  status : complaint_status;
  admin_response : option text;
  ai_suggested_response : option text;
  created_at : timestamptz;
  updated_at : timestamptz
}.

(** The tuple [NEW] of a row trigger: every column may still be NULL. *)
Record tuple := {
  t_id : option uuid;
  t_complaint_id : option text;
  t_student_id : option uuid;
  t_title : option text;
  t_description : option text;
  t_category : option text;
  t_ai_suggested_category : option text;
  t_priority : option complaint_priority;
  t_ai_priority_score : option decimal;
  t_status : option complaint_status;
  t_admin_response : option text;
  t_ai_suggested_response : option text;
  t_created_at : option timestamptz;
  t_updated_at : option timestamptz
}.

Definition tuple_of (r : complaint) : tuple :=
  {| t_id := Some (id r);
     t_complaint_id := Some (complaint_id r);
     t_student_id := Some (student_id r);
     t_title := Some (title r);
     t_description := Some (description r);
     t_category := category r;
     t_ai_suggested_category := ai_suggested_category r;
     t_priority := priority r;
     t_ai_priority_score := ai_priority_score r;
     t_status := Some (status r);
     t_admin_response := admin_response r;
     t_ai_suggested_response := ai_suggested_response r;
     t_created_at := Some (created_at r);
     t_updated_at := Some (updated_at r) |}.

(** ** Errors *)

Inductive pg_error :=
| integer_out_of_range
| invalid_enum_label
| invalid_text_representation
| numeric_field_overflow
| not_null_violation
| row_level_security_violation
| unique_violation.

(** What a request gives a [DECIMAL] column.  A JSON number is read
    exactly; a value of another kind reaches [numeric_in] as a text, which
    reads a number from it, or [NaN], or refuses it with an error. *)
Inductive numeric_input :=
| Number (q : Q)
| NotANumber
| Refused (e : pg_error).

(** A column of the body of an insert or update request: left out, an
    explicit null, or a value. *)
Inductive col (A : Type) : Type :=
| Omitted
| SqlNull
| Value (a : A).
Arguments Omitted {A}.
Arguments SqlNull {A}.

(** The columns a request may set; enum and decimal columns arrive as text
    and as [numeric_input] and are cast by the database. *)
Record columns := {
  c_id : col uuid;
  c_complaint_id : col text;
  c_student_id : col uuid;
  c_title : col text;
  c_description : col text;
  c_category : col text;
  c_ai_suggested_category : col text;
  c_priority : col text;
  c_ai_priority_score : col numeric_input;
  c_status : col text;
  c_admin_response : col text;
  c_ai_suggested_response : col text;
  c_created_at : col timestamptz;
  c_updated_at : col timestamptz
}.

Definition no_columns : columns :=
  {| c_id := Omitted; c_complaint_id := Omitted; c_student_id := Omitted;
     c_title := Omitted; c_description := Omitted; c_category := Omitted;
     c_ai_suggested_category := Omitted; c_priority := Omitted;
     c_ai_priority_score := Omitted; c_status := Omitted;
     c_admin_response := Omitted; c_ai_suggested_response := Omitted;
     c_created_at := Omitted; c_updated_at := Omitted |}.

Inductive result (A : Type) : Type :=
| Ok (a : A)
| Err (e : pg_error).
Arguments Err {A}.

Definition bind {A B} (r : result A) (k : A -> result B) : result B :=
  match r with
  | Ok a => k a
  | Err e => Err e
  end.

Notation "x <- r ;; k" := (bind r (fun x => k))
  (at level 61, r at next level, right associativity).

Definition require (b : bool) (e : pg_error) : result unit :=
  if b then Ok tt else Err e.

(** The session of a request: [auth.uid()] and the clock and uuid
    generator the statement sees. *)
Record session := {
  auth_uid : option uuid;
  now : timestamptz;
  gen_random_uuid : uuid
}.

(** The database: the two tables the policies read. *)
Record database := {
  user_roles : list user_role;
  complaints : list complaint
}.

Definition with_complaints (db : database) (cs : list complaint) : database :=
  {| user_roles := user_roles db; complaints := cs |}.

(** ** [has_role] and the policies on [complaints] *)

Definition has_role (db : database) (_user_id : uuid) (_role : app_role) : bool :=
  existsb (fun ur => N.eqb (ur_user_id ur) _user_id
                     && app_role_eqb (ur_role ur) _role)
          (user_roles db).

(** [auth.uid() = x]: a NULL [auth.uid()] never compares equal. *)
Definition uid_is (s : session) (x : uuid) : bool :=
  match auth_uid s with
  | Some u => N.eqb u x
  | None => false
  end.

Definition uid_has_role (db : database) (s : session) (r : app_role) : bool :=
  match auth_uid s with
  | Some u => has_role db u r
  | None => false
  end.

(** "Students can view their own complaints", "Admins can view all
    complaints". *)
Definition policy_select (db : database) (s : session) (r : complaint) : bool :=
  uid_is s (student_id r) || uid_has_role db s admin.

(** "Students can insert their own complaints". *)
Definition policy_insert_check (s : session) (r : complaint) : bool :=
  uid_is s (student_id r).

(** "Students can update their own pending complaints". *)
Definition policy_update_student (s : session) (r : complaint) : bool :=
  uid_is s (student_id r) && status_eqb (status r) Pending.

(** "Admins can update all complaints". *)
Definition policy_update_admin (db : database) (s : session) : bool :=
  uid_has_role db s admin.

(** The permissive policies of a command are combined with OR.  An UPDATE
    policy that has only a USING clause applies it to the new row as
    well. *)
Definition policy_update_using (db : database) (s : session) (r : complaint) : bool :=
  policy_update_student s r || policy_update_admin db s.

Definition policy_update_check (db : database) (s : session) (r : complaint) : bool :=
  policy_update_student s r || policy_update_admin db s.

(** The check of the new row of an INSERT or UPDATE runs on the tuple
    [NEW] as the BEFORE triggers left it, before the NOT NULL constraints
    are looked at: a column can still be NULL, and a comparison with NULL
    is not true. *)
Definition with_check_insert (s : session) (NEW : tuple) : bool :=
  match t_student_id NEW with
  | Some u => uid_is s u
  | None => false
  end.

Definition with_check_update (db : database) (s : session) (NEW : tuple)
  : bool :=
  match t_student_id NEW, t_status NEW with
  | Some u, Some st => uid_is s u && status_eqb st Pending
  | _, _ => false
  end
  || policy_update_admin db s.

(** ** Triggers *)

(** [update_updated_at_column], BEFORE UPDATE. *)
Definition update_updated_at_column (s : session) (NEW : tuple) : tuple :=
  {| t_id := t_id NEW;
     t_complaint_id := t_complaint_id NEW;
     t_student_id := t_student_id NEW;
     t_title := t_title NEW;
     t_description := t_description NEW;
     t_category := t_category NEW;
     t_ai_suggested_category := t_ai_suggested_category NEW;
     t_priority := t_priority NEW;
     t_ai_priority_score := t_ai_priority_score NEW;
     t_status := t_status NEW;
     t_admin_response := t_admin_response NEW;
     t_ai_suggested_response := t_ai_suggested_response NEW;
     t_created_at := t_created_at NEW;
     t_updated_at := Some (now s) |}.

(** The pattern of the count in [generate_complaint_id]. *)
Definition year_pattern (year_str : text) : text :=
  lit "CMP-" ++ year_str ++ lit "-%".

(** [generate_complaint_id].  The function is not SECURITY DEFINER
    ([has_role] and [handle_new_user] are), and row-level security is
    enabled on [complaints]: its SELECT runs as the inserting session and
    counts the rows the SELECT policies show to that session.
    [count_num] is an INTEGER, so a count beyond its range raises. *)
Definition generate_complaint_id (s : session) (db : database) : result text :=
  let year_str := Pg.to_char_YYYY (ts_year (now s)) in
  let count_num :=
    (Z.of_nat (length (filter (fun r => policy_select db s r
                                        && Pg.like (year_pattern year_str)
                                                   (complaint_id r))
                              (complaints db))) + 1)%Z in
  _ <- require (count_num <=? 2147483647)%Z integer_out_of_range ;;
  Ok (lit "CMP-" ++ year_str ++ lit "-"
        ++ Pg.lpad (Pg.int_to_text count_num) 3 (lit "0")).

(** The text [generate_complaint_id] returns for a year and a value of
    [count_num]. *)
Definition built_code (year : N) (count_num : Z) : text :=
  lit "CMP-" ++ Pg.to_char_YYYY year ++ lit "-"
    ++ Pg.lpad (Pg.int_to_text count_num) 3 (lit "0").

Definition set_t_complaint_id (NEW : tuple) (c : text) : tuple :=
  {| t_id := t_id NEW;
     t_complaint_id := Some c;
     t_student_id := t_student_id NEW;
     t_title := t_title NEW;
     t_description := t_description NEW;
     t_category := t_category NEW;
     t_ai_suggested_category := t_ai_suggested_category NEW;
     t_priority := t_priority NEW;
     t_ai_priority_score := t_ai_priority_score NEW;
     t_status := t_status NEW;
     t_admin_response := t_admin_response NEW;
     t_ai_suggested_response := t_ai_suggested_response NEW;
     t_created_at := t_created_at NEW;
     t_updated_at := t_updated_at NEW |}.

(** [NEW.complaint_id IS NULL OR NEW.complaint_id = ''] *)
Definition no_code_supplied (NEW : tuple) : bool :=
  match t_complaint_id NEW with
  | None => true
  | Some c => text_eqb c empty_string
  end.

(** [set_complaint_id], BEFORE INSERT. *)
Definition set_complaint_id (s : session) (db : database) (NEW : tuple)
  : result tuple :=
  if no_code_supplied NEW then
    c <- generate_complaint_id s db ;;
    Ok (set_t_complaint_id NEW c)
  else Ok NEW.

(** ** Statements *)

(** A column of a new row: its default when left out. *)
Definition or_default {A} (c : col A) (d : option A) : option A :=
  match c with
  | Omitted => d
  | SqlNull => None
  | Value a => Some a
  end.

(** A column of an updated row: its old value when left out. *)
Definition or_old {A} (c : col A) (old : option A) : option A :=
  or_default c old.

(** A cast that can fail, applied to the value of a column. *)
Definition cast_col {A B} (f : A -> option B) (e : pg_error) (c : col A)
  : result (col B) :=
  match c with
  | Omitted => Ok Omitted
  | SqlNull => Ok SqlNull
  | Value a => match f a with
               | Some b => Ok (Value b)
               | None => Err e
               end
  end.

(** The value a [DECIMAL(3,2)] column takes from its input: a number is
    rounded and checked against the precision, [NaN] is stored as it is,
    a refused text raises its error. *)
Definition assign_decimal_3_2 (v : numeric_input) : result decimal :=
  match v with
  | Number q =>
      match cast_decimal_3_2 q with
      | Some h => Ok (Hundredths h)
      | None => Err numeric_field_overflow
      end
  | NotANumber => Ok NaN
  | Refused e => Err e
  end.

Definition cast_col_with {A B} (f : A -> result B) (c : col A)
  : result (col B) :=
  match c with
  | Omitted => Ok Omitted
  | SqlNull => Ok SqlNull
  | Value a => b <- f a ;; Ok (Value b)
  end.

(** The tuple of an INSERT, with the column defaults of the table. *)
Definition new_tuple (s : session) (c : columns) : result tuple :=
  p <- cast_col cast_priority invalid_enum_label (c_priority c) ;;
  sc <- cast_col_with assign_decimal_3_2 (c_ai_priority_score c) ;;
  st <- cast_col cast_status invalid_enum_label (c_status c) ;;
  Ok {| t_id := or_default (c_id c) (Some (gen_random_uuid s));
        t_complaint_id := or_default (c_complaint_id c) None;
        t_student_id := or_default (c_student_id c) None;
        t_title := or_default (c_title c) None;
        t_description := or_default (c_description c) None;
        t_category := or_default (c_category c) None;
        t_ai_suggested_category := or_default (c_ai_suggested_category c) None;
        t_priority := or_default p (Some Medium);
        t_ai_priority_score := or_default sc None;
        t_status := or_default st (Some Pending);
        t_admin_response := or_default (c_admin_response c) None;
        t_ai_suggested_response := or_default (c_ai_suggested_response c) None;
        t_created_at := or_default (c_created_at c) (Some (now s));
        t_updated_at := or_default (c_updated_at c) (Some (now s)) |}.

(** The tuple of an UPDATE of the row [old]. *)
Definition updated_tuple (c : columns) (old : complaint) : result tuple :=
  p <- cast_col cast_priority invalid_enum_label (c_priority c) ;;
  sc <- cast_col_with assign_decimal_3_2 (c_ai_priority_score c) ;;
  st <- cast_col cast_status invalid_enum_label (c_status c) ;;
  Ok {| t_id := or_old (c_id c) (Some (id old));
        t_complaint_id := or_old (c_complaint_id c) (Some (complaint_id old));
        t_student_id := or_old (c_student_id c) (Some (student_id old));
        t_title := or_old (c_title c) (Some (title old));
        t_description := or_old (c_description c) (Some (description old));
        t_category := or_old (c_category c) (category old);
        t_ai_suggested_category :=
          or_old (c_ai_suggested_category c) (ai_suggested_category old);
        t_priority := or_old p (priority old);
        t_ai_priority_score := or_old sc (ai_priority_score old);
        t_status := or_old st (Some (status old));
        t_admin_response := or_old (c_admin_response c) (admin_response old);
        t_ai_suggested_response :=
          or_old (c_ai_suggested_response c) (ai_suggested_response old);
        t_created_at := or_old (c_created_at c) (Some (created_at old));
        t_updated_at := or_old (c_updated_at c) (Some (updated_at old)) |}.

(** The NOT NULL constraints. *)
Definition check_not_null (t : tuple) : result complaint :=
  match t_id t, t_complaint_id t, t_student_id t, t_title t,
        t_description t, t_status t, t_created_at t, t_updated_at t with
  | Some i, Some c, Some sid, Some ti, Some d, Some st, Some ca, Some ua =>
      Ok {| id := i; complaint_id := c; student_id := sid; title := ti;
            description := d; category := t_category t;
            ai_suggested_category := t_ai_suggested_category t;
            priority := t_priority t;
            ai_priority_score := t_ai_priority_score t;
            status := st;
            admin_response := t_admin_response t;
            ai_suggested_response := t_ai_suggested_response t;
            created_at := ca; updated_at := ua |}
  | _, _, _, _, _, _, _, _ => Err not_null_violation
  end.

(** PRIMARY KEY ([id]) and UNIQUE ([complaint_id]) against the rows
    [others]. *)
Definition is_unique_among (r : complaint) (others : list complaint) : bool :=
  forallb (fun o => negb (N.eqb (id o) (id r))
                    && negb (text_eqb (complaint_id o) (complaint_id r)))
          others.

(** The first half of an INSERT: defaults and the BEFORE INSERT trigger,
    which reads the rows visible to the statement. *)
Definition before_insert (s : session) (db : database) (c : columns)
  : result tuple :=
  NEW <- new_tuple s c ;;
  set_complaint_id s db NEW.

(** The second half: the INSERT policy, the NOT NULL constraints, the
    primary key and the UNIQUE constraint, in the order PostgreSQL checks
    them; then the row is stored. *)
Definition store (s : session) (db : database) (NEW : tuple)
  : result database :=
  _ <- require (with_check_insert s NEW) row_level_security_violation ;;
  r <- check_not_null NEW ;;
  _ <- require (is_unique_among r (complaints db)) unique_violation ;;
  Ok (with_complaints db (complaints db ++ [r])).

(** [INSERT INTO complaints], one row, run alone. *)
Definition insert_complaint (s : session) (db : database) (c : columns)
  : result database :=
  NEW <- before_insert s db c ;;
  store s db NEW.

(** The new version of one row of an UPDATE: BEFORE UPDATE trigger, the
    policy on the new row, the NOT NULL constraints, the primary key and
    the UNIQUE constraint. *)
Definition update_row (s : session) (db : database) (c : columns)
           (others : list complaint) (old : complaint) : result complaint :=
  t <- updated_tuple c old ;;
  _ <- require (with_check_update db s (update_updated_at_column s t))
               row_level_security_violation ;;
  r <- check_not_null (update_updated_at_column s t) ;;
  _ <- require (is_unique_among r others) unique_violation ;;
  Ok r.

(** [UPDATE complaints SET ... WHERE id = i]: the rows the filter selects
    and the USING policies let the session see are updated one after the
    other; an error aborts the statement. *)
Fixpoint update_rows (s : session) (db : database) (c : columns) (i : uuid)
         (done todo : list complaint) : result (list complaint) :=
  match todo with
  | [] => Ok done
  | old :: rest =>
      if N.eqb (id old) i && policy_update_using db s old then
        r <- update_row s db c (done ++ rest) old ;;
        update_rows s db c i (done ++ [r]) rest
      else update_rows s db c i (done ++ [old]) rest
  end.

Definition update_complaint_by_id (s : session) (db : database) (c : columns)
           (i : uuid) : result database :=
  cs <- update_rows s db c i [] (complaints db) ;;
  Ok (with_complaints db cs).

(** A request that sets [title] and [description] and nothing else, and
    the row [r] with these two columns set and [updated_at] at [ts]. *)
Definition edit_columns (t d : text) : columns :=
  {| c_id := Omitted; c_complaint_id := Omitted; c_student_id := Omitted;
     c_title := Value t; c_description := Value d; c_category := Omitted;
     c_ai_suggested_category := Omitted; c_priority := Omitted;
     c_ai_priority_score := Omitted; c_status := Omitted;
     c_admin_response := Omitted; c_ai_suggested_response := Omitted;
     c_created_at := Omitted; c_updated_at := Omitted |}.

Definition edited (r : complaint) (t d : text) (ts : timestamptz) : complaint :=
  {| id := id r; complaint_id := complaint_id r; student_id := student_id r;
     title := t; description := d; category := category r;
     ai_suggested_category := ai_suggested_category r;
     priority := priority r; ai_priority_score := ai_priority_score r;
     status := status r; admin_response := admin_response r;
     ai_suggested_response := ai_suggested_response r;
     created_at := created_at r; updated_at := ts |}.

(** ** Notions used in the statements below *)

(** The columns an admin update leaves alone. *)
Definition same_identity (old new : complaint) : Prop :=
  student_id new = student_id old /\ title new = title old
  /\ description new = description old
  /\ complaint_id new = complaint_id old.

(** The rows [generate_complaint_id] counts. *)
Definition counted (s : session) (db : database) : list complaint :=
  filter (fun r => policy_select db s r
                   && Pg.like (year_pattern (Pg.to_char_YYYY (ts_year (now s))))
                              (complaint_id r))
         (complaints db).

(** The stored ticket codes, in the order of the rows. *)
Definition codes (db : database) : list text :=
  map complaint_id (complaints db).

(** The stored codes that match the pattern of a year, in the order of
    the rows. *)
Definition year_codes (y : N) (db : database) : list text :=
  filter (Pg.like (year_pattern (Pg.to_char_YYYY y))) (codes db).

(** The database after a statement: an error leaves it as it was. *)
Definition after (db : database) (r : result database) : database :=
  match r with
  | Ok db' => db'
  | Err _ => db
  end.

End Schema.

(* ===================================================================== *)
(** * TypeScript side: strings and the validation library *)
(* ===================================================================== *)

Module Js.

(** The code units [String.prototype.trim] strips: WhiteSpace and
    LineTerminator of ECMAScript. *)
Definition is_whitespace (c : code_unit) : bool :=
  ((9 <=? c) && (c <=? 13) || (c =? 32) || (c =? 160) || (c =? 5760)
   || (8192 <=? c) && (c <=? 8202) || (c =? 8232) || (c =? 8233)
   || (c =? 8239) || (c =? 8287) || (c =? 12288) || (c =? 65279))%N.

Fixpoint trimStart (s : text) : text :=
  match s with
  | [] => []
  | c :: s' => if is_whitespace c then trimStart s' else s
  end.

Definition trimEnd (s : text) : text := rev (trimStart (rev s)).

Definition trim (s : text) : text := trimEnd (trimStart s).

(** A string is truthy when it is not empty. *)
Definition truthy (s : text) : bool :=
  match s with [] => false | _ :: _ => true end.

(** [a || b] on strings. *)
Definition or_else (a b : text) : text := if truthy a then a else b.

(** A [Record<string, string>]: assignment replaces the entry of a key. *)
Definition record := list (text * text).

Fixpoint record_set (r : record) (k v : text) : record :=
  match r with
  | [] => [(k, v)]
  | (k', v') :: r' =>
      if text_eqb k' k then (k, v) :: r' else (k', v') :: record_set r' k v
  end.

Fixpoint record_get (r : record) (k : text) : option text :=
  match r with
  | [] => None
  | (k', v') :: r' => if text_eqb k' k then Some v' else record_get r' k
  end.

End Js.

(** The part of zod the form uses: string schemas with [trim], [min] and
    [max], an object schema of three string fields, and [safeParse]. *)
Module Zod.

Inductive string_check :=
| trim
| min (value : nat) (message : text)
| max (value : nat) (message : text).

(** [z.string()] followed by its checks, in the order they were chained. *)
Definition ZodString := list string_check.

Record issue := { path : list text; message : text }.

(** The checks run in order on the current value; [trim] replaces the
    value, [min] and [max] compare its length and add an issue. *)
Fixpoint parse_string (checks : ZodString) (data : text)
  : text * list text :=
  match checks with
  | [] => (data, [])
  | trim :: rest => parse_string rest (Js.trim data)
  | min value message :: rest =>
      let (v, issues) := parse_string rest data in
      if Nat.ltb (length data) value then (v, message :: issues)
      else (v, issues)
  | max value message :: rest =>
      let (v, issues) := parse_string rest data in
      if Nat.ltb value (length data) then (v, message :: issues)
      else (v, issues)
  end.

Record fields (A : Type) := { title : A; description : A; category : A }.

Inductive SafeParseReturnType :=
| success (data : fields text)
| error (errors : list issue).

Definition at_path (key : text) (messages : list text) : list issue :=
  map (fun m => {| path := [key]; message := m |}) messages.

(** [z.object({title, description, category}).safeParse(input)]: every
    field is parsed and the issues of all fields are collected. *)
Definition safeParse (schema : fields ZodString) (input : fields text)
  : SafeParseReturnType :=
  let (t, it) := parse_string (title schema) (title input) in
  let (d, id) := parse_string (description schema) (description input) in
  let (c, ic) := parse_string (category schema) (category input) in
  match at_path (lit "title") it ++ at_path (lit "description") id
        ++ at_path (lit "category") ic with
  | [] => success {| title := t; description := d; category := c |}
  | issues => error issues
  end.

End Zod.

(* ===================================================================== *)
(** * The classification endpoint *)
(* ===================================================================== *)

Module AnalyzeComplaint.

(** A JSON value.  A number stands for the rational its text denotes,
    the text [JSON.stringify] writes for it. *)
#[warnings="-register-all"] Inductive json :=
| JNull
| JBool (b : bool)
| JNumber (q : Q)
| JString (s : text)
| JArray (items : list json)
| JObject (members : list (text * json)).

(** A value read from JSON data: [undefined] or a JSON value. *)
Definition value := option json.
Definition undefined : value := None.

(** What a platform call can throw: an [Error] with its message, or
    something that is not an [Error]. *)
Inductive thrown :=
| Error (message : text)
| NotAnError.

Definition completion (A : Type) : Type := (A + thrown)%type.

Fixpoint member (k : text) (members : list (text * json)) : value :=
  match members with
  | [] => undefined
  | (k', v) :: rest => if text_eqb k' k then Some v else member k rest
  end.

(** [v.k] for the keys the handler and the form read ([choices],
    [message], [tool_calls], [function], [arguments], [title],
    [description], [category], [suggestedCategory], [priority],
    [priorityScore], [suggestedResponse]): an own member of an object,
    [undefined] on any other value.  None of these keys is a property of
    arrays, strings, numbers or booleans.  (Reading a property of [null]
    or [undefined] throws, see [get].) *)
Definition get_member (v : json) (k : text) : value :=
  match v with
  | JObject members => member k members
  | _ => undefined
  end.

(** [v.k]; reading a property of [null] or [undefined] throws a
    [TypeError], whose message [msg] is the engine's. *)
Definition get (msg : text) (v : value) (k : text) : completion value :=
  match v with
  | None | Some JNull => inr (Error msg)
  | Some j => inl (get_member j k)
  end.

(** [v?.k] *)
Definition get_opt (v : value) (k : text) : value :=
  match v with
  | None | Some JNull => undefined
  | Some j => get_member j k
  end.

(** [v?.[0]]: the first element of an array, the first code unit of a
    string, the member ["0"] of an object. *)
Definition index0_opt (v : value) : value :=
  match v with
  | None | Some JNull => undefined
  | Some (JArray items) => match items with [] => undefined | x :: _ => Some x end
  | Some (JString s) => match s with [] => undefined | c :: _ => Some (JString [c]) end
  | Some (JObject members) => member (lit "0") members
  | Some _ => undefined
  end.

(** [!v] is false for the truthy values. *)
Definition truthy (v : value) : bool :=
  match v with
  | None | Some JNull => false
  | Some (JBool b) => b
  | Some (JNumber q) => negb (Qeq_bool q 0)
  | Some (JString s) => Js.truthy s
  | Some (JArray _) | Some (JObject _) => true
  end.

(** The answer of the gateway as the handler reads it. *)
Record gateway_response := {
  ok : bool;
  status : N;
  response_text : completion text;
  response_json : completion json
}.

(** One request and what the platform answers to the calls of the
    handler: the method, [req.json()], [Deno.env.get("LOVABLE_API_KEY")],
    [fetch] to the gateway (given the key and the three fields of the
    body), and [JSON.parse] of the tool-call arguments. *)
Record request := {
  method : text;
  req_json : completion json;
  LOVABLE_API_KEY : option text;
  fetch : text -> value -> value -> value -> completion gateway_response;
  JSON_parse : json -> completion json;
  TypeError_message : text
}.

(** A [Response]: status (200 when none is given) and body, the JSON text
    of a value or nothing. *)
Record response := {
  res_status : N;
  res_body : option json
}.

Definition error_body (message : text) : json :=
  JObject [(lit "error", JString message)].

(** [`AI Gateway error: ${response.status}`] *)
Definition gateway_error_message (status : N) : text :=
  lit "AI Gateway error: " ++ Pg.text_of_uint (N.to_uint status).

Definition throw_error {A} (message : text) : completion A :=
  inr (Error message).

Definition and_then {A B} (c : completion A) (k : A -> completion B)
  : completion B :=
  match c with
  | inl a => k a
  | inr e => inr e
  end.

Declare Scope completion_scope.
Delimit Scope completion_scope with completion.
Notation "x <- c ;; k" := (and_then c (fun x => k))
  (at level 61, c at next level, right associativity) : completion_scope.

Local Open Scope completion_scope.

(** The first part of the [try] block, up to the answer of the gateway:
    the body of the request is read and destructured, the key is looked
    up, the gateway is called. *)
Definition call_gateway (r : request) : completion gateway_response :=
  body <- req_json r ;;
  (* const { title, description, category } = ... *)
  title <- get (TypeError_message r) (Some body) (lit "title") ;;
  description <- get (TypeError_message r) (Some body) (lit "description") ;;
  category <- get (TypeError_message r) (Some body) (lit "category") ;;
  match LOVABLE_API_KEY r with
  | None => throw_error (lit "LOVABLE_API_KEY is not configured")
  | Some key =>
      if negb (Js.truthy key) then
        throw_error (lit "LOVABLE_API_KEY is not configured")
      else fetch r key title description category
  end.

(** [data.choices?.[0]?.message?.tool_calls?.[0]] and the test of
    [toolCall.function?.arguments]: the arguments of the tool call, or the
    exception thrown. *)
Definition tool_call_arguments (r : request) (data : json) : completion json :=
  choices <- get (TypeError_message r) (Some data) (lit "choices") ;;
  let toolCall :=
    index0_opt (get_opt (get_opt (index0_opt choices) (lit "message"))
                        (lit "tool_calls")) in
  let arguments := get_opt (get_opt toolCall (lit "function")) (lit "arguments") in
  if negb (truthy toolCall) || negb (truthy arguments) then
    throw_error (lit "No valid response from AI")
  else
    match arguments with
    | None => throw_error (lit "No valid response from AI")
    | Some a => inl a
    end.

Definition rate_limit_response : response :=
  {| res_status := 429;
     res_body := Some (error_body
       (lit "Rate limit exceeded. Please try again later.")) |}.

Definition payment_response : response :=
  {| res_status := 402;
     res_body := Some (error_body
       (lit "AI service requires payment. Please contact administrator.")) |}.

(** The rest of the [try] block, from the answer of the gateway on. *)
Definition read_answer (r : request) (resp : gateway_response)
  : completion response :=
  if negb (ok resp) then
    errorText <- response_text resp ;;
    if N.eqb (status resp) 429 then inl rate_limit_response
    else if N.eqb (status resp) 402 then inl payment_response
    else throw_error (gateway_error_message (status resp))
  else
    data <- response_json resp ;;
    a <- tool_call_arguments r data ;;
    analysis <- JSON_parse r a ;;
    inl {| res_status := 200; res_body := Some analysis |}.

(** The [try] block. *)
Definition try_block (r : request) : completion response :=
  resp <- call_gateway r ;;
  read_answer r resp.

(** The [catch] block. *)
Definition catch_block (error : thrown) : response :=
  {| res_status := 500;
     res_body := Some (error_body
       match error with
       | Error message => message
       | NotAnError => lit "Unknown error"
       end) |}.

(** The handler passed to [serve]. *)
Definition handler (r : request) : response :=
  if text_eqb (method r) (lit "OPTIONS") then
    {| res_status := 200; res_body := None |}
  else
    match try_block r with
    | inl res => res
    | inr error => catch_block error
    end.

(** The structured result: an object with the four members, two strings,
    a number and a string. *)
Definition is_structured_result (j : json) : bool :=
  match get_member j (lit "suggestedCategory"), get_member j (lit "priority"),
        get_member j (lit "priorityScore"), get_member j (lit "suggestedResponse") with
  | Some (JString _), Some (JString _), Some (JNumber _), Some (JString _) => true
  | _, _, _, _ => false
  end.

(** An error object [{ error: string }]. *)
Definition is_error_object (j : json) : bool :=
  match j with
  | JObject [(k, JString _)] => text_eqb k (lit "error")
  | _ => false
  end.

(** The result the handler is meant to give, the structured result or an
    error object. *)
Definition expected_body (res : response) : bool :=
  match res_body res with
  | Some j => is_structured_result j || is_error_object j
  | None => false
  end.

End AnalyzeComplaint.

(* ===================================================================== *)
(** * The complaint form *)
(* ===================================================================== *)

Module ComplaintForm.

Definition complaintSchema : Zod.fields Zod.ZodString :=
  {| Zod.title :=
       [Zod.trim;
        Zod.min 5 (lit "Title must be at least 5 characters");
        Zod.max 200 (lit "Title too long")];
     Zod.description :=
       [Zod.trim;
        Zod.min 20 (lit "Description must be at least 20 characters");
        Zod.max 2000 (lit "Description too long")];
     Zod.category :=
       [Zod.min 1 (lit "Please select a category")] |}.

Definition categories : list text :=
  [lit "Infrastructure"; lit "Faculty"; lit "Curriculum";
   lit "Administration"; lit "Facilities"; lit "Other"].

(** The data of a classification call that returned no error: the body
    of the answer as the client parsed it.  The form does not check it; it
    is any JSON value. *)
Definition analysis := AnalyzeComplaint.json.

(** What the form can catch: the error of the function call, the
    [TypeError] of reading a member of [null], or the error of the insert,
    each with its message. *)
Inductive js_error :=
| FunctionsError (message : text)
| TypeError (message : text)
| PostgrestError (e : Schema.pg_error) (message : text).

Definition error_message (e : js_error) : text :=
  match e with
  | FunctionsError m => m
  | TypeError m => m
  | PostgrestError _ m => m
  end.

Record toast_message := {
  toast_title : text;
  toast_description : text;
  destructive : bool
}.

(** The [useState] cells of the component. *)
Record state := {
  title : text;
  description : text;
  category : text;
  errors : Js.record;
  loading : bool
}.

(** Everything [handleSubmit] can change: the component state, the
    database behind the client, the toasts shown, the calls of
    [onSuccess], the bodies sent to the classification function and the
    rows sent to [insert]. *)
Record world := {
  st : state;
  db : Schema.database;
  toasts : list toast_message;
  onSuccess_calls : nat;
  invocations : list (Zod.fields text);
  inserts : list Schema.columns
}.

(** What the component reads: the session of the supabase client (its
    user is the [user] of the auth context), the answer of the
    classification function to a body, the message the client attaches
    to a database error, and the message of the engine's [TypeError]; and
    how the database reads the members of a request body that are not of
    the JSON kind of their column: the text it takes from a JSON number,
    boolean, array or object, and what [numeric_in] makes of a text. *)
Record context := {
  session : Schema.session;
  analyze_complaint : Zod.fields text -> js_error + analysis;
  postgrest_message : Schema.pg_error -> text;
  TypeError_message : text;
  json_text : AnalyzeComplaint.json -> text;
  numeric_in : text -> Schema.numeric_input
}.

(** State and exceptions. *)
Definition M (A : Type) : Type := world -> (A + js_error) * world.

Definition ret {A} (a : A) : M A := fun w => (inl a, w).

Definition bind {A B} (m : M A) (k : A -> M B) : M B :=
  fun w => match m w with
           | (inl a, w') => k a w'
           | (inr e, w') => (inr e, w')
           end.

Definition throw {A} (e : js_error) : M A := fun w => (inr e, w).

Declare Scope js_scope.
Delimit Scope js_scope with js.
Notation "x <- m ;; k" := (bind m (fun x => k))
  (at level 61, m at next level, right associativity) : js_scope.
Notation "m ;; k" := (bind m (fun _ => k))
  (at level 61, right associativity) : js_scope.

(** [try { body } catch (e) { handler e } finally { finalizer }] *)
Definition try_catch_finally (body : M unit) (handler : js_error -> M unit)
           (finalizer : M unit) : M unit :=
  fun w =>
    match body w with
    | (inl _, w1) => finalizer w1
    | (inr e, w1) =>
        match handler e w1 with
        | (inl _, w2) => finalizer w2
        | (inr e', w2) =>
            match finalizer w2 with
            | (inl _, w3) => (inr e', w3)
            | (inr e'', w3) => (inr e'', w3)
            end
        end
    end.

Definition set_state (f : state -> state) : M unit :=
  fun w => (inl tt, {| st := f (st w); db := db w; toasts := toasts w;
                       onSuccess_calls := onSuccess_calls w;
                       invocations := invocations w;
                       inserts := inserts w |}).

Definition setTitle (v : text) : M unit :=
  set_state (fun s => {| title := v; description := description s;
                         category := category s; errors := errors s;
                         loading := loading s |}).

Definition setDescription (v : text) : M unit :=
  set_state (fun s => {| title := title s; description := v;
                         category := category s; errors := errors s;
                         loading := loading s |}).

Definition setCategory (v : text) : M unit :=
  set_state (fun s => {| title := title s; description := description s;
                         category := v; errors := errors s;
                         loading := loading s |}).

Definition setErrors (v : Js.record) : M unit :=
  set_state (fun s => {| title := title s; description := description s;
                         category := category s; errors := v;
                         loading := loading s |}).

Definition setLoading (v : bool) : M unit :=
  set_state (fun s => {| title := title s; description := description s;
                         category := category s; errors := errors s;
                         loading := v |}).

Definition toast (t : toast_message) : M unit :=
  fun w => (inl tt, {| st := st w; db := db w; toasts := toasts w ++ [t];
                       onSuccess_calls := onSuccess_calls w;
                       invocations := invocations w;
                       inserts := inserts w |}).

Definition onSuccess : M unit :=
  fun w => (inl tt, {| st := st w; db := db w; toasts := toasts w;
                       onSuccess_calls := S (onSuccess_calls w);
                       invocations := invocations w;
                       inserts := inserts w |}).

(** [supabase.functions.invoke("analyze-complaint", { body })] *)
Definition functions_invoke (c : context) (body : Zod.fields text)
  : M (js_error + analysis) :=
  fun w => (inl (analyze_complaint c body),
            {| st := st w; db := db w; toasts := toasts w;
               onSuccess_calls := onSuccess_calls w;
               invocations := invocations w ++ [body];
               inserts := inserts w |}).

(** [supabase.from("complaints").insert(row)]: the statement runs in the
    session of the client; the call returns the error, if any. *)
Definition from_complaints_insert (c : context) (row : Schema.columns)
  : M (option js_error) :=
  fun w =>
    match Schema.insert_complaint (session c) (db w) row with
    | Schema.Ok db' =>
        (inl None, {| st := st w; db := db'; toasts := toasts w;
                      onSuccess_calls := onSuccess_calls w;
                      invocations := invocations w;
                      inserts := inserts w ++ [row] |})
    | Schema.Err e =>
        (inl (Some (PostgrestError e (postgrest_message c e))),
         {| st := st w; db := db w; toasts := toasts w;
            onSuccess_calls := onSuccess_calls w;
            invocations := invocations w;
            inserts := inserts w ++ [row] |})
    end.

(** [functionData.suggestedCategory] and the three reads after it: a
    member of [null] cannot be read. *)
Definition read_members (c : context) (functionData : analysis) : M unit :=
  match functionData with
  | AnalyzeComplaint.JNull => throw (TypeError (TypeError_message c))
  | _ => ret tt
  end.

(** A member of the request body as a TEXT or enum column reads it: a
    member that is [undefined] is not sent, [null] is NULL, a string is
    its text, any other value the text the database takes from it. *)
Definition text_column (c : context) (v : AnalyzeComplaint.value)
  : Schema.col text :=
  match v with
  | None => Schema.Omitted
  | Some AnalyzeComplaint.JNull => Schema.SqlNull
  | Some (AnalyzeComplaint.JString t) => Schema.Value t
  | Some j => Schema.Value (json_text c j)
  end.

(** The same for a DECIMAL column: a number is read as it is, any other
    value goes through [numeric_in] as a text. *)
Definition numeric_column (c : context) (v : AnalyzeComplaint.value)
  : Schema.col Schema.numeric_input :=
  match v with
  | None => Schema.Omitted
  | Some AnalyzeComplaint.JNull => Schema.SqlNull
  | Some (AnalyzeComplaint.JNumber q) => Schema.Value (Schema.Number q)
  | Some (AnalyzeComplaint.JString t) => Schema.Value (numeric_in c t)
  | Some j => Schema.Value (numeric_in c (json_text c j))
  end.

(** The object passed to [insert] as the database reads it; [user?.id] is
    left out when there is no user, and so is every member
    [functionData] does not have. *)
Definition insert_row (c : context) (data : Zod.fields text)
           (functionData : analysis) : Schema.columns :=
  {| Schema.c_id := Schema.Omitted;
     Schema.c_complaint_id := Schema.Value empty_string;
     Schema.c_student_id :=
       match Schema.auth_uid (session c) with
       | Some user_id => Schema.Value user_id
       | None => Schema.Omitted
       end;
     Schema.c_title := Schema.Value (Zod.title data);
     Schema.c_description := Schema.Value (Zod.description data);
     Schema.c_category := Schema.Value (Zod.category data);
     Schema.c_ai_suggested_category :=
       text_column c (AnalyzeComplaint.get_member functionData
                                                  (lit "suggestedCategory"));
     Schema.c_priority :=
       text_column c (AnalyzeComplaint.get_member functionData (lit "priority"));
     Schema.c_ai_priority_score :=
       numeric_column c (AnalyzeComplaint.get_member functionData
                                                     (lit "priorityScore"));
     Schema.c_status := Schema.Omitted;
     Schema.c_admin_response := Schema.Omitted;
     Schema.c_ai_suggested_response :=
       text_column c (AnalyzeComplaint.get_member functionData
                                                  (lit "suggestedResponse"));
     Schema.c_created_at := Schema.Omitted;
     Schema.c_updated_at := Schema.Omitted |}.

(** The loop over [validation.error.errors]. *)
Definition newErrors (issues : list Zod.issue) : Js.record :=
  fold_left (fun acc err =>
               match Zod.path err with
               | k :: _ => if Js.truthy k then Js.record_set acc k (Zod.message err)
                           else acc
               | [] => acc
               end)
            issues [].

(** The [errors] state a submission of [input] leaves: empty when the
    input passes validation. *)
Definition validation_errors (input : Zod.fields text) : Js.record :=
  match Zod.safeParse complaintSchema input with
  | Zod.error issues => newErrors issues
  | Zod.success _ => []
  end.

(** The input passes validation. *)
Definition accepts (input : Zod.fields text) : bool :=
  match Zod.safeParse complaintSchema input with
  | Zod.error _ => false
  | Zod.success _ => true
  end.

Local Open Scope js_scope.

(** [{ title, description, category }], the state the handler closes
    over. *)
Definition form_input (w : world) : Zod.fields text :=
  {| Zod.title := title (st w);
     Zod.description := description (st w);
     Zod.category := category (st w) |}.

Definition handleSubmit (c : context) : M unit :=
  fun w0 =>
    let input := form_input w0 in
    (setErrors [] ;;
     match Zod.safeParse complaintSchema input with
     | Zod.error issues => setErrors (newErrors issues)
     | Zod.success data =>
         setLoading true ;;
         try_catch_finally
           (r <- functions_invoke c input ;;
            match r with
            | inl functionError => throw functionError
            | inr functionData =>
                read_members c functionData ;;
                error <- from_complaints_insert c (insert_row c data functionData) ;;
                match error with
                | Some e => throw e
                | None =>
                    toast {| toast_title := lit "Success";
                             toast_description := lit "Complaint submitted successfully";
                             destructive := false |} ;;
                    setTitle empty_string ;;
                    setDescription empty_string ;;
                    setCategory empty_string ;;
                    onSuccess
                end
            end)
           (fun error =>
              toast {| toast_title := lit "Error";
                       toast_description :=
                         Js.or_else (error_message error)
                                    (lit "Failed to submit complaint");
                       destructive := true |})
           (setLoading false)
     end) w0.

End ComplaintForm.

(* ===================================================================== *)
(** * The admin dashboard *)
(* ===================================================================== *)

Module AdminDashboard.

Record toast_message := {
  toast_title : text;
  toast_description : text;
  destructive : bool
}.

(** The object passed to [update]: [{ status, admin_response: response }]. *)
Definition update_columns (status : Schema.complaint_status) (response : text)
  : Schema.columns :=
  {| Schema.c_id := Schema.Omitted;
     Schema.c_complaint_id := Schema.Omitted;
     Schema.c_student_id := Schema.Omitted;
     Schema.c_title := Schema.Omitted;
     Schema.c_description := Schema.Omitted;
     Schema.c_category := Schema.Omitted;
     Schema.c_ai_suggested_category := Schema.Omitted;
     Schema.c_priority := Schema.Omitted;
     Schema.c_ai_priority_score := Schema.Omitted;
     Schema.c_status := Schema.Value (Schema.status_label status);
     Schema.c_admin_response := Schema.Value response;
     Schema.c_ai_suggested_response := Schema.Omitted;
     Schema.c_created_at := Schema.Omitted;
     Schema.c_updated_at := Schema.Omitted |}.

(** [updateComplaint(id, status, response)] in the session of the client:
    the database afterwards and the toast shown.  The [loadComplaints]
    that follows a success only reads. *)
Definition updateComplaint (s : Schema.session) (db : Schema.database)
           (id : Schema.uuid) (status : Schema.complaint_status)
           (response : text) : Schema.database * toast_message :=
  match Schema.update_complaint_by_id s db (update_columns status response) id with
  | Schema.Err _ =>
      (db, {| toast_title := lit "Error";
              toast_description := lit "Failed to update complaint";
              destructive := true |})
  | Schema.Ok db' =>
      (db', {| toast_title := lit "Success";
               toast_description := lit "Complaint updated successfully";
               destructive := false |})
  end.

End AdminDashboard.

(* ===================================================================== *)
(** * Inserts that overlap *)
(* ===================================================================== *)

(** Two creations overlap when the trigger of the second reads the table
    before the first has stored its row.  An INSERT is split in its two
    halves: [Begin] runs the defaults and the BEFORE INSERT trigger on the
    rows stored at that moment, [Finish] checks the constraints against
    the rows stored by then and stores the row, or fails and stores
    nothing.  An UPDATE by id reads no other row in a trigger and is one
    event, [Update].  A schedule is any order of such events. *)
Module Concurrent.

Record in_flight := {
  its_session : Schema.session;
  its_tuple : Schema.tuple
}.

Record state := {
  db : Schema.database;
  running : list in_flight
}.

Inductive event :=
| Begin (s : Schema.session) (c : Schema.columns)
| Finish (k : nat)
| Update (s : Schema.session) (c : Schema.columns) (i : Schema.uuid).

Fixpoint remove_nth {A} (k : nat) (l : list A) : list A :=
  match k, l with
  | _, [] => []
  | O, _ :: l' => l'
  | S k', x :: l' => x :: remove_nth k' l'
  end.

Definition exec (st : state) (e : event) : state :=
  match e with
  | Begin s c =>
      match Schema.before_insert s (db st) c with
      | Schema.Ok NEW =>
          {| db := db st;
             running := running st ++ [{| its_session := s; its_tuple := NEW |}] |}
      | Schema.Err _ => st
      end
  | Finish k =>
      match nth_error (running st) k with
      | Some x =>
          {| db := Schema.after (db st)
                     (Schema.store (its_session x) (db st) (its_tuple x));
             running := remove_nth k (running st) |}
      | None => st
      end
  | Update s c i =>
      {| db := Schema.after (db st)
                 (Schema.update_complaint_by_id s (db st) c i);
         running := running st |}
  end.

Definition run (st : state) (schedule : list event) : state :=
  fold_left exec schedule st.

Definition start (db0 : Schema.database) : state :=
  {| db := db0; running := [] |}.

(** The request supplies no ticket code: the column is left out, null or
    the empty string. *)
Definition supplies_no_code (c : Schema.columns) : bool :=
  match Schema.c_complaint_id c with
  | Schema.Omitted | Schema.SqlNull => true
  | Schema.Value t => text_eqb t empty_string
  end.

(** The request is like the one of the form: it supplies no ticket code
    and no creation time. *)
Definition as_the_form_does (c : Schema.columns) : bool :=
  supplies_no_code c
  && match Schema.c_created_at c with
     | Schema.Omitted => true
     | _ => false
     end.

(** The request sets neither the ticket code nor the creation time. *)
Definition keeps_code_and_date (c : Schema.columns) : bool :=
  match Schema.c_complaint_id c, Schema.c_created_at c with
  | Schema.Omitted, Schema.Omitted => true
  | _, _ => false
  end.

(** Every insert is like the one of the form, and no update sets the
    ticket code or the creation time. *)
Definition form_only (e : event) : bool :=
  match e with
  | Begin _ c => as_the_form_does c
  | Finish _ => true
  | Update _ c _ => keeps_code_and_date c
  end.

End Concurrent.

(* ===================================================================== *)
(** * The ticket code as the specification words it *)
(* ===================================================================== *)

Module Spec.

(** A number zero-padded to three digits: zeros are put in front of a
    number of fewer than three digits, a longer number is left as it
    is. *)
Definition zero_pad3 (n : nat) : text :=
  let d := Pg.int_to_text (Z.of_nat n) in
  repeat 48%N (3 - length d) ++ d.

(** [CMP-<year>-<seq>] *)
Definition ticket_code (year : N) (seq : nat) : text :=
  lit "CMP-" ++ Pg.to_char_YYYY year ++ lit "-" ++ zero_pad3 seq.

(** A text of the form [CMP-<year>-NNN]: the year of the given digits,
    then three digits. *)
Definition has_ticket_form (year : N) (t : text) : bool :=
  starts_with (lit "CMP-" ++ Pg.to_char_YYYY year ++ lit "-") t
  && match skipn (length (lit "CMP-" ++ Pg.to_char_YYYY year ++ lit "-")) t with
     | [a; b; c] => is_digit a && is_digit b && is_digit c
     | _ => false
     end.

(** The code the specification assigns to a row inserted without one:
    the count of the stored rows whose code starts with [CMP-<year>-],
    plus one. *)
Definition assigned_code (year : N) (rows : list Schema.complaint) : text :=
  ticket_code year
    (length (filter (fun r => starts_with
                                (lit "CMP-" ++ Pg.to_char_YYYY year ++ lit "-")
                                (Schema.complaint_id r))
                    rows) + 1).

(** The row was created in the calendar year [year]. *)
Definition created_in (year : N) (r : Schema.complaint) : bool :=
  N.eqb (Schema.ts_year (Schema.created_at r)) year.

End Spec.

(* ===================================================================== *)
(** * The invariant of form-created tables *)
(* ===================================================================== *)

Module Invariant.

Import Schema.

(** The invariant of a table whose rows were all created as the form
    creates them: the codes of a year are numbered from 001 in the order
    of the rows, every row carries the year of its creation, and an insert
    in flight holds a code whose number is at most one beyond the codes
    of its year stored so far. *)
Record numbered (st : Concurrent.state) : Prop := {
  by_year : forall y, exists n,
      n <= 999
      /\ year_codes y (Concurrent.db st) = map (Spec.ticket_code y) (seq 1 n);
  dated : forall r, In r (complaints (Concurrent.db st)) ->
      exists k, 1 <= k <= 999
                /\ complaint_id r = Spec.ticket_code (ts_year (created_at r)) k;
  waiting : forall x, In x (Concurrent.running st) ->
      exists k,
        1 <= k <= length (year_codes (ts_year (now (Concurrent.its_session x)))
                                     (Concurrent.db st)) + 1
        /\ t_complaint_id (Concurrent.its_tuple x)
           = Some (built_code (ts_year (now (Concurrent.its_session x)))
                              (Z.of_nat k))
        /\ t_created_at (Concurrent.its_tuple x)
           = Some (now (Concurrent.its_session x))
}.

End Invariant.

(* ===================================================================== *)
(** * Concrete inputs used by the examples below *)
(* ===================================================================== *)

Module Examples.

(** A title of 201 code units, 196 letters followed by five spaces. *)
Definition padded_title : text := repeat 97%N 196 ++ repeat 32%N 5.

(** A title of five code units, four spaces and a letter. *)
Definition blank_title : text := lit "    a".

Definition a_description : text := lit "The projector in Lab 3 is broken.".

Definition padded_input : Zod.fields text :=
  {| Zod.title := padded_title;
     Zod.description := a_description;
     Zod.category := lit "Facilities" |}.

Definition blank_input : Zod.fields text :=
  {| Zod.title := blank_title;
     Zod.description := a_description;
     Zod.category := lit "Facilities" |}.

Definition a_form_input : Zod.fields text :=
  {| Zod.title := lit "Broken projector in Lab 3";
     Zod.description := a_description;
     Zod.category := lit "Facilities" |}.

(** The same with a category that is not one of the six. *)
Definition unlisted_category_input : Zod.fields text :=
  {| Zod.title := lit "Broken projector in Lab 3";
     Zod.description := a_description;
     Zod.category := lit "Parking" |}.

(** The roles of three users: 1 and 2 are students, 9 is an admin as
    well.  Then an empty table and the session of a user's client in 2025. *)
Definition roles : list Schema.user_role :=
  [{| Schema.ur_user_id := 1%N; Schema.ur_role := Schema.student |};
   {| Schema.ur_user_id := 2%N; Schema.ur_role := Schema.student |};
   {| Schema.ur_user_id := 9%N; Schema.ur_role := Schema.student |};
   {| Schema.ur_user_id := 9%N; Schema.ur_role := Schema.admin |}].

Definition empty_db : Schema.database :=
  {| Schema.user_roles := roles; Schema.complaints := [] |}.

Definition in_2025 : Schema.timestamptz :=
  {| Schema.ts_year := 2025%N; Schema.ts_rest := 0%N |}.

Definition session_of (user : N) (fresh : N) : Schema.session :=
  {| Schema.auth_uid := Some user;
     Schema.now := in_2025;
     Schema.gen_random_uuid := fresh |}.

(** The classification of the scenario of the specification. *)
Definition medium_analysis : ComplaintForm.analysis :=
  AnalyzeComplaint.JObject
    [(lit "suggestedCategory", AnalyzeComplaint.JString (lit "Facilities"));
     (lit "priority", AnalyzeComplaint.JString (lit "Medium"));
     (lit "priorityScore", AnalyzeComplaint.JNumber (7 # 10)%Q);
     (lit "suggestedResponse",
      AnalyzeComplaint.JString (lit "We will repair it."))].

(** A classification whose score has three decimals. *)
Definition fine_analysis : ComplaintForm.analysis :=
  AnalyzeComplaint.JObject
    [(lit "suggestedCategory", AnalyzeComplaint.JString (lit "Facilities"));
     (lit "priority", AnalyzeComplaint.JString (lit "High"));
     (lit "priorityScore", AnalyzeComplaint.JNumber (876 # 1000)%Q);
     (lit "suggestedResponse",
      AnalyzeComplaint.JString (lit "We will repair it."))].

(** A database that takes the text [{}] from every JSON value that is not
    a string and whose [numeric_in] reads no text as a number. *)
Definition context_of (s : Schema.session)
           (a : ComplaintForm.js_error + ComplaintForm.analysis)
  : ComplaintForm.context :=
  {| ComplaintForm.session := s;
     ComplaintForm.analyze_complaint := fun _ => a;
     ComplaintForm.postgrest_message := fun _ => lit "database error";
     ComplaintForm.TypeError_message :=
       lit "Cannot read properties of null (reading 'suggestedCategory')";
     ComplaintForm.json_text := fun _ => lit "{}";
     ComplaintForm.numeric_in :=
       fun _ => Schema.Refused Schema.invalid_text_representation |}.

Definition context_answering (a : ComplaintForm.js_error + ComplaintForm.analysis)
  : ComplaintForm.context :=
  context_of (session_of 1 100) a.

(** The classification function answers with an error. *)
Definition failing_context : ComplaintForm.context :=
  context_answering
    (inl (ComplaintForm.FunctionsError
            (lit "Edge Function returned a non-2xx status code"))).

Definition filled_form : ComplaintForm.world :=
  {| ComplaintForm.st :=
       {| ComplaintForm.title := Zod.title a_form_input;
          ComplaintForm.description := Zod.description a_form_input;
          ComplaintForm.category := Zod.category a_form_input;
          ComplaintForm.errors := [];
          ComplaintForm.loading := false |};
     ComplaintForm.db := empty_db;
     ComplaintForm.toasts := [];
     ComplaintForm.onSuccess_calls := 0;
     ComplaintForm.invocations := [];
     ComplaintForm.inserts := [] |}.

(** The row the scenario of the specification stores. *)
Definition scenario_row : Schema.complaint :=
  {| Schema.id := 100%N;
     Schema.complaint_id := lit "CMP-2025-001";
     Schema.student_id := 1%N;
     Schema.title := Zod.title a_form_input;
     Schema.description := Zod.description a_form_input;
     Schema.category := Some (lit "Facilities");
     Schema.ai_suggested_category := Some (lit "Facilities");
     Schema.priority := Some Schema.Medium;
     Schema.ai_priority_score := Some (Schema.Hundredths 70);
     Schema.status := Schema.Pending;
     Schema.admin_response := None;
     Schema.ai_suggested_response := Some (lit "We will repair it.");
     Schema.created_at := in_2025;
     Schema.updated_at := in_2025 |}.

(** The row the form sends for [a_form_input] and [medium_analysis]. *)
Definition form_row : Schema.columns :=
  ComplaintForm.insert_row (context_answering (inr medium_analysis))
                           a_form_input medium_analysis.

(** The [k]-th complaint of student 1 in 2025, as the form and the trigger
    store it. *)
Definition numbered_row (k : nat) : Schema.complaint :=
  {| Schema.id := (100 + N.of_nat k)%N;
     Schema.complaint_id := Spec.ticket_code 2025 k;
     Schema.student_id := 1%N;
     Schema.title := Zod.title a_form_input;
     Schema.description := Zod.description a_form_input;
     Schema.category := Some (lit "Facilities");
     Schema.ai_suggested_category := Some (lit "Facilities");
     Schema.priority := Some Schema.Medium;
     Schema.ai_priority_score := Some (Schema.Hundredths 70);
     Schema.status := Schema.Pending;
     Schema.admin_response := None;
     Schema.ai_suggested_response := Some (lit "We will repair it.");
     Schema.created_at := in_2025;
     Schema.updated_at := in_2025 |}.

(** The database once student 1 has filed [n] complaints in 2025. *)
Definition submissions (n : nat) : Schema.database :=
  {| Schema.user_roles := roles;
     Schema.complaints := map numbered_row (seq 1 n) |}.

(** The table once the admin has resolved the one complaint of
    [submissions 1]. *)
Definition resolved_db : Schema.database :=
  fst (AdminDashboard.updateComplaint (session_of 9 0) (submissions 1) 101%N
         Schema.Resolved (lit "Repaired.")).

(** The same row sent by student 2. *)
Definition form_row_of_2 : Schema.columns :=
  ComplaintForm.insert_row
    (context_of (session_of 2 200) (inr medium_analysis))
    a_form_input medium_analysis.

(** A request that supplies a ticket code of its own. *)
Definition row_with_own_code : Schema.columns :=
  {| Schema.c_id := Schema.Omitted;
     Schema.c_complaint_id := Schema.Value (lit "X");
     Schema.c_student_id := Schema.Value 1%N;
     Schema.c_title := Schema.Value (Zod.title a_form_input);
     Schema.c_description := Schema.Value (Zod.description a_form_input);
     Schema.c_category := Schema.Omitted;
     Schema.c_ai_suggested_category := Schema.Omitted;
     Schema.c_priority := Schema.Omitted;
     Schema.c_ai_priority_score := Schema.Omitted;
     Schema.c_status := Schema.Omitted;
     Schema.c_admin_response := Schema.Omitted;
     Schema.c_ai_suggested_response := Schema.Omitted;
     Schema.c_created_at := Schema.Omitted;
     Schema.c_updated_at := Schema.Omitted |}.

(** Two submissions that overlap, of students 1 and 2, followed by a third
    of student 1: both triggers run before either row is stored. *)
Definition overlapping_schedule : list Concurrent.event :=
  [Concurrent.Begin (session_of 1 101) form_row;
   Concurrent.Begin (session_of 2 200) form_row_of_2;
   Concurrent.Finish 0;
   Concurrent.Finish 0;
   Concurrent.Begin (session_of 1 102) form_row;
   Concurrent.Finish 0].

(** The same, then the admin answers the first complaint and student 2
    submits again. *)
Definition busy_schedule : list Concurrent.event :=
  overlapping_schedule
  ++ [Concurrent.Update (session_of 9 0)
        (AdminDashboard.update_columns Schema.Resolved (lit "Repaired."))
        101%N;
      Concurrent.Begin (session_of 2 201) form_row_of_2;
      Concurrent.Finish 0].

(** A request that sets the ticket code and nothing else. *)
Definition recode : Schema.columns :=
  {| Schema.c_id := Schema.Omitted;
     Schema.c_complaint_id := Schema.Value (lit "X");
     Schema.c_student_id := Schema.Omitted;
     Schema.c_title := Schema.Omitted;
     Schema.c_description := Schema.Omitted;
     Schema.c_category := Schema.Omitted;
     Schema.c_ai_suggested_category := Schema.Omitted;
     Schema.c_priority := Schema.Omitted;
     Schema.c_ai_priority_score := Schema.Omitted;
     Schema.c_status := Schema.Omitted;
     Schema.c_admin_response := Schema.Omitted;
     Schema.c_ai_suggested_response := Schema.Omitted;
     Schema.c_created_at := Schema.Omitted;
     Schema.c_updated_at := Schema.Omitted |}.

(** A request whose gateway answer carries the tool-call arguments
    [{}]. *)
Definition empty_arguments_data : AnalyzeComplaint.json :=
  AnalyzeComplaint.JObject
    [(lit "choices",
      AnalyzeComplaint.JArray
        [AnalyzeComplaint.JObject
           [(lit "message",
             AnalyzeComplaint.JObject
               [(lit "tool_calls",
                 AnalyzeComplaint.JArray
                   [AnalyzeComplaint.JObject
                      [(lit "function",
                        AnalyzeComplaint.JObject
                          [(lit "name", AnalyzeComplaint.JString (lit "analyze_complaint"));
                           (lit "arguments", AnalyzeComplaint.JString (lit "{}"))])]])])]])].

Definition a_request_body : AnalyzeComplaint.json :=
  AnalyzeComplaint.JObject
    [(lit "title", AnalyzeComplaint.JString (Zod.title a_form_input));
     (lit "description", AnalyzeComplaint.JString (Zod.description a_form_input));
     (lit "category", AnalyzeComplaint.JString (Zod.category a_form_input))].

(** [JSON.parse] at the one text the example gives it: ["{}"] is the empty
    object. *)
Definition parse_empty_object (a : AnalyzeComplaint.json)
  : AnalyzeComplaint.completion AnalyzeComplaint.json :=
  match a with
  | AnalyzeComplaint.JString [123%N; 125%N] => inl (AnalyzeComplaint.JObject [])
  | _ => inr (AnalyzeComplaint.Error (lit "Unexpected token"))
  end.

Definition empty_arguments_request : AnalyzeComplaint.request :=
  {| AnalyzeComplaint.method := lit "POST";
     AnalyzeComplaint.req_json := inl a_request_body;
     AnalyzeComplaint.LOVABLE_API_KEY := Some (lit "key");
     AnalyzeComplaint.fetch := fun _ _ _ _ =>
       inl {| AnalyzeComplaint.ok := true;
              AnalyzeComplaint.status := 200%N;
              AnalyzeComplaint.response_text := inl empty_string;
              AnalyzeComplaint.response_json := inl empty_arguments_data |};
     AnalyzeComplaint.JSON_parse := parse_empty_object;
     AnalyzeComplaint.TypeError_message := lit "TypeError" |}.

(** The preflight request of a browser. *)
Definition preflight_request : AnalyzeComplaint.request :=
  {| AnalyzeComplaint.method := lit "OPTIONS";
     AnalyzeComplaint.req_json := inr AnalyzeComplaint.NotAnError;
     AnalyzeComplaint.LOVABLE_API_KEY := Some (lit "key");
     AnalyzeComplaint.fetch := fun _ _ _ _ => inr AnalyzeComplaint.NotAnError;
     AnalyzeComplaint.JSON_parse := parse_empty_object;
     AnalyzeComplaint.TypeError_message := lit "TypeError" |}.

(** The gateway answers 429. *)
Definition rate_limited_request : AnalyzeComplaint.request :=
  {| AnalyzeComplaint.method := lit "POST";
     AnalyzeComplaint.req_json := inl a_request_body;
     AnalyzeComplaint.LOVABLE_API_KEY := Some (lit "key");
     AnalyzeComplaint.fetch := fun _ _ _ _ =>
       inl {| AnalyzeComplaint.ok := false;
              AnalyzeComplaint.status := 429%N;
              AnalyzeComplaint.response_text := inl (lit "Too Many Requests");
              AnalyzeComplaint.response_json := inr AnalyzeComplaint.NotAnError |};
     AnalyzeComplaint.JSON_parse := parse_empty_object;
     AnalyzeComplaint.TypeError_message := lit "TypeError" |}.

End Examples.

(* ===================================================================== *)
(** * Registration: profiles and the trigger on new users *)
(* ===================================================================== *)

Module Accounts.

(** A row of [public.profiles]. *)
Record profile := {
  p_id : Schema.uuid;
  p_name : text;
  p_email : text;
  p_created_at : Schema.timestamptz;
  p_updated_at : Schema.timestamptz
}.

(** The columns of the row [new] of [auth.users] that [handle_new_user]
    reads: [new.id], [new.email] and [new.raw_user_meta_data->>'name'],
    the last two possibly NULL. *)
Record auth_user := {
  new_id : Schema.uuid;
  new_email : option text;
  new_name : option text
}.

(** The tables the trigger writes, with the complaints beside them. *)
Record site := {
  profiles : list profile;
  data : Schema.database
}.

Definition COALESCE {A} (a : option A) (d : A) : A :=
  match a with
  | Some x => x
  | None => d
  end.

(** [INSERT INTO public.profiles (id, name, email)]: [email] is NOT NULL,
    [id] is the primary key and [email] is UNIQUE; the two timestamps
    default to [now()]. *)
Definition insert_profile (now : Schema.timestamptz) (ps : list profile)
           (i : Schema.uuid) (name : text) (email : option text)
  : Schema.result (list profile) :=
  match email with
  | None => Schema.Err Schema.not_null_violation
  | Some e =>
      if forallb (fun p => negb (N.eqb (p_id p) i)
                           && negb (text_eqb (p_email p) e)) ps
      then Schema.Ok (ps ++ [{| p_id := i; p_name := name; p_email := e;
                                p_created_at := now; p_updated_at := now |}])
      else Schema.Err Schema.unique_violation
  end.

(** [INSERT INTO public.user_roles (user_id, role)] under
    [UNIQUE(user_id, role)]. *)
Definition insert_user_role (rs : list Schema.user_role) (u : Schema.uuid)
           (r : Schema.app_role) : Schema.result (list Schema.user_role) :=
  if existsb (fun ur => N.eqb (Schema.ur_user_id ur) u
                        && Schema.app_role_eqb (Schema.ur_role ur) r) rs
  then Schema.Err Schema.unique_violation
  else Schema.Ok (rs ++ [{| Schema.ur_user_id := u; Schema.ur_role := r |}]).

(** [handle_new_user], AFTER INSERT on [auth.users], SECURITY DEFINER: no
    policy applies to its two inserts; an error aborts the registration. *)
Definition handle_new_user (now : Schema.timestamptz) (st : site)
           (new : auth_user) : Schema.result site :=
  Schema.bind
    (insert_profile now (profiles st) (new_id new)
                    (COALESCE (new_name new) (lit "User")) (new_email new))
    (fun ps =>
  Schema.bind
    (insert_user_role (Schema.user_roles (data st)) (new_id new) Schema.student)
    (fun rs =>
  Schema.Ok {| profiles := ps;
               data := {| Schema.user_roles := rs;
                          Schema.complaints := Schema.complaints (data st) |} |})).

(** "Users can view their own profile", "Admins can view all profiles". *)
Definition policy_select_profile (db : Schema.database) (s : Schema.session)
           (p : profile) : bool :=
  Schema.uid_is s (p_id p) || Schema.uid_has_role db s Schema.admin.

(** The profiles of a user. *)
Definition profiles_of (u : Schema.uuid) (ps : list profile) : list profile :=
  filter (fun p => N.eqb (p_id p) u) ps.

End Accounts.

(* ===================================================================== *)
(** * Reading complaints: the two dashboards *)
(* ===================================================================== *)

Module Queries.

(** The order of two timestamps: the year first, then the time within
    it. *)
Definition before (a b : Schema.timestamptz) : bool :=
  (Schema.ts_year a <? Schema.ts_year b)%N
  || ((Schema.ts_year a =? Schema.ts_year b)%N
      && (Schema.ts_rest a <? Schema.ts_rest b)%N).

(** [ORDER BY created_at DESC]: rows of equal [created_at] stay in the
    order of the table. *)
Fixpoint insert_desc (r : Schema.complaint) (sorted : list Schema.complaint)
  : list Schema.complaint :=
  match sorted with
  | [] => [r]
  | x :: rest =>
      if before (Schema.created_at r) (Schema.created_at x)
      then x :: insert_desc r rest
      else r :: x :: rest
  end.

Definition order_desc (l : list Schema.complaint) : list Schema.complaint :=
  fold_right insert_desc [] l.

(** [SELECT * FROM complaints WHERE ... ORDER BY created_at DESC] in a
    session: the SELECT policies and the filter, then the order.  The
    migration sets no limit on the rows of an answer; none is modelled. *)
Definition select_complaints (s : Schema.session) (db : Schema.database)
           (filter_ : Schema.complaint -> bool) : list Schema.complaint :=
  order_desc (filter (fun r => Schema.policy_select db s r && filter_ r)
                     (Schema.complaints db)).

(** The list is in descending order of [created_at]. *)
Fixpoint newest_first (l : list Schema.complaint) : bool :=
  match l with
  | [] => true
  | x :: rest =>
      forallb (fun y => negb (before (Schema.created_at x) (Schema.created_at y)))
              rest
      && newest_first rest
  end.

End Queries.

Module StudentDashboard.

(** The [useState] cells of the page and the toasts shown. *)
Record state := {
  complaints : list Schema.complaint;
  loading : bool;
  dialogOpen : bool;
  toasts : list AdminDashboard.toast_message
}.

(** The query of [loadComplaints]:
    [.select("*").eq("student_id", user?.id).order("created_at", desc)].
    Without a user the filter compares [student_id] with the text
    [undefined], which is not a uuid, and the request fails; so it does
    when the request does not reach the server ([online] is false). *)
Definition query (online : bool) (s : Schema.session) (db : Schema.database)
  : option (list Schema.complaint) :=
  if online then
    match Schema.auth_uid s with
    | Some user_id =>
        Some (Queries.select_complaints s db
                (fun r => N.eqb (Schema.student_id r) user_id))
    | None => None
    end
  else None.

Definition loadComplaints (online : bool) (s : Schema.session)
           (db : Schema.database) (st : state) : state :=
  match query online s db with
  | None =>
      {| complaints := complaints st;
         loading := false;
         dialogOpen := dialogOpen st;
         toasts := toasts st
                   ++ [{| AdminDashboard.toast_title := lit "Error";
                          AdminDashboard.toast_description :=
                            lit "Failed to load complaints";
                          AdminDashboard.destructive := true |}] |}
  | Some data_ =>
      {| complaints := data_;
         loading := false;
         dialogOpen := dialogOpen st;
         toasts := toasts st |}
  end.

(** [handleComplaintSubmit], the [onSuccess] of the form: the dialog is
    closed and the list reloaded. *)
Definition handleComplaintSubmit (online : bool) (s : Schema.session)
           (db : Schema.database) (st : state) : state :=
  loadComplaints online s db
    {| complaints := complaints st; loading := loading st;
       dialogOpen := false; toasts := toasts st |}.

End StudentDashboard.

(** The rest of the admin dashboard: loading, the filter, the counters and
    the card of a complaint. *)
Module AdminDashboardPage.

Record Profile := { name : text; email : text }.

(** A [Record<string, Profile>] keyed by user id: assignment replaces the
    entry of a key. *)
Definition ProfileMap := list (Schema.uuid * Profile).

Fixpoint profile_set (m : ProfileMap) (k : Schema.uuid) (v : Profile)
  : ProfileMap :=
  match m with
  | [] => [(k, v)]
  | (k', v') :: m' =>
      if N.eqb k' k then (k, v) :: m' else (k', v') :: profile_set m' k v
  end.

Fixpoint profile_get (m : ProfileMap) (k : Schema.uuid) : option Profile :=
  match m with
  | [] => None
  | (k', v') :: m' => if N.eqb k' k then Some v' else profile_get m' k
  end.

Record state := {
  complaints : list Schema.complaint;
  profiles : ProfileMap;
  loading : bool;
  filter : text;
  toasts : list AdminDashboard.toast_message
}.

(** [[...new Set(ids)]]: the first occurrence of every id, in order. *)
Fixpoint distinct (ids : list Schema.uuid) : list Schema.uuid :=
  match ids with
  | [] => []
  | x :: rest => x :: List.filter (fun y => negb (N.eqb y x)) (distinct rest)
  end.

(** [.from("profiles").select("id, name, email").in("id", studentIds)] in
    a session. *)
Definition select_profiles (s : Schema.session) (site : Accounts.site)
           (studentIds : list Schema.uuid) : list Accounts.profile :=
  List.filter (fun p => Accounts.policy_select_profile (Accounts.data site) s p
                        && existsb (N.eqb (Accounts.p_id p)) studentIds)
              (Accounts.profiles site).

(** The loop [profileData?.forEach(...)]. *)
Definition profileMap (profileData : list Accounts.profile) : ProfileMap :=
  fold_left (fun m p => profile_set m (Accounts.p_id p)
                          {| name := Accounts.p_name p;
                             email := Accounts.p_email p |})
            profileData [].

(** [loadComplaints]: the two requests succeed or fail separately; the
    error of the second is not looked at, its data are then missing and
    the map of profiles is empty. *)
Definition loadComplaints (complaints_ok profiles_ok : bool)
           (s : Schema.session) (site : Accounts.site) (st : state) : state :=
  if complaints_ok then
    let data_ := Queries.select_complaints s (Accounts.data site)
                                           (fun _ => true) in
    let studentIds := distinct (map Schema.student_id data_) in
    let profileData :=
      if profiles_ok then select_profiles s site studentIds else [] in
    {| complaints := data_;
       profiles := profileMap profileData;
       loading := false;
       filter := filter st;
       toasts := toasts st |}
  else
    {| complaints := complaints st;
       profiles := profiles st;
       loading := false;
       filter := filter st;
       toasts := toasts st
                 ++ [{| AdminDashboard.toast_title := lit "Error";
                        AdminDashboard.toast_description :=
                          lit "Failed to load complaints";
                        AdminDashboard.destructive := true |}] |}.

(** [c.status === label] *)
Definition has_status (label : text) (c : Schema.complaint) : bool :=
  text_eqb (Schema.status_label (Schema.status c)) label.

Definition filteredComplaints (st : state) : list Schema.complaint :=
  List.filter (fun c => text_eqb (filter st) (lit "all")
                        || has_status (filter st) c)
              (complaints st).

Record Stats := {
  total : nat;
  pending : nat;
  inProgress : nat;
  resolved : nat
}.

Definition stats (st : state) : Stats :=
  {| total := length (complaints st);
     pending := length (List.filter (has_status (lit "Pending")) (complaints st));
     inProgress :=
       length (List.filter (has_status (lit "In Progress")) (complaints st));
     resolved :=
       length (List.filter (has_status (lit "Resolved")) (complaints st)) |}.

(** ** [ComplaintCard] *)

(** The cells of a card; the status is one of the labels of the enum, the
    one of the complaint or one chosen in the select. *)
Record card := {
  status : Schema.complaint_status;
  response : text;
  showAISuggestion : bool
}.

(** [t || ""] for a nullable text. *)
Definition or_empty (t : option text) : text :=
  match t with
  | Some x => Js.or_else x empty_string
  | None => empty_string
  end.

(** The initial cells. *)
Definition ComplaintCard (complaint : Schema.complaint) : card :=
  {| status := Schema.status complaint;
     response := or_empty (Schema.admin_response complaint);
     showAISuggestion := false |}.

Definition useAISuggestion (complaint : Schema.complaint) (c : card) : card :=
  {| status := status c;
     response := or_empty (Schema.ai_suggested_response complaint);
     showAISuggestion := false |}.

(** [handleSave]: [onUpdate(complaint.id, status, response)], where
    [onUpdate] is [updateComplaint]. *)
Definition handleSave (s : Schema.session) (db : Schema.database)
           (complaint : Schema.complaint) (c : card)
  : Schema.database * AdminDashboard.toast_message :=
  AdminDashboard.updateComplaint s db (Schema.id complaint)
                                 (status c) (response c).

End AdminDashboardPage.

(* ===================================================================== *)
(** * Further concrete inputs *)
(* ===================================================================== *)

Module More.

Definition in_2019 : Schema.timestamptz :=
  {| Schema.ts_year := 2019%N; Schema.ts_rest := 0%N |}.

(** An edit of title and description that also names an [updated_at]. *)
Definition backdated_edit : Schema.columns :=
  {| Schema.c_id := Schema.Omitted;
     Schema.c_complaint_id := Schema.Omitted;
     Schema.c_student_id := Schema.Omitted;
     Schema.c_title := Schema.Value (lit "Projector");
     Schema.c_description := Schema.Value (lit "It is still broken.");
     Schema.c_category := Schema.Omitted;
     Schema.c_ai_suggested_category := Schema.Omitted;
     Schema.c_priority := Schema.Omitted;
     Schema.c_ai_priority_score := Schema.Omitted;
     Schema.c_status := Schema.Omitted;
     Schema.c_admin_response := Schema.Omitted;
     Schema.c_ai_suggested_response := Schema.Omitted;
     Schema.c_created_at := Schema.Omitted;
     Schema.c_updated_at := Schema.Value in_2019 |}.

(** The form of [Examples.filled_form] with the title of four spaces and a
    letter. *)
Definition blank_form : ComplaintForm.world :=
  {| ComplaintForm.st :=
       {| ComplaintForm.title := Examples.blank_title;
          ComplaintForm.description := Examples.a_description;
          ComplaintForm.category := lit "Facilities";
          ComplaintForm.errors := [];
          ComplaintForm.loading := false |};
     ComplaintForm.db := Examples.empty_db;
     ComplaintForm.toasts := [];
     ComplaintForm.onSuccess_calls := 0;
     ComplaintForm.invocations := [];
     ComplaintForm.inserts := [] |}.

(** The form filled with a title and a description that have white space
    around them. *)
Definition spaced_form : ComplaintForm.world :=
  {| ComplaintForm.st :=
       {| ComplaintForm.title := lit "  Broken projector in Lab 3 ";
          ComplaintForm.description := lit " The projector in Lab 3 is broken.  ";
          ComplaintForm.category := lit "Facilities";
          ComplaintForm.errors := [];
          ComplaintForm.loading := false |};
     ComplaintForm.db := Examples.empty_db;
     ComplaintForm.toasts := [];
     ComplaintForm.onSuccess_calls := 0;
     ComplaintForm.invocations := [];
     ComplaintForm.inserts := [] |}.

(** A request like [Examples.rate_limited_request] on a deployment without
    the key. *)
Definition keyless_request : AnalyzeComplaint.request :=
  {| AnalyzeComplaint.method := lit "POST";
     AnalyzeComplaint.req_json := inl Examples.a_request_body;
     AnalyzeComplaint.LOVABLE_API_KEY := None;
     AnalyzeComplaint.fetch := AnalyzeComplaint.fetch Examples.rate_limited_request;
     AnalyzeComplaint.JSON_parse := Examples.parse_empty_object;
     AnalyzeComplaint.TypeError_message := lit "TypeError" |}.

(** An answer of the gateway as a chat-completion service words it: the
    choice and the tool call sit among other members. *)
Definition gateway_data : AnalyzeComplaint.json :=
  AnalyzeComplaint.JObject
    [(lit "id", AnalyzeComplaint.JString (lit "chatcmpl-1"));
     (lit "object", AnalyzeComplaint.JString (lit "chat.completion"));
     (lit "choices",
      AnalyzeComplaint.JArray
        [AnalyzeComplaint.JObject
           [(lit "index", AnalyzeComplaint.JNumber 0);
            (lit "message",
             AnalyzeComplaint.JObject
               [(lit "role", AnalyzeComplaint.JString (lit "assistant"));
                (lit "content", AnalyzeComplaint.JNull);
                (lit "tool_calls",
                 AnalyzeComplaint.JArray
                   [AnalyzeComplaint.JObject
                      [(lit "id", AnalyzeComplaint.JString (lit "call_1"));
                       (lit "type", AnalyzeComplaint.JString (lit "function"));
                       (lit "function",
                        AnalyzeComplaint.JObject
                          [(lit "name",
                            AnalyzeComplaint.JString (lit "analyze_complaint"));
                           (lit "arguments",
                            AnalyzeComplaint.JString (lit "{}"))])]])]);
            (lit "finish_reason",
             AnalyzeComplaint.JString (lit "tool_calls"))]]);
     (lit "usage", AnalyzeComplaint.JObject [])].

Definition gateway_answer : AnalyzeComplaint.gateway_response :=
  {| AnalyzeComplaint.ok := true;
     AnalyzeComplaint.status := 200%N;
     AnalyzeComplaint.response_text := inl empty_string;
     AnalyzeComplaint.response_json := inl gateway_data |}.

Definition answered_request : AnalyzeComplaint.request :=
  {| AnalyzeComplaint.method := lit "POST";
     AnalyzeComplaint.req_json := inl Examples.a_request_body;
     AnalyzeComplaint.LOVABLE_API_KEY := Some (lit "key");
     AnalyzeComplaint.fetch := fun _ _ _ _ => inl gateway_answer;
     AnalyzeComplaint.JSON_parse := Examples.parse_empty_object;
     AnalyzeComplaint.TypeError_message := lit "TypeError" |}.

(** The gateway is down: it answers 503. *)
Definition unavailable : AnalyzeComplaint.gateway_response :=
  {| AnalyzeComplaint.ok := false;
     AnalyzeComplaint.status := 503%N;
     AnalyzeComplaint.response_text := inl (lit "Service Unavailable");
     AnalyzeComplaint.response_json := inr AnalyzeComplaint.NotAnError |}.

Definition unavailable_request : AnalyzeComplaint.request :=
  {| AnalyzeComplaint.method := lit "POST";
     AnalyzeComplaint.req_json := inl Examples.a_request_body;
     AnalyzeComplaint.LOVABLE_API_KEY := Some (lit "key");
     AnalyzeComplaint.fetch := fun _ _ _ _ => inl unavailable;
     AnalyzeComplaint.JSON_parse := Examples.parse_empty_object;
     AnalyzeComplaint.TypeError_message := lit "TypeError" |}.

(** A site without accounts, and a visitor who registers without a
    name. *)
Definition fresh_site : Accounts.site :=
  {| Accounts.profiles := [];
     Accounts.data := Examples.empty_db |}.

Definition applicant : Accounts.auth_user :=
  {| Accounts.new_id := 7%N;
     Accounts.new_email := Some (lit "asha@example.org");
     Accounts.new_name := None |}.

(** The site once student 1 has an account and has filed two
    complaints. *)
Definition profile_of_1 : Accounts.profile :=
  {| Accounts.p_id := 1%N;
     Accounts.p_name := lit "Asha";
     Accounts.p_email := lit "asha@example.org";
     Accounts.p_created_at := in_2019;
     Accounts.p_updated_at := in_2019 |}.

Definition busy_site : Accounts.site :=
  {| Accounts.profiles := [profile_of_1];
     Accounts.data := Examples.submissions 2 |}.

(** Complaint 101 as the admin resolved it. *)
Definition resolved_row : Schema.complaint :=
  {| Schema.id := 101%N;
     Schema.complaint_id := Spec.ticket_code 2025 1;
     Schema.student_id := 1%N;
     Schema.title := Zod.title Examples.a_form_input;
     Schema.description := Zod.description Examples.a_form_input;
     Schema.category := Some (lit "Facilities");
     Schema.ai_suggested_category := Some (lit "Facilities");
     Schema.priority := Some Schema.Medium;
     Schema.ai_priority_score := Some (Schema.Hundredths 70);
     Schema.status := Schema.Resolved;
     Schema.admin_response := Some (lit "Repaired.");
     Schema.ai_suggested_response := Some (lit "We will repair it.");
     Schema.created_at := Examples.in_2025;
     Schema.updated_at := Examples.in_2025 |}.

Definition second_applicant : Accounts.auth_user :=
  {| Accounts.new_id := 8%N;
     Accounts.new_email := Some (lit "ravi@example.org");
     Accounts.new_name := Some (lit "Ravi") |}.

(** The two dashboards before anything is loaded. *)
Definition student_page : StudentDashboard.state :=
  {| StudentDashboard.complaints := [];
     StudentDashboard.loading := true;
     StudentDashboard.dialogOpen := true;
     StudentDashboard.toasts := [] |}.

Definition admin_page : AdminDashboardPage.state :=
  {| AdminDashboardPage.complaints := [];
     AdminDashboardPage.profiles := [];
     AdminDashboardPage.loading := true;
     AdminDashboardPage.filter := lit "all";
     AdminDashboardPage.toasts := [] |}.

(** A session without a user. *)
Definition anonymous : Schema.session :=
  {| Schema.auth_uid := None;
     Schema.now := Examples.in_2025;
     Schema.gen_random_uuid := 7%N |}.

End More.

(* ===================================================================== *)
(** * Notions used in the further statements *)
(* ===================================================================== *)

Module Effects.

(** The row [r] once an admin has set its status and response at [ts]. *)
Definition answered (r : Schema.complaint) (st : Schema.complaint_status)
           (response : text) (ts : Schema.timestamptz) : Schema.complaint :=
  {| Schema.id := Schema.id r;
     Schema.complaint_id := Schema.complaint_id r;
     Schema.student_id := Schema.student_id r;
     Schema.title := Schema.title r;
     Schema.description := Schema.description r;
     Schema.category := Schema.category r;
     Schema.ai_suggested_category := Schema.ai_suggested_category r;
     Schema.priority := Schema.priority r;
     Schema.ai_priority_score := Schema.ai_priority_score r;
     Schema.status := st;
     Schema.admin_response := Some response;
     Schema.ai_suggested_response := Schema.ai_suggested_response r;
     Schema.created_at := Schema.created_at r;
     Schema.updated_at := ts |}.

(** The primary key and the UNIQUE constraint of [complaints] hold. *)
Definition keys_distinct (db : Schema.database) : Prop :=
  NoDup (map Schema.id (Schema.complaints db))
  /\ NoDup (Schema.codes db).

(** What an UPDATE of a non-admin session can have done to a row: nothing,
    or changed a pending row of the session that is selected by the
    statement into a pending row of the session. *)
Definition student_change (s : Schema.session) (i : Schema.uuid)
           (old new : Schema.complaint) : Prop :=
  new = old
  \/ (Schema.id old = i
      /\ Schema.policy_update_student s old = true
      /\ Schema.policy_update_student s new = true).

(** What an UPDATE can have done to a row: nothing, or a change stamped
    with the time of the statement. *)
Definition stamped_change (s : Schema.session) (old new : Schema.complaint)
  : Prop :=
  new = old \/ Schema.updated_at new = Schema.now s.

(** The success and error toasts of [updateComplaint]. *)
Definition update_succeeded : AdminDashboard.toast_message :=
  {| AdminDashboard.toast_title := lit "Success";
     AdminDashboard.toast_description := lit "Complaint updated successfully";
     AdminDashboard.destructive := false |}.

(** The world after a submission that failed validation: only the errors
    are set. *)
Definition with_errors (w : ComplaintForm.world) (e : Js.record)
  : ComplaintForm.world :=
  {| ComplaintForm.st :=
       {| ComplaintForm.title := ComplaintForm.title (ComplaintForm.st w);
          ComplaintForm.description :=
            ComplaintForm.description (ComplaintForm.st w);
          ComplaintForm.category := ComplaintForm.category (ComplaintForm.st w);
          ComplaintForm.errors := e;
          ComplaintForm.loading := ComplaintForm.loading (ComplaintForm.st w) |};
     ComplaintForm.db := ComplaintForm.db w;
     ComplaintForm.toasts := ComplaintForm.toasts w;
     ComplaintForm.onSuccess_calls := ComplaintForm.onSuccess_calls w;
     ComplaintForm.invocations := ComplaintForm.invocations w;
     ComplaintForm.inserts := ComplaintForm.inserts w |}.

(** The toasts of [handleSubmit]. *)
Definition submitted : ComplaintForm.toast_message :=
  {| ComplaintForm.toast_title := lit "Success";
     ComplaintForm.toast_description := lit "Complaint submitted successfully";
     ComplaintForm.destructive := false |}.

Definition failed_with (e : ComplaintForm.js_error)
  : ComplaintForm.toast_message :=
  {| ComplaintForm.toast_title := lit "Error";
     ComplaintForm.toast_description :=
       Js.or_else (ComplaintForm.error_message e)
                  (lit "Failed to submit complaint");
     ComplaintForm.destructive := true |}.

(** The three fields of the form are as in [w], or all empty. *)
Definition fields_kept (w w' : ComplaintForm.world) : Prop :=
  ComplaintForm.title (ComplaintForm.st w')
    = ComplaintForm.title (ComplaintForm.st w)
  /\ ComplaintForm.description (ComplaintForm.st w')
     = ComplaintForm.description (ComplaintForm.st w)
  /\ ComplaintForm.category (ComplaintForm.st w')
     = ComplaintForm.category (ComplaintForm.st w).

Definition fields_cleared (w' : ComplaintForm.world) : Prop :=
  ComplaintForm.title (ComplaintForm.st w') = empty_string
  /\ ComplaintForm.description (ComplaintForm.st w') = empty_string
  /\ ComplaintForm.category (ComplaintForm.st w') = empty_string.

(** A member of the classification that is missing or [null]. *)
Definition missing_or_null (v : AnalyzeComplaint.value) : Prop :=
  v = None \/ v = Some AnalyzeComplaint.JNull.

(** A text has no white space at either end. *)
Definition trimmed (t : text) : Prop :=
  (forall c, hd_error t = Some c -> Js.is_whitespace c = false)
  /\ (forall c, hd_error (rev t) = Some c -> Js.is_whitespace c = false).

(** A gateway answer whose first choice carries a first tool call with
    the arguments [a]. *)
Definition answer_with_arguments (a : AnalyzeComplaint.json)
  : AnalyzeComplaint.json :=
  AnalyzeComplaint.JObject
    [(lit "choices",
      AnalyzeComplaint.JArray
        [AnalyzeComplaint.JObject
           [(lit "message",
             AnalyzeComplaint.JObject
               [(lit "tool_calls",
                 AnalyzeComplaint.JArray
                   [AnalyzeComplaint.JObject
                      [(lit "function",
                        AnalyzeComplaint.JObject
                          [(lit "name",
                            AnalyzeComplaint.JString (lit "analyze_complaint"));
                           (lit "arguments", a)])]])])]])].

(** A gateway answer whose first choice carries, in its message, a first
    tool call with the arguments [a], whatever else the objects and the
    two arrays hold. *)
Definition carries_arguments (data a : AnalyzeComplaint.json) : Prop :=
  exists members choice choices message call calls function,
    data = AnalyzeComplaint.JObject members
    /\ AnalyzeComplaint.member (lit "choices") members
       = Some (AnalyzeComplaint.JArray
                 (AnalyzeComplaint.JObject choice :: choices))
    /\ AnalyzeComplaint.member (lit "message") choice
       = Some (AnalyzeComplaint.JObject message)
    /\ AnalyzeComplaint.member (lit "tool_calls") message
       = Some (AnalyzeComplaint.JArray
                 (AnalyzeComplaint.JObject call :: calls))
    /\ AnalyzeComplaint.member (lit "function") call
       = Some (AnalyzeComplaint.JObject function)
    /\ AnalyzeComplaint.member (lit "arguments") function = Some a.

(** The request [r] answered by another gateway and another parser. *)
Definition with_platform (r : AnalyzeComplaint.request)
           (f : text -> AnalyzeComplaint.value -> AnalyzeComplaint.value ->
                AnalyzeComplaint.value ->
                AnalyzeComplaint.completion AnalyzeComplaint.gateway_response)
           (p : AnalyzeComplaint.json ->
                AnalyzeComplaint.completion AnalyzeComplaint.json)
  : AnalyzeComplaint.request :=
  {| AnalyzeComplaint.method := AnalyzeComplaint.method r;
     AnalyzeComplaint.req_json := AnalyzeComplaint.req_json r;
     AnalyzeComplaint.LOVABLE_API_KEY := AnalyzeComplaint.LOVABLE_API_KEY r;
     AnalyzeComplaint.fetch := f;
     AnalyzeComplaint.JSON_parse := p;
     AnalyzeComplaint.TypeError_message := AnalyzeComplaint.TypeError_message r |}.

Definition not_configured : AnalyzeComplaint.response :=
  {| AnalyzeComplaint.res_status := 500%N;
     AnalyzeComplaint.res_body :=
       Some (AnalyzeComplaint.error_body
               (lit "LOVABLE_API_KEY is not configured")) |}.

Definition no_valid_response : AnalyzeComplaint.thrown :=
  AnalyzeComplaint.Error (lit "No valid response from AI").

End Effects.

(* ===================================================================== *)
(** * Facts about text, LIKE, LPAD and decimal notation *)
(* ===================================================================== *)

Unset Implicit Arguments.

Section TextFacts.

Lemma text_eqb_refl (a : text) : text_eqb a a = true.
Proof.
  induction a as [|x a IH]; simpl; [reflexivity|].
  now rewrite N.eqb_refl, IH.
Qed.

Lemma text_eqb_eq (a b : text) : text_eqb a b = true <-> a = b.
Proof.
  split; [|intros ->; apply text_eqb_refl].
  revert b; induction a as [|x a IH]; intros [|y b]; simpl; try easy.
  rewrite andb_true_iff, N.eqb_eq. intros [-> H]. now rewrite (IH b H).
Qed.

Lemma text_eqb_neq (a b : text) : text_eqb a b = false <-> a <> b.
Proof.
  rewrite <- text_eqb_eq. destruct (text_eqb a b); split; congruence.
Qed.

Lemma starts_with_iff (p s : text) :
  starts_with p s = true <-> exists r, s = p ++ r.
Proof.
  revert s; induction p as [|x p IH]; intros s; simpl.
  - split; [intros _; now exists s | reflexivity].
  - destruct s as [|y s].
    + split; [discriminate | intros [r Hr]; discriminate].
    + rewrite andb_true_iff, N.eqb_eq, IH. split.
      * intros [<- [r ->]]. now exists r.
      * intros [r Hr]. injection Hr as -> ->. split; [reflexivity | now exists r].
Qed.

Lemma starts_with_app (p r : text) : starts_with p (p ++ r) = true.
Proof. apply starts_with_iff. now exists r. Qed.

Lemma like_percent (s : text) : Pg.like [37%N] s = true.
Proof.
  simpl. induction s as [|x s IH]; [reflexivity|].
  simpl in *. now rewrite IH.
Qed.

(** A pattern of plain characters followed by [%] asks for a prefix. *)
Lemma like_prefix (p s : text) :
  forallb Pg.plain p = true ->
  Pg.like (p ++ [37%N]) s = starts_with p s.
Proof.
  revert s; induction p as [|c p IH]; intros s Hp.
  - apply like_percent.
  - simpl in Hp. apply andb_true_iff in Hp as [Hc Hp].
    unfold Pg.plain in Hc. apply negb_true_iff in Hc.
    apply orb_false_iff in Hc as [Hc H92].
    apply orb_false_iff in Hc as [H37 H95].
    cbn [app Pg.like]. rewrite H37, H95, H92.
    destruct s as [|x s]; [reflexivity|].
    cbn [starts_with]. rewrite (IH s Hp), N.eqb_sym. reflexivity.
Qed.

Lemma digit_plain (c : code_unit) : is_digit c = true -> Pg.plain c = true.
Proof.
  unfold is_digit, Pg.plain. rewrite andb_true_iff, !N.leb_le. intros [H1 H2].
  apply negb_true_iff. rewrite !orb_false_iff, !N.eqb_neq. lia.
Qed.

Lemma text_of_uint_digits (d : uint) :
  forallb is_digit (Pg.text_of_uint d) = true.
Proof. induction d; simpl; auto. Qed.

Lemma text_of_uint_inj (d d' : uint) :
  Pg.text_of_uint d = Pg.text_of_uint d' -> d = d'.
Proof.
  revert d'; induction d; intros d'; destruct d'; simpl; intros H;
    try discriminate; try reflexivity;
    injection H as H; f_equal; auto.
Qed.

Lemma zeros_digits (k : nat) :
  forallb is_digit (firstn k (lit "0000")) = true.
Proof.
  do 4 (destruct k as [|k]; [reflexivity|]). destruct k; reflexivity.
Qed.

Lemma to_char_YYYY_digits (year : N) :
  forallb is_digit (Pg.to_char_YYYY year) = true.
Proof.
  unfold Pg.to_char_YYYY.
  now rewrite forallb_app, text_of_uint_digits, zeros_digits.
Qed.

Lemma to_char_YYYY_uint (year : N) :
  exists u, Pg.to_char_YYYY year = Pg.text_of_uint u /\ N.of_uint u = year.
Proof.
  unfold Pg.to_char_YYYY.
  pose proof (DecimalN.Unsigned.of_to year) as Hy.
  set (u := N.to_uint year) in *.
  destruct (4 - length (Pg.text_of_uint u)) as [|[|[|[|k]]]].
  - exists u. split; [reflexivity | exact Hy].
  - exists (D0 u). split; [reflexivity | exact Hy].
  - exists (D0 (D0 u)). split; [reflexivity | exact Hy].
  - exists (D0 (D0 (D0 u))). split; [reflexivity | exact Hy].
  - exists (D0 (D0 (D0 (D0 u)))). split; [|exact Hy].
    destruct k; reflexivity.
Qed.

Lemma to_char_YYYY_inj (y y' : N) :
  Pg.to_char_YYYY y = Pg.to_char_YYYY y' -> y = y'.
Proof.
  intros H.
  destruct (to_char_YYYY_uint y) as (u & Hu & <-).
  destruct (to_char_YYYY_uint y') as (u' & Hu' & <-).
  rewrite Hu, Hu' in H. now rewrite (text_of_uint_inj _ _ H).
Qed.

(** A year followed by a dash is a prefix of another year followed by a
    dash only when the two years are the same text. *)
Lemma year_dash_prefix (ys' ys rest : text) :
  forallb is_digit ys' = true -> forallb is_digit ys = true ->
  starts_with (ys' ++ [45%N]) (ys ++ 45%N :: rest) = text_eqb ys' ys.
Proof.
  revert ys. induction ys' as [|c ys' IH]; intros ys H' H.
  - destruct ys as [|x ys]; [reflexivity|].
    cbn [forallb] in H. apply andb_true_iff in H as [Hx _].
    cbn [app starts_with text_eqb].
    destruct (N.eqb_spec 45 x) as [<-|]; [discriminate Hx | reflexivity].
  - cbn [forallb] in H'. apply andb_true_iff in H' as [Hc H'].
    destruct ys as [|x ys].
    + cbn [app starts_with text_eqb].
      destruct (N.eqb_spec c 45) as [->|]; [discriminate Hc | reflexivity].
    + cbn [forallb] in H. apply andb_true_iff in H as [_ H].
      cbn [app starts_with text_eqb]. now rewrite IH.
Qed.

Lemma year_pattern_like (ys c : text) :
  forallb is_digit ys = true ->
  Pg.like (Schema.year_pattern ys) c
  = starts_with (lit "CMP-" ++ ys ++ lit "-") c.
Proof.
  intros H. unfold Schema.year_pattern.
  replace (lit "CMP-" ++ ys ++ lit "-%")
    with ((lit "CMP-" ++ ys ++ lit "-") ++ [37%N])
    by (now rewrite <- !app_assoc).
  apply like_prefix. rewrite !forallb_app. rewrite andb_true_iff. split.
  - reflexivity.
  - rewrite andb_true_iff. split; [|reflexivity].
    apply forallb_forall. intros x Hx. apply digit_plain.
    now apply (proj1 (forallb_forall _ _) H).
Qed.

(** A text that starts with [CMP-], a year and a dash matches the pattern
    of a year exactly when the years are the same text. *)
Lemma year_pattern_same_year (ys' ys rest : text) :
  forallb is_digit ys' = true -> forallb is_digit ys = true ->
  Pg.like (Schema.year_pattern ys') (lit "CMP-" ++ ys ++ lit "-" ++ rest)
  = text_eqb ys' ys.
Proof.
  intros H' H. rewrite year_pattern_like by assumption.
  change (lit "CMP-") with [67%N; 77%N; 80%N; 45%N].
  change (lit "-") with [45%N].
  cbn [app starts_with]. rewrite !N.eqb_refl. cbn [andb].
  now apply year_dash_prefix.
Qed.

End TextFacts.

(* ===================================================================== *)
(** * The submission validator *)
(* ===================================================================== *)

Section Validator.

Import ComplaintForm.

(** [safeParse] on [complaintSchema], field by field: the lengths are those
    of the trimmed title and description and of the category as it is. *)
Lemma validation_errors_spec (input : Zod.fields text) :
  let t := Js.trim (Zod.title input) in
  let d := Js.trim (Zod.description input) in
  let c := Zod.category input in
  Js.record_get (validation_errors input) (lit "title") =
    (if length t <? 5 then Some (lit "Title must be at least 5 characters")
     else if 200 <? length t then Some (lit "Title too long")
     else None)
  /\ Js.record_get (validation_errors input) (lit "description") =
    (if length d <? 20
     then Some (lit "Description must be at least 20 characters")
     else if 2000 <? length d then Some (lit "Description too long")
     else None)
  /\ Js.record_get (validation_errors input) (lit "category") =
    (if length c <? 1 then Some (lit "Please select a category") else None)
  /\ accepts input =
    negb (length t <? 5) && negb (200 <? length t)
    && negb (length d <? 20) && negb (2000 <? length d)
    && negb (length c <? 1).
Proof.
  intros t d c.
  unfold validation_errors, accepts, Zod.safeParse, complaintSchema.
  cbn [Zod.title Zod.description Zod.category Zod.parse_string].
  fold t d c.
  destruct (length t <? 5) eqn:Ht5; destruct (200 <? length t) eqn:Ht200;
    destruct (length d <? 20) eqn:Hd20; destruct (2000 <? length d) eqn:Hd2000;
    destruct (length c <? 1) eqn:Hc1;
    try (apply Nat.ltb_lt in Ht5; apply Nat.ltb_lt in Ht200; lia);
    try (apply Nat.ltb_lt in Hd20; apply Nat.ltb_lt in Hd2000; lia);
    repeat split; reflexivity.
Qed.

(** C6, as stated, fails: a title of 201 code units that ends in five
    spaces is longer than 200 and passes; a title of five code units
    that starts with four spaces is within [5,200] and is rejected with
    the message for a short title. *)
Lemma title_bounds_counterexample :
  (200 < length (Zod.title Examples.padded_input)
   /\ accepts Examples.padded_input = true)
  /\ (5 <= length (Zod.title Examples.blank_input) <= 200
      /\ Js.record_get (validation_errors Examples.blank_input) (lit "title")
         = Some (lit "Title must be at least 5 characters")).
Proof. vm_compute. repeat split; lia. Qed.

(** C6, amended: the bounds are on the title and the description after
    [trim].  The error of the field [title] is the short-title message when
    the trimmed title has fewer than 5 code units, the long-title message
    when it has more than 200, and there is none otherwise; the error of
    [description] likewise with 20 and 2000; an input is accepted exactly
    when both trimmed lengths are within bounds and the category is not
    empty. *)
Theorem validator_bounds_after_trim (input : Zod.fields text) :
  let t := Js.trim (Zod.title input) in
  let d := Js.trim (Zod.description input) in
  Js.record_get (validation_errors input) (lit "title") =
    (if length t <? 5 then Some (lit "Title must be at least 5 characters")
     else if 200 <? length t then Some (lit "Title too long")
     else None)
  /\ Js.record_get (validation_errors input) (lit "description") =
    (if length d <? 20
     then Some (lit "Description must be at least 20 characters")
     else if 2000 <? length d then Some (lit "Description too long")
     else None)
  /\ accepts input =
    (5 <=? length t) && (length t <=? 200)
    && (20 <=? length d) && (length d <=? 2000)
    && negb (text_eqb (Zod.category input) empty_string).
Proof.
  intros t d.
  destruct (validation_errors_spec input) as (Ht & Hd & _ & Ha).
  fold t d in Ht, Hd, Ha. rewrite Ht, Hd, Ha. repeat split.
  rewrite !Nat.ltb_antisym, !negb_involutive.
  destruct (Zod.category input); reflexivity.
Qed.

(** C7, as stated, fails: the validator accepts the category "Parking",
    which is not one of the six values. *)
Lemma unlisted_category_counterexample :
  accepts Examples.unlisted_category_input = true
  /\ existsb (text_eqb (Zod.category Examples.unlisted_category_input))
             categories = false.
Proof. vm_compute. split; reflexivity. Qed.

(** C7, amended: the validator rejects the empty category with "Please
    select a category" and has no complaint about any other category, one
    of the six values of [categories] or not; each of the six values is
    accepted. *)
Theorem category_must_not_be_empty (input : Zod.fields text) :
  Js.record_get (validation_errors input) (lit "category") =
    (if text_eqb (Zod.category input) empty_string
     then Some (lit "Please select a category") else None)
  /\ forallb (fun c =>
               match Js.record_get
                       (validation_errors
                          {| Zod.title := Zod.title input;
                             Zod.description := Zod.description input;
                             Zod.category := c |}) (lit "category") with
               | None => true
               | Some _ => false
               end) categories = true.
Proof.
  split.
  - destruct (validation_errors_spec input) as (_ & _ & Hc & _).
    rewrite Hc. destruct (Zod.category input); reflexivity.
  - unfold categories. cbn [forallb].
    repeat match goal with
    | |- context [validation_errors ?i] =>
        let H := fresh in
        destruct (validation_errors_spec i) as (_ & _ & H & _);
        rewrite H; clear H
    end.
    reflexivity.
Qed.

End Validator.

(* ===================================================================== *)
(** * The classification endpoint *)
(* ===================================================================== *)

Section Endpoint.

Import AnalyzeComplaint.

Local Open Scope N_scope.

Lemma error_body_is_error_object (message : text) :
  is_error_object (error_body message) = true.
Proof. reflexivity. Qed.

Lemma catch_block_shape (e : thrown) :
  res_status (catch_block e) = 500
  /\ exists message, res_body (catch_block e) = Some (error_body message).
Proof. split; [reflexivity | eexists; reflexivity]. Qed.

(** C8, as stated, fails: when the model's tool call carries the arguments
    [{}], the endpoint answers 200 with the body [{}], which is neither the
    structured result nor an error object; and a preflight request is
    answered without a body. *)
Lemma endpoint_counterexample :
  (handler Examples.empty_arguments_request
     = {| res_status := 200; res_body := Some (JObject []) |}
   /\ expected_body (handler Examples.empty_arguments_request) = false)
  /\ (handler Examples.preflight_request
        = {| res_status := 200; res_body := None |}
      /\ expected_body (handler Examples.preflight_request) = false).
Proof. vm_compute. repeat split. Qed.

Lemma call_gateway_without_key (r : request) :
  LOVABLE_API_KEY r = None \/ LOVABLE_API_KEY r = Some [] ->
  exists e, call_gateway r = inr e.
Proof.
  intros Hkey. unfold call_gateway, get, throw_error.
  destruct (req_json r) as [body|e]; cbn [and_then]; [|eauto].
  destruct body; cbn [and_then]; try (eexists; reflexivity);
    destruct Hkey as [-> | ->]; cbn; eexists; reflexivity.
Qed.

(** C8, amended: a request other than the preflight is answered either
    with status 200 and the tool-call arguments of the model parsed as
    JSON, whatever they contain, or with an error object and one of the
    statuses 429, 402, 500.  The status is 429 exactly when the gateway
    answered 429, and 402 exactly when the gateway answered 402 (its
    body being readable); a missing or empty key gives 500; so does an
    answer of the gateway from which no tool-call arguments that parse can
    be read. *)
Theorem endpoint_status_by_failure_mode (r : request) :
  text_eqb (method r) (lit "OPTIONS") = false ->
  let res := handler r in
  ((exists resp data a analysis,
       call_gateway r = inl resp /\ ok resp = true
       /\ response_json resp = inl data
       /\ tool_call_arguments r data = inl a
       /\ JSON_parse r a = inl analysis
       /\ res = {| res_status := 200; res_body := Some analysis |})
   \/ (exists message,
         res_body res = Some (error_body message)
         /\ (res_status res = 429 \/ res_status res = 402
             \/ res_status res = 500)))
  /\ (res_status res = 429 <->
      exists resp errorText,
        call_gateway r = inl resp /\ ok resp = false
        /\ response_text resp = inl errorText /\ status resp = 429)
  /\ (res_status res = 402 <->
      exists resp errorText,
        call_gateway r = inl resp /\ ok resp = false
        /\ response_text resp = inl errorText /\ status resp = 402)
  /\ (LOVABLE_API_KEY r = None \/ LOVABLE_API_KEY r = Some [] ->
      res_status res = 500
      /\ exists message, res_body res = Some (error_body message))
  /\ (forall resp,
        call_gateway r = inl resp -> ok resp = true ->
        (forall data a analysis,
            response_json resp = inl data ->
            tool_call_arguments r data = inl a ->
            JSON_parse r a = inl analysis -> False) ->
        res_status res = 500
        /\ exists message, res_body res = Some (error_body message)).
Proof.
  intros Hm res. subst res. unfold handler. rewrite Hm. unfold try_block.
  split; [|split; [split|split; [split|split;
    [intros Hkey; split|intros resp Hg Hok Hno; split]]]].
  - (* shape *)
    destruct (call_gateway r) as [resp|e] eqn:Hg; cbn [and_then].
    2:{ right. destruct (catch_block_shape e) as [-> [m ->]]. eauto. }
    unfold read_answer.
    destruct (ok resp) eqn:Hok; cbn [negb].
    + destruct (response_json resp) as [data|e] eqn:Hj; cbn [and_then].
      2:{ right. destruct (catch_block_shape e) as [-> [m ->]]. eauto. }
      destruct (tool_call_arguments r data) as [a|e] eqn:Ha; cbn [and_then].
      2:{ right. destruct (catch_block_shape e) as [-> [m ->]]. eauto. }
      destruct (JSON_parse r a) as [analysis|e] eqn:Hp; cbn [and_then].
      2:{ right. destruct (catch_block_shape e) as [-> [m ->]]. eauto. }
      left. exists resp, data, a, analysis. auto 10.
    + right. destruct (response_text resp) as [txt|e]; cbn [and_then].
      2:{ destruct (catch_block_shape e) as [-> [m ->]]. eauto. }
      destruct (status resp =? 429); [eexists; split; [reflexivity|auto]|].
      destruct (status resp =? 402); [eexists; split; [reflexivity|auto]|].
      eexists; split; [reflexivity|auto].
  - (* 429, only if *)
    destruct (call_gateway r) as [resp|e] eqn:Hg; cbn [and_then];
      [|intros H; discriminate H].
    unfold read_answer.
    destruct (ok resp) eqn:Hok; cbn [negb].
    + destruct (response_json resp) as [data|e]; cbn [and_then];
        [|intros H; discriminate H].
      destruct (tool_call_arguments r data) as [a|e]; cbn [and_then];
        [|intros H; discriminate H].
      destruct (JSON_parse r a) as [analysis|e]; cbn [and_then];
        intros H; discriminate H.
    + destruct (response_text resp) as [txt|e] eqn:Ht; cbn [and_then];
        [|intros H; discriminate H].
      destruct (status resp =? 429) eqn:H429.
      * intros _. apply N.eqb_eq in H429. exists resp, txt. auto.
      * destruct (status resp =? 402); intros H; discriminate H.
  - (* 429, if *)
    intros (resp & txt & Hg & Hok & Ht & Hs).
    rewrite Hg. cbn [and_then]. unfold read_answer.
    rewrite Hok, Ht, Hs. reflexivity.
  - (* 402, only if *)
    destruct (call_gateway r) as [resp|e] eqn:Hg; cbn [and_then];
      [|intros H; discriminate H].
    unfold read_answer.
    destruct (ok resp) eqn:Hok; cbn [negb].
    + destruct (response_json resp) as [data|e]; cbn [and_then];
        [|intros H; discriminate H].
      destruct (tool_call_arguments r data) as [a|e]; cbn [and_then];
        [|intros H; discriminate H].
      destruct (JSON_parse r a) as [analysis|e]; cbn [and_then];
        intros H; discriminate H.
    + destruct (response_text resp) as [txt|e] eqn:Ht; cbn [and_then];
        [|intros H; discriminate H].
      destruct (status resp =? 429) eqn:H429; [intros H; discriminate H|].
      destruct (status resp =? 402) eqn:H402; [|intros H; discriminate H].
      intros _. apply N.eqb_eq in H402. exists resp, txt. auto.
  - (* 402, if *)
    intros (resp & txt & Hg & Hok & Ht & Hs).
    rewrite Hg. cbn [and_then]. unfold read_answer.
    rewrite Hok, Ht, Hs. reflexivity.
  - (* no key *)
    destruct (call_gateway_without_key r Hkey) as [e ->].
    cbn [and_then]. reflexivity.
  - destruct (call_gateway_without_key r Hkey) as [e ->].
    cbn [and_then]. apply catch_block_shape.
  - (* nothing to parse *)
    rewrite Hg. cbn [and_then]. unfold read_answer. rewrite Hok. cbn [negb].
    destruct (response_json resp) as [data|e] eqn:Hj; cbn [and_then];
      [|reflexivity].
    destruct (tool_call_arguments r data) as [a|e] eqn:Ha; cbn [and_then];
      [|reflexivity].
    destruct (JSON_parse r a) as [analysis|e] eqn:Hp; cbn [and_then];
      [|reflexivity].
    exfalso. eapply Hno; eauto.
  - rewrite Hg. cbn [and_then]. unfold read_answer. rewrite Hok. cbn [negb].
    destruct (response_json resp) as [data|e] eqn:Hj; cbn [and_then];
      [|apply catch_block_shape].
    destruct (tool_call_arguments r data) as [a|e] eqn:Ha; cbn [and_then];
      [|apply catch_block_shape].
    destruct (JSON_parse r a) as [analysis|e] eqn:Hp; cbn [and_then];
      [|apply catch_block_shape].
    exfalso. eapply Hno; eauto.
Qed.

(** The gateway answers 429 in [Examples.rate_limited_request]. *)
Lemma endpoint_status_by_failure_mode_witness :
  res_status (handler Examples.rate_limited_request) = 429.
Proof.
  apply (endpoint_status_by_failure_mode Examples.rate_limited_request);
    [reflexivity|].
  eexists _, _. repeat split; reflexivity.
Defined.

End Endpoint.

(* ===================================================================== *)
(** * Inserting a complaint *)
(* ===================================================================== *)

Section Insert.

Import Schema.

Lemma bind_ok {A B} (r : result A) (k : A -> result B) (b : B) :
  bind r k = Ok b -> exists a, r = Ok a /\ k a = Ok b.
Proof. destruct r as [a|e]; simpl; [eauto | discriminate]. Qed.

Lemma require_ok (b : bool) (e : pg_error) (u : unit) :
  require b e = Ok u -> b = true.
Proof. destruct b; [reflexivity | discriminate]. Qed.

Lemma check_not_null_ok (t : tuple) (r : complaint) :
  check_not_null t = Ok r -> tuple_of r = t.
Proof.
  unfold check_not_null. destruct t; simpl.
  destruct t_id0, t_complaint_id0, t_student_id0, t_title0, t_description0,
    t_status0, t_created_at0, t_updated_at0; try discriminate.
  intros H. injection H as <-. reflexivity.
Qed.

(** On a tuple that passes the NOT NULL constraints the checks of the new
    row are the policies of the row. *)
Lemma with_check_insert_row (s : session) (NEW : tuple) (r : complaint) :
  check_not_null NEW = Ok r ->
  with_check_insert s NEW = policy_insert_check s r.
Proof. intros H. apply check_not_null_ok in H. now subst NEW. Qed.

Lemma with_check_update_row (db : database) (s : session) (NEW : tuple)
      (r : complaint) :
  check_not_null NEW = Ok r ->
  with_check_update db s NEW = policy_update_check db s r.
Proof. intros H. apply check_not_null_ok in H. now subst NEW. Qed.

(** What a successful INSERT did. *)
Lemma insert_complaint_ok (s : session) (db db' : database) (c : columns) :
  insert_complaint s db c = Ok db' ->
  exists NEW0 NEW r,
    new_tuple s c = Ok NEW0
    /\ set_complaint_id s db NEW0 = Ok NEW
    /\ check_not_null NEW = Ok r
    /\ policy_insert_check s r = true
    /\ is_unique_among r (complaints db) = true
    /\ db' = with_complaints db (complaints db ++ [r]).
Proof.
  unfold insert_complaint, before_insert, store. intros H.
  apply bind_ok in H as (NEW & H1 & H).
  apply bind_ok in H1 as (NEW0 & H0 & H1).
  apply bind_ok in H as ([] & Hp & H). apply require_ok in Hp.
  apply bind_ok in H as (r & Hr & H).
  apply bind_ok in H as ([] & Hu & H). apply require_ok in Hu.
  injection H as <-. exists NEW0, NEW, r.
  rewrite (with_check_insert_row s NEW r Hr) in Hp. auto 10.
Qed.

(** The trigger touches [complaint_id] only. *)
Lemma set_complaint_id_frame (s : session) (db : database) (NEW0 NEW : tuple) :
  set_complaint_id s db NEW0 = Ok NEW ->
  t_id NEW = t_id NEW0 /\ t_student_id NEW = t_student_id NEW0
  /\ t_title NEW = t_title NEW0 /\ t_description NEW = t_description NEW0
  /\ t_category NEW = t_category NEW0
  /\ t_ai_suggested_category NEW = t_ai_suggested_category NEW0
  /\ t_priority NEW = t_priority NEW0
  /\ t_ai_priority_score NEW = t_ai_priority_score NEW0
  /\ t_status NEW = t_status NEW0
  /\ t_admin_response NEW = t_admin_response NEW0
  /\ t_ai_suggested_response NEW = t_ai_suggested_response NEW0
  /\ t_created_at NEW = t_created_at NEW0
  /\ t_updated_at NEW = t_updated_at NEW0.
Proof.
  unfold set_complaint_id. destruct (no_code_supplied NEW0).
  - intros H. apply bind_ok in H as (c & _ & H). injection H as <-.
    repeat split.
  - intros H. injection H as <-. repeat split.
Qed.

(** When no code is supplied the trigger stores the generated one. *)
Lemma set_complaint_id_generates (s : session) (db : database) (NEW0 NEW : tuple) :
  no_code_supplied NEW0 = true ->
  set_complaint_id s db NEW0 = Ok NEW ->
  exists code, generate_complaint_id s db = Ok code
               /\ t_complaint_id NEW = Some code.
Proof.
  unfold set_complaint_id. intros ->. intros H.
  apply bind_ok in H as (c & Hc & H). injection H as <-. now exists c.
Qed.

Lemma cast_priority_label (t : text) (p : complaint_priority) :
  cast_priority t = Some p -> priority_label p = t.
Proof.
  unfold cast_priority.
  destruct (text_eqb t (lit "Low")) eqn:E1;
    [apply text_eqb_eq in E1; intros H; injection H as <-; now subst|].
  destruct (text_eqb t (lit "Medium")) eqn:E2;
    [apply text_eqb_eq in E2; intros H; injection H as <-; now subst|].
  destruct (text_eqb t (lit "High")) eqn:E3;
    [apply text_eqb_eq in E3; intros H; injection H as <-; now subst|].
  discriminate.
Qed.

Lemma cast_status_label (st : complaint_status) :
  cast_status (status_label st) = Some st.
Proof. destruct st; reflexivity. Qed.

Lemma cast_decimal_3_2_round (q : Q) (h : Z) :
  cast_decimal_3_2 q = Some h -> h = round_hundredths q.
Proof.
  unfold cast_decimal_3_2.
  destruct (_ && _)%bool; [intros H; now injection H | discriminate].
Qed.

Lemma assign_decimal_3_2_number (q : Q) (d : decimal) :
  assign_decimal_3_2 (Number q) = Ok d -> d = Hundredths (round_hundredths q).
Proof.
  cbn [assign_decimal_3_2].
  destruct (cast_decimal_3_2 q) as [h|] eqn:E; [|discriminate].
  intros H. injection H as <-. f_equal. now apply cast_decimal_3_2_round.
Qed.

(** A number of at most two decimals is stored as it is. *)
Lemma round_hundredths_exact (q : Q) (h : Z) :
  (q == h # 100)%Q -> round_hundredths q = h.
Proof.
  intros H. unfold round_hundredths.
  destruct (Qle_bool 0 q); rewrite H;
    unfold Qfloor, Qmult, Qplus, Qopp; cbn [Qnum Qden];
    change (100 * 1 * 2)%positive with 200%positive;
    change (100 * 1)%positive with 100%positive.
  - symmetry. apply Z.div_unique with (r := 100%Z); lia.
  - assert (E : ((- h * 100 * 2 + 1 * 100) / 200 = - h)%Z).
    { symmetry. apply Z.div_unique with (r := 100%Z); lia. }
    rewrite E. lia.
Qed.

Lemma new_tuple_complaint_id (s : session) (c : columns) (NEW0 : tuple) :
  new_tuple s c = Ok NEW0 ->
  t_complaint_id NEW0 = or_default (c_complaint_id c) None.
Proof.
  unfold new_tuple. intros H.
  apply bind_ok in H as (p & _ & H).
  apply bind_ok in H as (sc & _ & H).
  apply bind_ok in H as (st & _ & H).
  injection H as <-. reflexivity.
Qed.

Lemma generated_code_not_empty (s : session) (db : database) (code : text) :
  generate_complaint_id s db = Ok code -> code <> empty_string.
Proof.
  unfold generate_complaint_id. intros H.
  apply bind_ok in H as ([] & _ & H). injection H as <-.
  discriminate.
Qed.

End Insert.

(* ===================================================================== *)
(** * The submission workflow *)
(* ===================================================================== *)

Section Submission.

Import ComplaintForm.

(** What [handleSubmit] does to the database and to the logs of calls:
    nothing is called when validation fails; otherwise the classification
    function is called once, and the row is sent to [insert] only when
    the call returned data other than [null]. *)
Lemma handleSubmit_effect (c : context) (w : world) :
  let w' := snd (handleSubmit c w) in
  match Zod.safeParse complaintSchema (form_input w) with
  | Zod.error _ =>
      db w' = db w /\ inserts w' = inserts w
      /\ invocations w' = invocations w
  | Zod.success data =>
      invocations w' = invocations w ++ [form_input w]
      /\ match analyze_complaint c (form_input w) with
         | inl _ => db w' = db w /\ inserts w' = inserts w
         | inr functionData =>
             (functionData = AnalyzeComplaint.JNull ->
              db w' = db w /\ inserts w' = inserts w)
             /\ (functionData <> AnalyzeComplaint.JNull ->
                 inserts w' = inserts w ++ [insert_row c data functionData]
                 /\ db w' = Schema.after (db w)
                              (Schema.insert_complaint (session c) (db w)
                                 (insert_row c data functionData)))
         end
  end.
Proof.
  cbv zeta. unfold handleSubmit.
  destruct (Zod.safeParse complaintSchema (form_input w)) as [data|issues];
    [|repeat split].
  unfold try_catch_finally, bind, functions_invoke, setErrors, setLoading,
    set_state.
  cbn [fst snd st db toasts onSuccess_calls invocations inserts].
  destruct (analyze_complaint c (form_input w)) as [e|functionData];
    [repeat split|].
  split; [|split].
  - destruct functionData; unfold read_members, throw, ret;
      try reflexivity;
      unfold from_complaints_insert;
      cbn [fst snd st db toasts onSuccess_calls invocations inserts];
      destruct (Schema.insert_complaint _ _ _); reflexivity.
  - intros ->. split; reflexivity.
  - intros Hn.
    assert (E : read_members c functionData = ret tt)
      by (destruct functionData; try reflexivity; contradiction).
    rewrite E. unfold ret, from_complaints_insert.
    cbn [fst snd st db toasts onSuccess_calls invocations inserts].
    destruct (Schema.insert_complaint _ _ _); split; reflexivity.
Qed.

Lemma null_or_not (j : AnalyzeComplaint.json) :
  j = AnalyzeComplaint.JNull \/ j <> AnalyzeComplaint.JNull.
Proof. destruct j; [now left | right; discriminate ..]. Qed.

(** C3: when the classification call returns an error, [handleSubmit]
    sends no row to [insert] and leaves the database as it was. *)
Theorem classification_failure_blocks_insert
        (c : context) (w : world) (e : js_error) :
  analyze_complaint c (form_input w) = inl e ->
  let w' := snd (handleSubmit c w) in
  inserts w' = inserts w /\ db w' = db w.
Proof.
  intros He w'. subst w'.
  pose proof (handleSubmit_effect c w) as H. cbv zeta in H.
  destruct (Zod.safeParse complaintSchema (form_input w)).
  - rewrite He in H. tauto.
  - tauto.
Qed.

(** A failed classification call in [Examples.filled_form]. *)
Lemma classification_failure_blocks_insert_witness :
  inserts (snd (handleSubmit Examples.failing_context Examples.filled_form)) = []
  /\ db (snd (handleSubmit Examples.failing_context Examples.filled_form))
     = Examples.empty_db.
Proof.
  apply (classification_failure_blocks_insert
           Examples.failing_context Examples.filled_form
           (FunctionsError (lit "Edge Function returned a non-2xx status code"))).
  reflexivity.
Defined.

(** C10: every row [handleSubmit] sends to [insert] has the empty string
    as its [complaint_id]; the trigger replaces a NULL and an empty
    [complaint_id] alike by the generated code; so a submission either
    leaves the database as it was or adds one row whose ticket code is the
    one [generate_complaint_id] computes from the session and the stored
    rows, which is not empty and does not depend on the form. *)
Theorem form_rows_get_generated_code (c : context) (w : world) :
  let w' := snd (handleSubmit c w) in
  (exists rows,
      inserts w' = inserts w ++ rows
      /\ Forall (fun row => Schema.c_complaint_id row = Schema.Value empty_string)
                rows)
  /\ (forall s d NEW,
        Schema.t_complaint_id NEW = None
        \/ Schema.t_complaint_id NEW = Some empty_string ->
        Schema.set_complaint_id s d NEW
        = Schema.bind (Schema.generate_complaint_id s d)
                      (fun code => Schema.Ok (Schema.set_t_complaint_id NEW code)))
  /\ (db w' = db w
      \/ exists r code,
           db w' = Schema.with_complaints (db w)
                     (Schema.complaints (db w) ++ [r])
           /\ Schema.generate_complaint_id (session c) (db w) = Schema.Ok code
           /\ Schema.complaint_id r = code
           /\ code <> empty_string).
Proof.
  intros w'. subst w'.
  pose proof (handleSubmit_effect c w) as H. cbv zeta in H.
  split; [|split].
  - destruct (Zod.safeParse complaintSchema (form_input w)) as [data|issues].
    + destruct H as (_ & H).
      destruct (analyze_complaint c (form_input w)) as [e|functionData].
      * exists []. rewrite app_nil_r. split; [tauto | constructor].
      * destruct H as (Hnull & Hdata).
        destruct (null_or_not functionData) as [Hn|Hn].
        -- exists []. rewrite app_nil_r. split; [tauto | constructor].
        -- exists [insert_row c data functionData]. split; [tauto|].
           constructor; [reflexivity | constructor].
    + exists []. rewrite app_nil_r. split; [tauto | constructor].
  - intros s d NEW Hnew. unfold Schema.set_complaint_id, Schema.no_code_supplied.
    destruct Hnew as [-> | ->]; reflexivity.
  - destruct (Zod.safeParse complaintSchema (form_input w)) as [data|issues];
      [|tauto].
    destruct H as (_ & H).
    destruct (analyze_complaint c (form_input w)) as [e|functionData];
      [tauto|].
    destruct H as (Hnull & Hdata).
    destruct (null_or_not functionData) as [Hnot|Hnot]; [tauto|].
    destruct (Hdata Hnot) as (_ & ->).
    destruct (Schema.insert_complaint (session c) (db w)
                (insert_row c data functionData)) as [db'|e] eqn:Hi;
      cbn [Schema.after]; [|tauto].
    right.
    apply insert_complaint_ok in Hi
      as (NEW0 & NEW & r & Hn & Ht & Hc & _ & _ & ->).
    apply new_tuple_complaint_id in Hn.
    cbn [insert_row Schema.c_complaint_id Schema.or_default] in Hn.
    apply set_complaint_id_generates in Ht as (code & Hg & Hcode).
    2:{ unfold Schema.no_code_supplied. now rewrite Hn. }
    apply check_not_null_ok in Hc. rewrite <- Hc in Hcode.
    cbn [Schema.tuple_of Schema.t_complaint_id] in Hcode.
    injection Hcode as Hcode.
    exists r, code. repeat split; try assumption.
    eapply generated_code_not_empty; eassumption.
Qed.

Lemma grown_table_differs (d : Schema.database) (l : list Schema.complaint)
      (r : Schema.complaint) :
  Schema.complaints d = l ++ [r] -> Schema.complaints d <> l.
Proof.
  intros H E. rewrite E in H. apply (f_equal (@length _)) in H.
  rewrite length_app in H. cbn in H. lia.
Qed.

(** A row a submission stores is the tuple of the row the form sent, with
    the ticket code the trigger gave it. *)
Lemma stored_row_of_submission (c : context) (w : world) (r : Schema.complaint) :
  Schema.complaints (db (snd (handleSubmit c w)))
    = Schema.complaints (db w) ++ [r] ->
  exists data functionData NEW0,
    Zod.safeParse complaintSchema (form_input w) = Zod.success data
    /\ analyze_complaint c (form_input w) = inr functionData
    /\ functionData <> AnalyzeComplaint.JNull
    /\ Schema.insert_complaint (session c) (db w)
         (insert_row c data functionData)
       = Schema.Ok (Schema.with_complaints (db w)
                      (Schema.complaints (db w) ++ [r]))
    /\ Schema.new_tuple (session c) (insert_row c data functionData)
       = Schema.Ok NEW0
    /\ Schema.set_complaint_id (session c) (db w) NEW0
       = Schema.Ok (Schema.tuple_of r).
Proof.
  intros Hr. pose proof (grown_table_differs _ _ _ Hr) as Hgrow.
  pose proof (handleSubmit_effect c w) as H. cbv zeta in H.
  destruct (Zod.safeParse complaintSchema (form_input w)) as [data|issues].
  2:{ destruct H as (Hdb & _). now rewrite Hdb in Hgrow. }
  destruct H as (_ & H).
  destruct (analyze_complaint c (form_input w)) as [e|functionData].
  { destruct H as (Hdb & _). now rewrite Hdb in Hgrow. }
  destruct H as (Hnull & Hdata).
  destruct (null_or_not functionData) as [Hnot|Hnot].
  { destruct (Hnull Hnot) as (Hdb & _). now rewrite Hdb in Hgrow. }
  destruct (Hdata Hnot) as (_ & Hdb). rewrite Hdb in Hr, Hgrow. clear Hdb.
  destruct (Schema.insert_complaint (session c) (db w)
              (insert_row c data functionData)) as [db'|e] eqn:Hi;
    cbn [Schema.after] in Hr, Hgrow; [|contradiction].
  destruct (insert_complaint_ok _ _ _ _ Hi)
    as (NEW0 & NEW & r' & Hn & Ht & Hc & _ & _ & ->).
  cbn [Schema.with_complaints Schema.complaints] in Hr.
  apply app_inv_head in Hr. injection Hr as ->.
  apply check_not_null_ok in Hc. subst NEW.
  exists data, functionData, NEW0. auto 10.
Qed.

(** The classification columns of the tuple of a row the form sends. *)
Lemma new_tuple_classification (c : context) (data : Zod.fields text)
      (functionData : analysis) (NEW0 : Schema.tuple) :
  Schema.new_tuple (session c) (insert_row c data functionData)
  = Schema.Ok NEW0 ->
  Schema.t_ai_suggested_category NEW0
  = Schema.or_default
      (text_column c (AnalyzeComplaint.get_member functionData
                                                  (lit "suggestedCategory")))
      None
  /\ Schema.t_ai_suggested_response NEW0
     = Schema.or_default
         (text_column c (AnalyzeComplaint.get_member functionData
                                                     (lit "suggestedResponse")))
         None
  /\ (exists p,
         Schema.cast_col Schema.cast_priority Schema.invalid_enum_label
           (text_column c (AnalyzeComplaint.get_member functionData
                                                       (lit "priority")))
         = Schema.Ok p
         /\ Schema.t_priority NEW0 = Schema.or_default p (Some Schema.Medium))
  /\ (exists sc,
         Schema.cast_col_with Schema.assign_decimal_3_2
           (numeric_column c (AnalyzeComplaint.get_member functionData
                                                          (lit "priorityScore")))
         = Schema.Ok sc
         /\ Schema.t_ai_priority_score NEW0 = Schema.or_default sc None)
  /\ Schema.t_status NEW0 = Some Schema.Pending.
Proof.
  unfold Schema.new_tuple. intros H.
  apply bind_ok in H as (p & Hp & H).
  apply bind_ok in H as (sc & Hsc & H).
  apply bind_ok in H as (st' & Hst & H).
  cbn [insert_row Schema.c_status Schema.cast_col] in Hst.
  injection Hst as <-. injection H as <-.
  cbn [insert_row Schema.c_priority Schema.c_ai_priority_score] in Hp, Hsc.
  cbn [Schema.t_ai_suggested_category Schema.t_ai_suggested_response
       Schema.t_priority Schema.t_ai_priority_score Schema.t_status
       insert_row Schema.c_ai_suggested_category
       Schema.c_ai_suggested_response Schema.or_default].
  repeat split; eauto.
Qed.

(** C9, as stated, fails.  The classification returns the score 0.876 and
    the row is stored with 0.88, the column being [DECIMAL(3,2)].  And the
    form does not check what the call returns: when it returns the empty
    object, the row is stored with the priority Medium, which the call
    did not return. *)
Lemma stored_classification_counterexample :
  (AnalyzeComplaint.get_member Examples.fine_analysis (lit "priorityScore")
   = Some (AnalyzeComplaint.JNumber (876 # 1000)%Q)
   /\ map (fun r => (Schema.priority r, Schema.ai_priority_score r))
          (Schema.complaints
             (db (snd (handleSubmit
                         (Examples.context_answering (inr Examples.fine_analysis))
                         Examples.filled_form))))
      = [(Some Schema.High, Some (Schema.Hundredths 88))]
   /\ Qeq_bool (Schema.decimal_value 88) (876 # 1000)%Q = false)
  /\ (AnalyzeComplaint.get_member (AnalyzeComplaint.JObject []) (lit "priority")
      = None
      /\ map (fun r => (Schema.priority r, Schema.ai_priority_score r,
                        Schema.ai_suggested_category r,
                        Schema.ai_suggested_response r))
             (Schema.complaints
                (db (snd (handleSubmit
                            (Examples.context_answering
                               (inr (AnalyzeComplaint.JObject [])))
                            Examples.filled_form))))
         = [(Some Schema.Medium, None, None, None)]).
Proof. vm_compute. repeat split; reflexivity. Qed.

(** C9, amended: when the classification call returns data and the
    submission stores a row, the row has the status Pending and carries
    what the call returned, member by member: a string
    [suggestedCategory] or [suggestedResponse] unchanged, the priority
    whose label is the string [priority], the number [priorityScore]
    rounded to two decimals (the score itself when it has at most two);
    a member that is missing leaves its column at the default, Medium for
    the priority and NULL for the others, and a member that is [null]
    stores NULL. *)
Theorem inserted_row_carries_classification
        (c : context) (w : world) (functionData : analysis)
        (r : Schema.complaint) :
  analyze_complaint c (form_input w) = inr functionData ->
  Schema.complaints (db (snd (handleSubmit c w)))
    = Schema.complaints (db w) ++ [r] ->
  Schema.status r = Schema.Pending
  /\ (forall t,
         AnalyzeComplaint.get_member functionData (lit "suggestedCategory")
         = Some (AnalyzeComplaint.JString t) ->
         Schema.ai_suggested_category r = Some t)
  /\ (forall t,
         AnalyzeComplaint.get_member functionData (lit "suggestedResponse")
         = Some (AnalyzeComplaint.JString t) ->
         Schema.ai_suggested_response r = Some t)
  /\ (forall t,
         AnalyzeComplaint.get_member functionData (lit "priority")
         = Some (AnalyzeComplaint.JString t) ->
         exists p, Schema.priority r = Some p /\ Schema.priority_label p = t)
  /\ (forall q,
         AnalyzeComplaint.get_member functionData (lit "priorityScore")
         = Some (AnalyzeComplaint.JNumber q) ->
         Schema.ai_priority_score r
         = Some (Schema.Hundredths (Schema.round_hundredths q))
         /\ forall h, (q == h # 100)%Q ->
                      Schema.ai_priority_score r = Some (Schema.Hundredths h))
  /\ (AnalyzeComplaint.get_member functionData (lit "priority") = None ->
      Schema.priority r = Some Schema.Medium)
  /\ (AnalyzeComplaint.get_member functionData (lit "priority")
      = Some AnalyzeComplaint.JNull ->
      Schema.priority r = None)
  /\ (Effects.missing_or_null
        (AnalyzeComplaint.get_member functionData (lit "suggestedCategory")) ->
      Schema.ai_suggested_category r = None)
  /\ (Effects.missing_or_null
        (AnalyzeComplaint.get_member functionData (lit "suggestedResponse")) ->
      Schema.ai_suggested_response r = None)
  /\ (Effects.missing_or_null
        (AnalyzeComplaint.get_member functionData (lit "priorityScore")) ->
      Schema.ai_priority_score r = None).
Proof.
  intros Ha Hr.
  apply stored_row_of_submission in Hr
    as (data & fd & NEW0 & _ & Hfd & _ & _ & Hn & Ht).
  rewrite Ha in Hfd. injection Hfd as <-.
  apply set_complaint_id_frame in Ht
    as (_ & _ & _ & _ & _ & Hcat & Hp & Hs & Hst & _ & Hresp & _ & _).
  cbn [Schema.tuple_of Schema.t_ai_suggested_category
       Schema.t_priority Schema.t_ai_priority_score Schema.t_status
       Schema.t_ai_suggested_response] in *.
  apply new_tuple_classification in Hn
    as (Ncat & Nresp & (p & Cp & Np) & (sc & Csc & Nsc) & Nst).
  rewrite Ncat in Hcat. rewrite Nresp in Hresp. rewrite Np in Hp.
  rewrite Nsc in Hs. rewrite Nst in Hst. clear Ncat Nresp Np Nsc Nst.
  split; [now injection Hst|].
  split; [intros t E; rewrite E in Hcat; exact Hcat|].
  split; [intros t E; rewrite E in Hresp; exact Hresp|].
  split.
  { intros t E. rewrite E in Cp. cbn [text_column Schema.cast_col] in Cp.
    destruct (Schema.cast_priority t) as [p'|] eqn:Ep; [|discriminate Cp].
    injection Cp as <-. exists p'. split; [exact Hp|].
    now apply cast_priority_label. }
  split.
  { intros q E. rewrite E in Csc.
    cbn [numeric_column Schema.cast_col_with] in Csc.
    apply bind_ok in Csc as (d & Hd & Csc). injection Csc as <-.
    apply assign_decimal_3_2_number in Hd. subst d.
    cbn [Schema.or_default] in Hs. split; [exact Hs|].
    intros h Hh. rewrite Hs. do 2 f_equal.
    now apply round_hundredths_exact. }
  split.
  { intros E. rewrite E in Cp. cbn [text_column Schema.cast_col] in Cp.
    injection Cp as <-. exact Hp. }
  split.
  { intros E. rewrite E in Cp. cbn [text_column Schema.cast_col] in Cp.
    injection Cp as <-. exact Hp. }
  split; [intros [E|E]; rewrite E in Hcat; exact Hcat|].
  split; [intros [E|E]; rewrite E in Hresp; exact Hresp|].
  intros [E|E]; rewrite E in Csc;
    cbn [numeric_column Schema.cast_col_with] in Csc;
    injection Csc as <-; exact Hs.
Qed.

(** The scenario of the specification: the row stored is
    [Examples.scenario_row]. *)
Lemma inserted_row_carries_classification_witness :
  Schema.priority Examples.scenario_row = Some Schema.Medium
  /\ Schema.ai_priority_score Examples.scenario_row
     = Some (Schema.Hundredths 70)
  /\ Schema.status Examples.scenario_row = Schema.Pending.
Proof.
  destruct (inserted_row_carries_classification
              (Examples.context_answering (inr Examples.medium_analysis))
              Examples.filled_form Examples.medium_analysis
              Examples.scenario_row)
    as (Hstatus & _ & _ & _ & Hscore & _).
  - reflexivity.
  - vm_compute. reflexivity.
  - split; [reflexivity|]. split; [|exact Hstatus].
    apply (Hscore (7 # 10)%Q); reflexivity.
Defined.

End Submission.

(* ===================================================================== *)
(** * Updates *)
(* ===================================================================== *)

Section Updates.

Import Schema.

Lemma same_identity_refl (r : complaint) : same_identity r r.
Proof. repeat split. Qed.

Lemma update_row_admin_frame (s : session) (db : database)
      (st : complaint_status) (response : text)
      (others : list complaint) (old r : complaint) :
  update_row s db (AdminDashboard.update_columns st response) others old = Ok r ->
  same_identity old r.
Proof.
  unfold update_row, updated_tuple. intros H.
  apply bind_ok in H as (t & Ht & H).
  apply bind_ok in H as ([] & _ & H).
  apply bind_ok in H as (r' & Hr & H).
  apply bind_ok in H as ([] & _ & H). injection H as ->.
  apply bind_ok in Ht as (p & _ & Ht).
  apply bind_ok in Ht as (sc & _ & Ht).
  apply bind_ok in Ht as (st' & _ & Ht). injection Ht as <-.
  apply check_not_null_ok in Hr.
  apply (f_equal (fun t => (t_student_id t, t_title t, t_description t,
                            t_complaint_id t))) in Hr.
  cbn in Hr. injection Hr as H1 H2 H3 H4.
  unfold same_identity. now rewrite H1, H2, H3, H4.
Qed.

(** [update_rows] keeps the rows in place; each is either left as it was
    or replaced by its new version. *)
Lemma update_rows_pointwise (R : complaint -> complaint -> Prop)
      (s : session) (db : database) (c : columns) (i : uuid) :
  (forall r, R r r) ->
  (forall others old r, update_row s db c others old = Ok r -> R old r) ->
  forall todo done cs,
    update_rows s db c i done todo = Ok cs ->
    exists todo', cs = done ++ todo' /\ Forall2 R todo todo'.
Proof.
  intros Hrefl Hrow. induction todo as [|old rest IH]; intros done cs H.
  - cbn in H. injection H as <-. exists []. now rewrite app_nil_r.
  - cbn [update_rows] in H.
    destruct (N.eqb (id old) i && policy_update_using db s old).
    + apply bind_ok in H as (r & Hr & H).
      apply IH in H as (todo' & -> & HF).
      exists (r :: todo'). rewrite <- app_assoc. split; [reflexivity|].
      constructor; [eapply Hrow; eassumption | assumption].
    + apply IH in H as (todo' & -> & HF).
      exists (old :: todo'). rewrite <- app_assoc. split; [reflexivity|].
      constructor; [apply Hrefl | assumption].
Qed.

(** C5: whatever the session, the table, the row and the new status and
    response, [updateComplaint] leaves every row in its place with its
    [student_id], [title], [description] and [complaint_id]. *)
Theorem admin_update_preserves_identity
        (s : session) (db : database) (i : uuid)
        (st : complaint_status) (response : text) :
  Forall2 same_identity
          (complaints db)
          (complaints (fst (AdminDashboard.updateComplaint s db i st response))).
Proof.
  unfold AdminDashboard.updateComplaint, update_complaint_by_id.
  destruct (update_rows s db (AdminDashboard.update_columns st response) i []
              (complaints db)) as [cs|e] eqn:H; cbn.
  - apply (update_rows_pointwise same_identity) in H
      as (todo' & -> & HF); [exact HF | apply same_identity_refl |].
    intros others old r. apply update_row_admin_frame.
  - clear H. induction (complaints db); constructor;
      [apply same_identity_refl | assumption].
Qed.

(** Rows the statement does not select, or the session may not update,
    are passed over. *)
Lemma update_rows_skip (s : session) (db : database) (c : columns) (i : uuid)
      (l rest done : list complaint) :
  (forall o, In o l ->
             N.eqb (id o) i && policy_update_using db s o = false) ->
  update_rows s db c i done (l ++ rest)
  = update_rows s db c i (done ++ l) rest.
Proof.
  revert done. induction l as [|o l IH]; intros done Hl.
  - now rewrite app_nil_r.
  - cbn [app update_rows]. rewrite (Hl o (or_introl eq_refl)).
    rewrite IH by (intros o' Ho'; apply Hl; now right).
    now rewrite <- app_assoc.
Qed.

Lemma update_rows_none (s : session) (db : database) (c : columns) (i : uuid)
      (l : list complaint) :
  (forall o, In o l ->
             N.eqb (id o) i && policy_update_using db s o = false) ->
  update_rows s db c i [] l = Ok l.
Proof.
  intros Hl. rewrite <- (app_nil_r l) at 1.
  rewrite update_rows_skip by assumption. reflexivity.
Qed.

Lemma with_complaints_same (db : database) :
  with_complaints db (complaints db) = db.
Proof. now destruct db. Qed.

Lemma status_eqb_eq (a b : complaint_status) :
  status_eqb a b = true <-> a = b.
Proof. destruct a, b; simpl; split; congruence. Qed.

(** The owner of a row who is not an admin: the UPDATE policies reduce
    to the status being Pending. *)
Lemma owner_policy (s : session) (db : database) (r : complaint) :
  auth_uid s = Some (student_id r) ->
  has_role db (student_id r) admin = false ->
  policy_update_using db s r = status_eqb (status r) Pending.
Proof.
  intros Hu Ha.
  unfold policy_update_using, policy_update_student, policy_update_admin,
    uid_is, uid_has_role.
  rewrite Hu, Ha, N.eqb_refl. now rewrite orb_false_r.
Qed.

(** The check of the new row for a user who is not an admin: the row
    must be the user's and pending. *)
Lemma owner_check (s : session) (db : database) (u : uuid) (NEW : tuple) :
  auth_uid s = Some u -> has_role db u admin = false ->
  with_check_update db s (update_updated_at_column s NEW)
  = match t_student_id NEW, t_status NEW with
    | Some u', Some st => N.eqb u u' && status_eqb st Pending
    | _, _ => false
    end.
Proof.
  intros Hu Ha.
  unfold with_check_update, policy_update_admin, uid_has_role, uid_is.
  cbn [update_updated_at_column t_student_id t_status].
  rewrite Hu, Ha. apply orb_false_r.
Qed.

(** An UPDATE by id of a row whose id no other row has: the row is passed
    over when the policies do not show it to the session, and replaced by
    its new version, or the statement fails, when they do. *)
Lemma update_one_row (s : session) (db : database) (c : columns)
      (pre post : list complaint) (r : complaint) :
  complaints db = pre ++ r :: post ->
  (forall o, In o (pre ++ post) -> id o <> id r) ->
  update_complaint_by_id s db c (id r)
  = if policy_update_using db s r then
      match update_row s db c (pre ++ post) r with
      | Ok r' => Ok (with_complaints db (pre ++ r' :: post))
      | Err e => Err e
      end
    else Ok db.
Proof.
  intros Hdb Huniq.
  assert (Hother : forall o, In o pre \/ In o post ->
            N.eqb (id o) (id r) && policy_update_using db s o = false).
  { intros o Ho. specialize (Huniq o (in_or_app _ _ _ Ho)).
    apply N.eqb_neq in Huniq. now rewrite Huniq. }
  unfold update_complaint_by_id. rewrite Hdb.
  rewrite update_rows_skip by (intros o Ho; apply Hother; now left).
  cbn [app update_rows]. rewrite N.eqb_refl. cbn [andb].
  destruct (policy_update_using db s r).
  - destruct (update_row s db c (pre ++ post) r) as [r'|e]; [|reflexivity].
    cbn [bind]. rewrite <- (app_nil_r post) at 1.
    rewrite update_rows_skip by (intros o Ho; apply Hother; now right).
    cbn [update_rows bind]. now rewrite <- app_assoc.
  - rewrite <- (app_nil_r post) at 1.
    rewrite update_rows_skip by (intros o Ho; apply Hother; now right).
    cbn [update_rows bind]. rewrite <- app_assoc. cbn [app].
    rewrite <- Hdb. now rewrite with_complaints_same.
Qed.

Lemma edit_columns_tuple (t d : text) (r : complaint) :
  updated_tuple (edit_columns t d) r = Ok (tuple_of (edited r t d (updated_at r))).
Proof. reflexivity. Qed.

(** C4, as stated, fails in both directions.  The owner of a pending
    complaint who sets its status is refused, although the complaint is
    pending; and the owner's update of a complaint that is resolved is not
    rejected: it changes nothing and the client is told it succeeded. *)
Lemma pending_update_counterexample :
  (map status (complaints (Examples.submissions 1)) = [Pending]
   /\ update_complaint_by_id (Examples.session_of 1 0) (Examples.submissions 1)
        (AdminDashboard.update_columns Withdrawn empty_string) 101%N
      = Err row_level_security_violation)
  /\ (map (fun r => (id r, student_id r, status r))
          (complaints Examples.resolved_db)
      = [(101%N, 1%N, Resolved)]
      /\ update_complaint_by_id (Examples.session_of 1 0) Examples.resolved_db
           (edit_columns (lit "Projector") (lit "It is still broken.")) 101%N
         = Ok Examples.resolved_db).
Proof. vm_compute. repeat split; reflexivity. Qed.

(** C4, amended: for a stored row and the session of its owning student
    (who is not an admin), the UPDATE policies show the row to the session
    exactly when its status is Pending.  While it is Pending, an update is
    refused with a row-level-security error when its new row has another
    status or another owner, and applied when its new row is pending, the
    student's own and within the constraints of the table; so an edit of
    title and description is applied.  Once the status is anything else,
    an update of the row, whatever columns it sets to values their types
    accept, is not refused: it changes nothing. *)
Theorem student_update_iff_pending
        (s : session) (db : database) (pre post : list complaint)
        (r : complaint) :
  complaints db = pre ++ r :: post ->
  (forall o, In o (pre ++ post) ->
             id o <> id r /\ complaint_id o <> complaint_id r) ->
  auth_uid s = Some (student_id r) ->
  has_role db (student_id r) admin = false ->
  (policy_update_using db s r = true <-> status r = Pending)
  /\ (status r = Pending ->
      (forall c NEW,
          updated_tuple c r = Ok NEW ->
          t_status NEW <> Some Pending
          \/ t_student_id NEW <> Some (student_id r) ->
          update_complaint_by_id s db c (id r)
          = Err row_level_security_violation)
      /\ (forall c NEW r',
             updated_tuple c r = Ok NEW ->
             t_status NEW = Some Pending ->
             t_student_id NEW = Some (student_id r) ->
             check_not_null (update_updated_at_column s NEW) = Ok r' ->
             is_unique_among r' (pre ++ post) = true ->
             update_complaint_by_id s db c (id r)
             = Ok (with_complaints db (pre ++ r' :: post)))
      /\ (forall t d,
             update_complaint_by_id s db (edit_columns t d) (id r)
             = Ok (with_complaints db (pre ++ edited r t d (now s) :: post))))
  /\ (status r <> Pending ->
      forall c NEW,
        updated_tuple c r = Ok NEW ->
        update_complaint_by_id s db c (id r) = Ok db).
Proof.
  intros Hdb Huniq Hu Ha.
  pose proof (owner_policy s db r Hu Ha) as Hpol.
  assert (Hids : forall o, In o (pre ++ post) -> id o <> id r)
    by (intros o Ho; now destruct (Huniq o Ho)).
  assert (Hrefused : forall c NEW,
            updated_tuple c r = Ok NEW ->
            t_status NEW <> Some Pending
            \/ t_student_id NEW <> Some (student_id r) ->
            update_row s db c (pre ++ post) r = Err row_level_security_violation).
  { intros c NEW HN Hbad. unfold update_row. rewrite HN. cbn [bind].
    rewrite (owner_check s db (student_id r) NEW Hu Ha).
    destruct (t_student_id NEW) as [u'|], (t_status NEW) as [st|];
      try reflexivity.
    destruct (N.eqb (student_id r) u') eqn:Eu; [|reflexivity].
    destruct (status_eqb st Pending) eqn:Est; [|reflexivity].
    apply N.eqb_eq in Eu. apply status_eqb_eq in Est. subst.
    destruct Hbad as [Hbad|Hbad]; now contradiction Hbad. }
  assert (Happlied : forall c NEW r',
            updated_tuple c r = Ok NEW ->
            t_status NEW = Some Pending ->
            t_student_id NEW = Some (student_id r) ->
            check_not_null (update_updated_at_column s NEW) = Ok r' ->
            is_unique_among r' (pre ++ post) = true ->
            update_row s db c (pre ++ post) r = Ok r').
  { intros c NEW r' HN Hst Hsid Hnn Huq. unfold update_row.
    rewrite HN. cbn [bind].
    rewrite (owner_check s db (student_id r) NEW Hu Ha), Hst, Hsid.
    rewrite N.eqb_refl. cbn [status_eqb andb require bind].
    rewrite Hnn. cbn [bind]. now rewrite Huq. }
  split; [|split].
  - rewrite Hpol. apply status_eqb_eq.
  - intros Hst.
    assert (Hsel : policy_update_using db s r = true)
      by (rewrite Hpol, Hst; reflexivity).
    split; [|split].
    + intros c NEW HN Hbad.
      rewrite (update_one_row s db c pre post r Hdb Hids), Hsel.
      now rewrite (Hrefused c NEW HN Hbad).
    + intros c NEW r' HN HP Hsid Hnn Huq.
      rewrite (update_one_row s db c pre post r Hdb Hids), Hsel.
      now rewrite (Happlied c NEW r' HN HP Hsid Hnn Huq).
    + intros t d.
      rewrite (update_one_row s db _ pre post r Hdb Hids), Hsel.
      rewrite (Happlied (edit_columns t d) _ (edited r t d (now s))
                 (edit_columns_tuple t d r)).
      * reflexivity.
      * cbn [tuple_of t_status edited status]. now rewrite Hst.
      * reflexivity.
      * reflexivity.
      * apply forallb_forall. intros o Ho.
        destruct (Huniq o Ho) as [Hid Hcode]. cbn [id complaint_id edited].
        apply N.eqb_neq in Hid. apply text_eqb_neq in Hcode.
        now rewrite Hid, Hcode.
  - intros Hst c NEW _.
    rewrite (update_one_row s db c pre post r Hdb Hids), Hpol.
    destruct (status_eqb (status r) Pending) eqn:E; [|reflexivity].
    apply status_eqb_eq in E. contradiction.
Qed.

(** Student 1 and the second of the two pending complaints of
    [Examples.submissions 2]: an edit is applied, a change of status is
    refused. *)
Lemma student_update_iff_pending_witness :
  update_complaint_by_id (Examples.session_of 1 0) (Examples.submissions 2)
    (edit_columns (lit "Projector") (lit "It is still broken.")) 102%N
  = Ok (with_complaints (Examples.submissions 2)
          [Examples.numbered_row 1;
           edited (Examples.numbered_row 2) (lit "Projector")
                  (lit "It is still broken.") Examples.in_2025])
  /\ update_complaint_by_id (Examples.session_of 1 0) (Examples.submissions 2)
       (AdminDashboard.update_columns Resolved (lit "Done")) 102%N
     = Err row_level_security_violation.
Proof.
  destruct (student_update_iff_pending
              (Examples.session_of 1 0) (Examples.submissions 2)
              [Examples.numbered_row 1] [] (Examples.numbered_row 2))
    as (_ & Hpending & _).
  - reflexivity.
  - intros o [<-|[]]. split; intros H; vm_compute in H; discriminate H.
  - reflexivity.
  - reflexivity.
  - destruct (Hpending eq_refl) as (Hrefused & _ & Hedit). split.
    + apply Hedit.
    + apply (Hrefused (AdminDashboard.update_columns Resolved (lit "Done"))
                      _ eq_refl).
      left. discriminate.
Defined.

(** The policy on the new row: the owner of a pending complaint cannot
    move it out of Pending, an admin can; the admin's update sets the
    status and the response. *)
Lemma update_examples :
  update_complaint_by_id (Examples.session_of 1 0) (Examples.submissions 1)
    (AdminDashboard.update_columns Withdrawn empty_string) 101%N
  = Err row_level_security_violation
  /\ map (fun r => (status r, admin_response r, complaint_id r))
         (complaints
            (fst (AdminDashboard.updateComplaint
                    (Examples.session_of 9 0) (Examples.submissions 1)
                    101%N Resolved (lit "Repaired."))))
     = [(Resolved, Some (lit "Repaired."), lit "CMP-2025-001")].
Proof. split; reflexivity. Qed.

(** A row the UPDATE policies let a session update is a row the SELECT
    policies let it read, so the filter [WHERE id = i] of the statement
    sees every row [policy_update_using] admits. *)
Lemma update_using_implies_select (s : session) (db : database) (r : complaint) :
  policy_update_using db s r = true -> policy_select db s r = true.
Proof.
  unfold policy_update_using, policy_update_student, policy_update_admin,
    policy_select.
  destruct (uid_is s (student_id r)), (uid_has_role db s admin),
    (status_eqb (status r) Pending); cbn; congruence.
Qed.

End Updates.

(* ===================================================================== *)
(** * Ticket codes *)
(* ===================================================================== *)

Section TicketCodes.

Import Schema.

Lemma generate_complaint_id_built (s : session) (db : database) (code : text) :
  generate_complaint_id s db = Ok code ->
  code = built_code (ts_year (now s)) (Z.of_nat (length (counted s db)) + 1).
Proof.
  unfold generate_complaint_id. intros H.
  apply bind_ok in H as ([] & _ & H). now injection H.
Qed.

(** Up to 999 the code built is the one of the specification. *)
Lemma built_code_in_range (year : N) (k : nat) :
  1 <= k <= 999 ->
  built_code year (Z.of_nat k) = Spec.ticket_code year k.
Proof.
  intros Hk. unfold built_code, Spec.ticket_code. do 3 f_equal.
  assert (H : forallb (fun k => text_eqb
                                  (Pg.lpad (Pg.int_to_text (Z.of_nat k)) 3 (lit "0"))
                                  (Spec.zero_pad3 k))
                      (seq 1 999) = true) by (vm_compute; reflexivity).
  apply text_eqb_eq.
  apply (proj1 (forallb_forall _ _) H). apply in_seq. lia.
Qed.

(** The thousandth code is the hundredth. *)
Lemma built_code_1000 (year : N) :
  built_code year 1000 = Spec.ticket_code year 100.
Proof. reflexivity. Qed.

(** In range, [generate_complaint_id] returns the code of the
    specification for the number of rows it counts. *)
Lemma generate_complaint_id_in_range (s : session) (db : database) :
  length (counted s db) < 999 ->
  generate_complaint_id s db
  = Ok (Spec.ticket_code (ts_year (now s)) (length (counted s db) + 1)).
Proof.
  intros H. unfold generate_complaint_id. fold (counted s db).
  replace (Z.of_nat (length (counted s db)) + 1)%Z
    with (Z.of_nat (length (counted s db) + 1)) by lia.
  fold (built_code (ts_year (now s)) (Z.of_nat (length (counted s db) + 1))).
  rewrite built_code_in_range by lia.
  destruct (Z.leb_spec (Z.of_nat (length (counted s db) + 1)) 2147483647);
    [reflexivity | lia].
Qed.

(** C1 fails on the code.  After 999 submissions of one student in 2025,
    the next row without a code is assigned [CMP-2025-100], where the
    specification says [CMP-2025-1000], and the insert is rejected because
    that code is stored already.  And after one submission of student 1,
    the first row of student 2 is assigned [CMP-2025-001], where the
    specification says [CMP-2025-002], and is rejected as well: the count
    runs over the rows the inserting session may read. *)
Theorem assigned_code_differs :
  (length (complaints (Examples.submissions 999)) = 999
   /\ generate_complaint_id (Examples.session_of 1 5000) (Examples.submissions 999)
      = Ok (lit "CMP-2025-100")
   /\ Spec.assigned_code 2025 (complaints (Examples.submissions 999))
      = lit "CMP-2025-1000"
   /\ insert_complaint (Examples.session_of 1 5000) (Examples.submissions 999)
                       Examples.form_row
      = Err unique_violation)
  /\ (insert_complaint (Examples.session_of 1 101) Examples.empty_db
                       Examples.form_row
      = Ok (Examples.submissions 1)
      /\ map complaint_id (complaints (Examples.submissions 1))
         = [lit "CMP-2025-001"]
      /\ generate_complaint_id (Examples.session_of 2 200) (Examples.submissions 1)
         = Ok (lit "CMP-2025-001")
      /\ Spec.assigned_code 2025 (complaints (Examples.submissions 1))
         = lit "CMP-2025-002"
      /\ insert_complaint (Examples.session_of 2 200) (Examples.submissions 1)
                          Examples.form_row_of_2
         = Err unique_violation).
Proof. vm_compute. repeat split. Qed.

End TicketCodes.

(* ===================================================================== *)
(** * Stored codes under overlapping inserts *)
(* ===================================================================== *)

Section Overlap.

Import Schema.
Import Invariant.

Lemma store_ok (s : session) (db db' : database) (NEW : tuple) :
  store s db NEW = Ok db' ->
  exists r, check_not_null NEW = Ok r
            /\ policy_insert_check s r = true
            /\ is_unique_among r (complaints db) = true
            /\ db' = with_complaints db (complaints db ++ [r]).
Proof.
  unfold store. intros H.
  apply bind_ok in H as ([] & Hp & H). apply require_ok in Hp.
  apply bind_ok in H as (r & Hr & H).
  apply bind_ok in H as ([] & Hu & H). apply require_ok in Hu.
  injection H as <-. exists r.
  rewrite (with_check_insert_row s NEW r Hr) in Hp. auto.
Qed.

Lemma unique_code_not_stored (r : complaint) (cs : list complaint) :
  is_unique_among r cs = true -> ~ In (complaint_id r) (map complaint_id cs).
Proof.
  intros H Hin. apply in_map_iff in Hin as (o & Ho & Hin).
  apply (proj1 (forallb_forall _ _) H) in Hin.
  rewrite Ho, text_eqb_refl, andb_false_r in Hin. discriminate.
Qed.

Lemma stored_code_not_unique (r : complaint) (cs : list complaint) :
  In (complaint_id r) (map complaint_id cs) -> is_unique_among r cs = false.
Proof.
  intros Hin. destruct (is_unique_among r cs) eqn:E; [|reflexivity].
  now apply unique_code_not_stored in E.
Qed.

Lemma NoDup_snoc {A} (l : list A) (x : A) :
  NoDup l -> ~ In x l -> NoDup (l ++ [x]).
Proof.
  induction 1 as [|y l Hy Hl IH]; intros Hx; cbn.
  - constructor; [intros [] | constructor].
  - constructor.
    + rewrite in_app_iff. intros [H|[<-|[]]]; [now apply Hy | apply Hx; now left].
    + apply IH. intros H. apply Hx. now right.
Qed.

(** The UNIQUE constraint at work: storing keeps the codes distinct. *)
Lemma store_keeps_codes_distinct (s : session) (db : database) (NEW : tuple) :
  NoDup (codes db) -> NoDup (codes (after db (store s db NEW))).
Proof.
  intros Hd. destruct (store s db NEW) as [db'|e] eqn:H; cbn [after];
    [|exact Hd].
  apply store_ok in H as (r & _ & _ & Hu & ->).
  unfold codes. cbn [with_complaints complaints]. rewrite map_app.
  apply NoDup_snoc; [exact Hd | now apply unique_code_not_stored].
Qed.

Lemma like_ticket_code (y' y : N) (k : nat) :
  Pg.like (year_pattern (Pg.to_char_YYYY y')) (Spec.ticket_code y k)
  = N.eqb y' y.
Proof.
  unfold Spec.ticket_code.
  rewrite year_pattern_same_year by apply to_char_YYYY_digits.
  destruct (N.eqb_spec y' y) as [->|Hy].
  - apply text_eqb_refl.
  - apply text_eqb_neq. intros H. now apply to_char_YYYY_inj in H.
Qed.

Lemma ticket_code_has_form (y : N) (k : nat) :
  1 <= k <= 999 -> Spec.has_ticket_form y (Spec.ticket_code y k) = true.
Proof.
  intros Hk. unfold Spec.has_ticket_form, Spec.ticket_code.
  replace (lit "CMP-" ++ Pg.to_char_YYYY y ++ lit "-" ++ Spec.zero_pad3 k)
    with ((lit "CMP-" ++ Pg.to_char_YYYY y ++ lit "-") ++ Spec.zero_pad3 k)
    by (now rewrite <- !app_assoc).
  rewrite starts_with_app, skipn_app, skipn_all, Nat.sub_diag.
  cbn [andb app skipn].
  assert (H : forallb (fun k => match Spec.zero_pad3 k with
                                | [a; b; c] => is_digit a && is_digit b && is_digit c
                                | _ => false
                                end) (seq 1 999) = true)
    by (vm_compute; reflexivity).
  apply (proj1 (forallb_forall _ _) H). apply in_seq. lia.
Qed.

Lemma filter_map_swap {A B} (f : A -> B) (p : A -> bool) (q : B -> bool)
      (l : list A) :
  (forall x, In x l -> p x = q (f x)) ->
  map f (filter p l) = filter q (map f l).
Proof.
  induction l as [|x l IH]; intros H; [reflexivity|].
  cbn [filter map]. rewrite <- (H x (or_introl eq_refl)).
  rewrite <- IH by (intros x' Hx'; apply H; now right).
  now destruct (p x).
Qed.

Lemma filter_narrower {A B} (f : A -> B) (p : A -> bool) (q : B -> bool)
      (l : list A) :
  length (filter (fun x => p x && q (f x)) l) <= length (filter q (map f l)).
Proof.
  induction l as [|x l IH]; [apply le_n|].
  cbn [filter map]. destruct (p x), (q (f x)); cbn [andb length]; lia.
Qed.

(** The trigger never counts more rows than carry the year. *)
Lemma counted_at_most (s : session) (db : database) :
  length (counted s db) <= length (year_codes (ts_year (now s)) db).
Proof. apply filter_narrower. Qed.

Lemma year_codes_stored (y : N) (db : database) (c : text) :
  In c (year_codes y db) -> In c (codes db).
Proof. unfold year_codes. intros H. now apply filter_In in H. Qed.

Lemma year_codes_snoc (y : N) (db : database) (r : complaint) :
  year_codes y (with_complaints db (complaints db ++ [r]))
  = year_codes y db
    ++ (if Pg.like (year_pattern (Pg.to_char_YYYY y)) (complaint_id r)
        then [complaint_id r] else []).
Proof.
  unfold year_codes, codes. cbn [with_complaints complaints].
  now rewrite map_app, filter_app.
Qed.

Lemma new_tuple_created_at (s : session) (c : columns) (NEW0 : tuple) :
  new_tuple s c = Ok NEW0 ->
  t_created_at NEW0 = or_default (c_created_at c) (Some (now s)).
Proof.
  unfold new_tuple. intros H.
  apply bind_ok in H as (p & _ & H).
  apply bind_ok in H as (sc & _ & H).
  apply bind_ok in H as (st & _ & H).
  injection H as <-. reflexivity.
Qed.

Lemma in_remove_nth {A} (k : nat) (l : list A) (x : A) :
  In x (Concurrent.remove_nth k l) -> In x l.
Proof.
  revert k. induction l as [|y l IH]; intros [|k]; cbn; auto.
  intros [H|H]; [now left | right; now apply (IH k)].
Qed.

Lemma start_numbered (db0 : database) :
  complaints db0 = [] -> numbered (Concurrent.start db0).
Proof.
  intros H0. constructor; cbn [Concurrent.start Concurrent.db Concurrent.running].
  - intros y. exists 0. split; [lia|]. unfold year_codes, codes.
    now rewrite H0.
  - intros r Hr. rewrite H0 in Hr. destruct Hr.
  - intros x [].
Qed.

Lemma begin_numbered (st : Concurrent.state) (s : session) (c : columns) :
  numbered st -> Concurrent.as_the_form_does c = true ->
  numbered (Concurrent.exec st (Concurrent.Begin s c)).
Proof.
  intros [Hy Hd Hw] Hc. cbn [Concurrent.exec].
  destruct (before_insert s (Concurrent.db st) c) as [NEW|e] eqn:Hb;
    [|now constructor].
  constructor; cbn [Concurrent.db Concurrent.running]; [exact Hy | exact Hd |].
  intros x Hx. apply in_app_or in Hx as [Hx | [<- | []]]; [now apply Hw|].
  cbn [Concurrent.its_session Concurrent.its_tuple].
  unfold before_insert in Hb. apply bind_ok in Hb as (NEW0 & H0 & Hb).
  unfold Concurrent.as_the_form_does in Hc.
  apply andb_true_iff in Hc as [Hcode Hcreated].
  assert (Hno : no_code_supplied NEW0 = true).
  { unfold no_code_supplied. rewrite (new_tuple_complaint_id _ _ _ H0).
    unfold Concurrent.supplies_no_code in Hcode.
    destruct (c_complaint_id c); cbn [or_default]; auto. }
  pose proof (set_complaint_id_frame _ _ _ _ Hb)
    as (_ & _ & _ & _ & _ & _ & _ & _ & _ & _ & _ & Hca & _).
  apply set_complaint_id_generates in Hb as (code & Hg & Hcd); [|exact Hno].
  apply generate_complaint_id_built in Hg.
  exists (length (counted s (Concurrent.db st)) + 1). split; [|split].
  - pose proof (counted_at_most s (Concurrent.db st)). lia.
  - rewrite Hcd, Hg. do 2 f_equal. lia.
  - rewrite Hca, (new_tuple_created_at _ _ _ H0).
    destruct (c_created_at c); [reflexivity | discriminate | discriminate].
Qed.

Lemma finish_numbered (st : Concurrent.state) (k : nat) :
  numbered st -> numbered (Concurrent.exec st (Concurrent.Finish k)).
Proof.
  intros [Hy Hd Hw]. cbn [Concurrent.exec].
  destruct (nth_error (Concurrent.running st) k) as [x|] eqn:Hx;
    [|now constructor].
  apply nth_error_In in Hx.
  destruct (store (Concurrent.its_session x) (Concurrent.db st)
                  (Concurrent.its_tuple x)) as [db'|e] eqn:Hs; cbn [after].
  { (* stored *)
    apply store_ok in Hs as (r & Hnn & _ & Hu & ->).
    apply check_not_null_ok in Hnn.
    destruct (Hw x Hx) as (kx & Hkx & Hcode & Hcreated).
    rewrite <- Hnn in Hcode, Hcreated.
    cbn [tuple_of t_complaint_id t_created_at] in Hcode, Hcreated.
    injection Hcode as Hcode. injection Hcreated as Hcreated.
    set (y := ts_year (now (Concurrent.its_session x))) in *.
    destruct (Hy y) as (n & Hn & Hcodes).
    assert (Hlen : length (year_codes y (Concurrent.db st)) = n)
      by (now rewrite Hcodes, length_map, length_seq).
    rewrite Hlen in Hkx.
    apply unique_code_not_stored in Hu. fold (codes (Concurrent.db st)) in Hu.
    assert (Hnext : kx = n + 1 /\ n + 1 <= 999).
    { destruct (Nat.le_gt_cases kx n) as [Hle|Hgt].
      - exfalso. apply Hu. apply (year_codes_stored y). rewrite Hcodes, Hcode.
        rewrite built_code_in_range by lia.
        apply in_map, in_seq. lia.
      - assert (kx = n + 1) as -> by lia. split; [reflexivity|].
        destruct (Nat.le_gt_cases (n + 1) 999) as [|Hbig]; [assumption|].
        exfalso. assert (n = 999) as -> by lia.
        apply Hu. apply (year_codes_stored y). rewrite Hcodes, Hcode.
        change (Z.of_nat (999 + 1)) with 1000%Z. rewrite built_code_1000.
        apply in_map, in_seq. lia. }
    destruct Hnext as [-> Hn1].
    rewrite built_code_in_range in Hcode by lia.
    constructor; cbn [Concurrent.db Concurrent.running].
    - intros y'. rewrite year_codes_snoc, Hcode, like_ticket_code.
      destruct (N.eqb_spec y' y) as [->|Hne].
      + exists (n + 1). split; [exact Hn1|].
        rewrite Hcodes. replace (n + 1) with (S n) by lia.
        rewrite seq_S, map_app. reflexivity.
      + rewrite app_nil_r. apply Hy.
    - intros r' Hr'. cbn [with_complaints complaints] in Hr'.
      apply in_app_or in Hr' as [Hr' | [<- | []]]; [now apply Hd|].
      exists (n + 1). split; [lia|]. rewrite Hcode, Hcreated. reflexivity.
    - intros x' Hx'. apply in_remove_nth in Hx'.
      destruct (Hw x' Hx') as (k' & Hk' & Hrest).
      exists k'. split; [|exact Hrest].
      rewrite year_codes_snoc, length_app. lia. }
  { (* rejected *)
    constructor; cbn [Concurrent.db Concurrent.running];
      [exact Hy | exact Hd |].
    intros x' Hx'. apply in_remove_nth in Hx'. now apply Hw. }
Qed.

End Overlap.


(* ===================================================================== *)
(** * Further properties of the policies and statements *)
(* ===================================================================== *)

Section Statements.

Import Schema.

Lemma anonymous_policies (s : session) (db : database) (r : complaint) :
  auth_uid s = None ->
  policy_select db s r = false /\ policy_insert_check s r = false
  /\ policy_update_using db s r = false.
Proof.
  intros H.
  unfold policy_select, policy_insert_check, policy_update_using,
    policy_update_student, policy_update_admin, uid_is, uid_has_role.
  now rewrite H.
Qed.

(** X1: a session without a user can do nothing with complaints: every
    INSERT fails, every UPDATE leaves the table as it is, and every SELECT
    returns no row. *)
Theorem anonymous_session_is_powerless (s : session) (db : database) :
  auth_uid s = None ->
  (forall c, exists e, insert_complaint s db c = Err e)
  /\ (forall c i, update_complaint_by_id s db c i = Ok db)
  /\ (forall f, Queries.select_complaints s db f = []).
Proof.
  intros Hs. split; [|split].
  - intros c. unfold insert_complaint, before_insert, store.
    destruct (new_tuple s c) as [NEW0|e]; cbn [bind]; [|eauto].
    destruct (set_complaint_id s db NEW0) as [NEW|e]; cbn [bind]; [|eauto].
    assert (Hp : with_check_insert s NEW = false).
    { unfold with_check_insert, uid_is. rewrite Hs.
      now destruct (t_student_id NEW). }
    rewrite Hp. cbn. eauto.
  - intros c i. unfold update_complaint_by_id.
    rewrite update_rows_none; [cbn [bind]; now rewrite with_complaints_same|].
    intros o _. destruct (anonymous_policies s db o Hs) as (_ & _ & ->).
    apply andb_false_r.
  - intros f. unfold Queries.select_complaints.
    replace (filter (fun r => policy_select db s r && f r) (complaints db))
      with (@nil complaint); [reflexivity|].
    induction (complaints db) as [|r l IH]; [reflexivity|].
    cbn [filter]. destruct (anonymous_policies s db r Hs) as (-> & _).
    exact IH.
Qed.

Lemma insert_complaint_appends
      (s : session) (db db' : database) (c : columns) :
  insert_complaint s db c = Ok db' ->
  exists r,
    db' = with_complaints db (complaints db ++ [r])
    /\ auth_uid s = Some (student_id r)
    /\ ~ In (id r) (map id (complaints db))
    /\ ~ In (complaint_id r) (codes db).
Proof.
  intros H.
  apply insert_complaint_ok in H as (NEW0 & NEW & r & _ & _ & _ & Hp & Hu & ->).
  exists r. split; [reflexivity|]. split; [|split].
  - unfold policy_insert_check, uid_is in Hp.
    destruct (auth_uid s) as [u|]; [|discriminate].
    apply N.eqb_eq in Hp. now subst.
  - intros Hin. apply in_map_iff in Hin as (o & Ho & Hin).
    apply (proj1 (forallb_forall _ _) Hu) in Hin.
    rewrite Ho, N.eqb_refl in Hin. discriminate.
  - now apply unique_code_not_stored.
Qed.


(** [update_rows], knowing that a row is only rewritten when the statement
    selects it and the USING policies admit it. *)
Lemma update_rows_pointwise_using (R : complaint -> complaint -> Prop)
      (s : session) (db : database) (c : columns) (i : uuid) :
  (forall r, R r r) ->
  (forall others old r,
      N.eqb (id old) i && policy_update_using db s old = true ->
      update_row s db c others old = Ok r -> R old r) ->
  forall todo done cs,
    update_rows s db c i done todo = Ok cs ->
    exists todo', cs = done ++ todo' /\ Forall2 R todo todo'.
Proof.
  intros Hrefl Hrow. induction todo as [|old rest IH]; intros done cs H.
  - cbn in H. injection H as <-. exists []. now rewrite app_nil_r.
  - cbn [update_rows] in H.
    destruct (N.eqb (id old) i && policy_update_using db s old) eqn:Hsel.
    + apply bind_ok in H as (r & Hr & H).
      apply IH in H as (todo' & -> & HF).
      exists (r :: todo'). rewrite <- app_assoc. split; [reflexivity|].
      constructor; [eapply Hrow; eassumption | assumption].
    + apply IH in H as (todo' & -> & HF).
      exists (old :: todo'). rewrite <- app_assoc. split; [reflexivity|].
      constructor; [apply Hrefl | assumption].
Qed.

Lemma update_row_checked (s : session) (db : database) (c : columns)
      (others : list complaint) (old r : complaint) :
  update_row s db c others old = Ok r ->
  policy_update_check db s r = true /\ updated_at r = now s
  /\ is_unique_among r others = true.
Proof.
  unfold update_row. intros H.
  apply bind_ok in H as (t & _ & H).
  apply bind_ok in H as ([] & Hp & H). apply require_ok in Hp.
  apply bind_ok in H as (r' & Hr & H).
  apply bind_ok in H as ([] & Hu & H). apply require_ok in Hu.
  injection H as ->.
  rewrite (with_check_update_row db s _ r Hr) in Hp.
  repeat split; try assumption.
  apply check_not_null_ok in Hr.
  apply (f_equal t_updated_at) in Hr. cbn in Hr. now injection Hr.
Qed.

(** X3: an UPDATE of a session that is not an admin changes only pending
    rows of its own user that the statement selects, and leaves them
    pending and with the same owner; every other row, and the roles, stay
    as they are. *)
Theorem student_update_stays_within_own_pending
        (s : session) (db db' : database) (c : columns) (i : uuid) :
  uid_has_role db s admin = false ->
  update_complaint_by_id s db c i = Ok db' ->
  Forall2 (Effects.student_change s i) (complaints db) (complaints db')
  /\ user_roles db' = user_roles db.
Proof.
  intros Ha H. unfold update_complaint_by_id in H.
  apply bind_ok in H as (cs & H & Hdb). injection Hdb as <-.
  split; [|reflexivity]. cbn [with_complaints complaints].
  apply (update_rows_pointwise_using (Effects.student_change s i)) in H
    as (todo' & -> & HF); [exact HF | now left |].
  intros others old r Hsel Hr. right.
  apply andb_true_iff in Hsel as [Hid Hus]. apply N.eqb_eq in Hid.
  apply update_row_checked in Hr as (Hck & _).
  unfold policy_update_using, policy_update_admin in Hus.
  unfold policy_update_check, policy_update_admin in Hck.
  rewrite Ha, orb_false_r in Hus, Hck. auto.
Qed.

(** Student 1 edits the pending complaint 101. *)
Lemma student_update_stays_within_own_pending_witness :
  Forall2 (Effects.student_change (Examples.session_of 1 0) 101%N)
    (complaints (Examples.submissions 1))
    [edited (Examples.numbered_row 1) (lit "Projector")
            (lit "It is still broken.") Examples.in_2025].
Proof.
  apply (student_update_stays_within_own_pending
           (Examples.session_of 1 0) (Examples.submissions 1)
           (with_complaints (Examples.submissions 1)
              [edited (Examples.numbered_row 1) (lit "Projector")
                      (lit "It is still broken.") Examples.in_2025])
           (edit_columns (lit "Projector") (lit "It is still broken.")) 101%N);
    reflexivity.
Defined.

(** X4: every row an UPDATE rewrites carries the time of the statement as
    [updated_at], whatever the request says about that column. *)
Theorem update_stamps_changed_rows
        (s : session) (db db' : database) (c : columns) (i : uuid) :
  update_complaint_by_id s db c i = Ok db' ->
  Forall2 (Effects.stamped_change s) (complaints db) (complaints db').
Proof.
  intros H. unfold update_complaint_by_id in H.
  apply bind_ok in H as (cs & H & Hdb). injection Hdb as <-.
  cbn [with_complaints complaints].
  apply (update_rows_pointwise (Effects.stamped_change s)) in H
    as (todo' & -> & HF); [exact HF | now left |].
  intros others old r Hr. right.
  now apply update_row_checked in Hr as (_ & Hts & _).
Qed.

(** A request that names an [updated_at] of its own still gets the time
    of the statement. *)
Lemma update_stamps_changed_rows_witness :
  Forall2 (Effects.stamped_change (Examples.session_of 1 0))
    (complaints (Examples.submissions 1))
    [edited (Examples.numbered_row 1) (lit "Projector")
            (lit "It is still broken.") Examples.in_2025].
Proof.
  apply (update_stamps_changed_rows
           (Examples.session_of 1 0) (Examples.submissions 1)
           (with_complaints (Examples.submissions 1)
              [edited (Examples.numbered_row 1) (lit "Projector")
                      (lit "It is still broken.") Examples.in_2025])
           More.backdated_edit 101%N).
  reflexivity.
Defined.

Lemma anonymous_session_is_powerless_witness :
  update_complaint_by_id More.anonymous (Examples.submissions 1)
    (AdminDashboard.update_columns Resolved (lit "Done.")) 101%N
  = Ok (Examples.submissions 1).
Proof.
  apply (anonymous_session_is_powerless More.anonymous (Examples.submissions 1)).
  reflexivity.
Defined.


Lemma admin_policy (s : session) (db : database) (r : complaint) :
  uid_has_role db s admin = true ->
  policy_update_using db s r = true /\ policy_update_check db s r = true.
Proof.
  intros Ha. unfold policy_update_using, policy_update_check,
    policy_update_admin. rewrite Ha. now rewrite !orb_true_r.
Qed.

Lemma updateComplaint_admin
      (s : session) (db : database) (pre post : list complaint)
      (r : complaint) (st : complaint_status) (response : text) :
  complaints db = pre ++ r :: post ->
  (forall o, In o (pre ++ post) ->
             id o <> id r /\ complaint_id o <> complaint_id r) ->
  uid_has_role db s admin = true ->
  AdminDashboard.updateComplaint s db (id r) st response
  = (with_complaints db
       (pre ++ Effects.answered r st response (now s) :: post),
     Effects.update_succeeded).
Proof.
  intros Hdb Huniq Ha.
  assert (Hother : forall o, In o pre \/ In o post ->
            N.eqb (id o) (id r) && policy_update_using db s o = false).
  { intros o Ho. destruct (Huniq o) as [Hid _]; [apply in_or_app, Ho|].
    apply N.eqb_neq in Hid. now rewrite Hid. }
  assert (Huq : is_unique_among (Effects.answered r st response (now s))
                                (pre ++ post) = true).
  { apply forallb_forall. intros o Ho.
    destruct (Huniq o Ho) as [Hid Hcode]. cbn [id complaint_id Effects.answered].
    apply N.eqb_neq in Hid. apply text_eqb_neq in Hcode.
    now rewrite Hid, Hcode. }
  assert (Hrow : update_row s db (AdminDashboard.update_columns st response)
                            (pre ++ post) r
                 = Ok (Effects.answered r st response (now s))).
  { unfold update_row, updated_tuple, AdminDashboard.update_columns.
    cbn [c_priority c_ai_priority_score c_status cast_col cast_col_with bind].
    rewrite cast_status_label. cbn [bind].
    unfold with_check_update, policy_update_admin. rewrite Ha, orb_true_r.
    cbn [require bind]. unfold Effects.answered in *. cbn.
    now rewrite Huq. }
  unfold AdminDashboard.updateComplaint, update_complaint_by_id. rewrite Hdb.
  rewrite update_rows_skip by (intros o Ho; apply Hother; now left).
  cbn [app update_rows].
  destruct (admin_policy s db r Ha) as [-> _]. rewrite N.eqb_refl. cbn [andb].
  rewrite Hrow. cbn [bind].
  rewrite <- (app_nil_r post) at 1.
  rewrite update_rows_skip by (intros o Ho; apply Hother; now right).
  cbn [update_rows bind]. now rewrite <- app_assoc.
Qed.

(** X5: for an admin, [updateComplaint] on a stored row sets its status
    and response, stamps [updated_at], leaves the other rows as they are,
    and shows the success toast. *)
Theorem admin_update_applies
        (s : session) (db : database) (pre post : list complaint)
        (r : complaint) (st : complaint_status) (response : text) :
  complaints db = pre ++ r :: post ->
  (forall o, In o (pre ++ post) ->
             id o <> id r /\ complaint_id o <> complaint_id r) ->
  uid_has_role db s admin = true ->
  AdminDashboard.updateComplaint s db (id r) st response
  = (with_complaints db
       (pre ++ Effects.answered r st response (now s) :: post),
     Effects.update_succeeded).
Proof. exact (updateComplaint_admin s db pre post r st response). Qed.

Lemma admin_update_applies_witness :
  AdminDashboard.updateComplaint (Examples.session_of 9 0)
    (Examples.submissions 1) 101%N Resolved (lit "Repaired.")
  = (with_complaints (Examples.submissions 1)
       [Effects.answered (Examples.numbered_row 1) Resolved (lit "Repaired.")
                         Examples.in_2025],
     Effects.update_succeeded).
Proof.
  apply (admin_update_applies (Examples.session_of 9 0)
           (Examples.submissions 1) [] [] (Examples.numbered_row 1)
           Resolved (lit "Repaired.")).
  - reflexivity.
  - intros o [].
  - reflexivity.
Defined.

(** X6: when no stored row has the id, or the policies do not let the
    session update the row that has it, [updateComplaint] changes nothing
    and still shows the success toast. *)
Theorem update_without_target_reports_success
        (s : session) (db : database) (i : uuid)
        (st : complaint_status) (response : text) :
  (forall o, In o (complaints db) ->
             id o <> i \/ policy_update_using db s o = false) ->
  AdminDashboard.updateComplaint s db i st response
  = (db, Effects.update_succeeded).
Proof.
  intros H. unfold AdminDashboard.updateComplaint, update_complaint_by_id.
  rewrite update_rows_none.
  - cbn [bind]. now rewrite with_complaints_same.
  - intros o Ho. destruct (H o Ho) as [Hid | ->]; [|apply andb_false_r].
    apply N.eqb_neq in Hid. now rewrite Hid.
Qed.

(** Student 2 presses save on the complaint of student 1. *)
Lemma update_without_target_reports_success_witness :
  AdminDashboard.updateComplaint (Examples.session_of 2 0)
    (Examples.submissions 1) 101%N Resolved (lit "Repaired.")
  = (Examples.submissions 1, Effects.update_succeeded).
Proof.
  apply (update_without_target_reports_success (Examples.session_of 2 0)
           (Examples.submissions 1) 101%N Resolved (lit "Repaired.")).
  intros o [<- | []]. right. reflexivity.
Defined.

End Statements.

(* ===================================================================== *)
(** * Further properties of the ticket codes and the keys *)
(* ===================================================================== *)

Section CodesAndKeys.

Import Schema.

Lemma lpad_three_digits (z : Z) :
  (0 < z)%Z ->
  exists a b c,
    Pg.lpad (Pg.int_to_text z) 3 (lit "0") = [a; b; c]
    /\ is_digit a && is_digit b && is_digit c = true.
Proof.
  intros Hz. destruct z as [|p|p]; try lia. cbn [Pg.int_to_text].
  pose proof (text_of_uint_digits (Pos.to_uint p)) as Hd.
  destruct (Pg.text_of_uint (Pos.to_uint p)) as [|a [|b [|c t]]].
  - exists 48%N, 48%N, 48%N. split; reflexivity.
  - exists 48%N, 48%N, a. split; [reflexivity|].
    cbn [forallb] in Hd. now rewrite andb_true_r in Hd.
  - exists 48%N, a, b. split; [reflexivity|].
    cbn [forallb] in Hd. now rewrite andb_true_r in Hd.
  - exists a, b, c. split; [reflexivity|].
    cbn [forallb] in Hd. apply andb_true_iff in Hd as (Ha & Hd).
    apply andb_true_iff in Hd as (Hb & Hd).
    apply andb_true_iff in Hd as (Hc & _). now rewrite Ha, Hb, Hc.
Qed.

Lemma generate_complaint_id_shape (s : session) (db : database) (code : text) :
  generate_complaint_id s db = Ok code ->
  Spec.has_ticket_form (ts_year (now s)) code = true
  /\ Pg.like (year_pattern (Pg.to_char_YYYY (ts_year (now s)))) code = true.
Proof.
  intros H. apply generate_complaint_id_built in H. subst code.
  unfold built_code.
  destruct (lpad_three_digits (Z.of_nat (length (counted s db)) + 1))
    as (a & b & c & -> & Hd); [lia|].
  split.
  - unfold Spec.has_ticket_form.
    replace (lit "CMP-" ++ Pg.to_char_YYYY (ts_year (now s)) ++ lit "-" ++ [a; b; c])
      with ((lit "CMP-" ++ Pg.to_char_YYYY (ts_year (now s)) ++ lit "-") ++ [a; b; c])
      by (now rewrite <- !app_assoc).
    rewrite starts_with_app, skipn_app, skipn_all, Nat.sub_diag.
    cbn [andb app skipn]. exact Hd.
  - rewrite year_pattern_same_year by apply to_char_YYYY_digits.
    apply text_eqb_refl.
Qed.

(** X7: whatever the table holds, a code [generate_complaint_id] returns
    has the form [CMP-<year>-NNN] with the year of the session's clock and
    exactly three digits, and matches the pattern the function counts by:
    a stored row that carries it is counted by every later call of that
    year whose session the SELECT policies let read the row. *)
Theorem generated_code_shape (s : session) (db : database) (code : text) :
  generate_complaint_id s db = Ok code ->
  Spec.has_ticket_form (ts_year (now s)) code = true
  /\ Pg.like (year_pattern (Pg.to_char_YYYY (ts_year (now s)))) code = true
  /\ (forall s' db' r,
         ts_year (now s') = ts_year (now s) ->
         In r (complaints db') -> complaint_id r = code ->
         policy_select db' s' r = true ->
         In r (counted s' db')).
Proof.
  intros H. destruct (generate_complaint_id_shape s db code H) as [Hf Hl].
  split; [exact Hf|]. split; [exact Hl|].
  intros s' db' r Hy Hr Hc Hp. unfold counted. apply filter_In.
  split; [exact Hr|]. now rewrite Hp, Hy, Hc, Hl.
Qed.

Lemma generated_code_shape_witness :
  Spec.has_ticket_form 2025 (lit "CMP-2025-100") = true
  /\ Pg.like (year_pattern (Pg.to_char_YYYY 2025)) (lit "CMP-2025-100") = true.
Proof.
  destruct (generated_code_shape (Examples.session_of 1 5000)
              (Examples.submissions 999) (lit "CMP-2025-100"))
    as (Hf & Hl & _).
  - vm_compute. reflexivity.
  - split; assumption.
Defined.

(** The rows counted depend on the session only through its user and the
    year of its clock. *)
Lemma counted_same_user_year (s s' : session) (db : database) :
  auth_uid s' = auth_uid s -> ts_year (now s') = ts_year (now s) ->
  counted s' db = counted s db.
Proof.
  intros Hu Hy. unfold counted, policy_select, uid_is, uid_has_role.
  now rewrite Hu, Hy.
Qed.

Lemma generate_same_user_year (s s' : session) (db : database) :
  auth_uid s' = auth_uid s -> ts_year (now s') = ts_year (now s) ->
  generate_complaint_id s' db = generate_complaint_id s db.
Proof.
  intros Hu Hy. unfold generate_complaint_id.
  fold (counted s' db). fold (counted s db).
  now rewrite (counted_same_user_year s s' db Hu Hy), Hy.
Qed.

(** X8: when a row inserted without a code is stored, the same user is
    counted one more row in that year: below 998 counted rows the row got
    the number after the count and the user's next row of the year gets
    the number after that. *)
Theorem next_code_follows
        (s s' : session) (db db' : database) (c : columns) :
  insert_complaint s db c = Ok db' ->
  Concurrent.supplies_no_code c = true ->
  auth_uid s' = auth_uid s -> ts_year (now s') = ts_year (now s) ->
  length (counted s' db') = length (counted s db) + 1
  /\ (length (counted s db) < 998 ->
      generate_complaint_id s db
      = Ok (Spec.ticket_code (ts_year (now s)) (length (counted s db) + 1))
      /\ generate_complaint_id s' db'
         = Ok (Spec.ticket_code (ts_year (now s)) (length (counted s db) + 2))).
Proof.
  intros Hi Hc Hu Hy.
  assert (Hlen : length (counted s' db') = length (counted s db) + 1).
  { pose proof (insert_complaint_appends s db db' c Hi) as (r0 & Hdb0 & Hown & _).
    apply insert_complaint_ok in Hi
      as (NEW0 & NEW & r & Hn & Ht & Hnn & _ & _ & ->).
    apply (f_equal complaints) in Hdb0. cbn [with_complaints complaints] in Hdb0.
    apply app_inv_head in Hdb0. injection Hdb0 as <-.
    assert (Hno : no_code_supplied NEW0 = true).
    { unfold no_code_supplied. rewrite (new_tuple_complaint_id _ _ _ Hn).
      unfold Concurrent.supplies_no_code in Hc.
      destruct (c_complaint_id c); cbn [or_default]; auto. }
    apply set_complaint_id_generates in Ht as (code & Hg & Hcode); [|exact Hno].
    apply check_not_null_ok in Hnn. rewrite <- Hnn in Hcode.
    cbn [tuple_of t_complaint_id] in Hcode. injection Hcode as Hcode.
    apply generate_complaint_id_shape in Hg as (_ & Hlike).
    rewrite <- (counted_same_user_year s s' db Hu Hy).
    unfold counted. cbn [with_complaints complaints].
    rewrite filter_app, length_app. f_equal.
    cbn [filter]. rewrite Hy, Hcode, Hlike.
    unfold policy_select, uid_is. rewrite Hu, Hown, N.eqb_refl. reflexivity. }
  split; [exact Hlen|]. intros Hsmall. split.
  - now apply generate_complaint_id_in_range; lia.
  - rewrite generate_complaint_id_in_range by lia.
    rewrite Hlen, Hy. do 2 f_equal. lia.
Qed.

Lemma next_code_follows_witness :
  length (counted (Examples.session_of 1 102) (Examples.submissions 1))
  = length (counted (Examples.session_of 1 101) Examples.empty_db) + 1.
Proof.
  apply (next_code_follows (Examples.session_of 1 101)
           (Examples.session_of 1 102) Examples.empty_db
           (Examples.submissions 1) Examples.form_row);
    vm_compute; reflexivity.
Defined.

Lemma before_insert_generated (s : session) (db : database) (c : columns)
      (NEW : tuple) :
  Concurrent.supplies_no_code c = true ->
  before_insert s db c = Ok NEW ->
  exists code, generate_complaint_id s db = Ok code
               /\ t_complaint_id NEW = Some code.
Proof.
  intros Hc H. unfold before_insert in H.
  apply bind_ok in H as (NEW0 & Hn & Ht).
  apply set_complaint_id_generates in Ht; [exact Ht|].
  unfold no_code_supplied. rewrite (new_tuple_complaint_id _ _ _ Hn).
  unfold Concurrent.supplies_no_code in Hc.
  destruct (c_complaint_id c); cbn [or_default]; auto.
Qed.

Lemma store_grows_by_at_most_one (s : session) (db : database) (NEW : tuple) :
  complaints (after db (store s db NEW)) = complaints db
  \/ exists r, complaints (after db (store s db NEW)) = complaints db ++ [r]
               /\ t_complaint_id NEW = Some (complaint_id r).
Proof.
  destruct (store s db NEW) as [db'|e] eqn:H; cbn [after]; [|now left].
  apply store_ok in H as (r & Hnn & _ & _ & ->). right. exists r.
  split; [reflexivity|]. apply check_not_null_ok in Hnn. now rewrite <- Hnn.
Qed.

Lemma store_rejects_stored_code (s : session) (db : database) (NEW : tuple)
      (code : text) :
  t_complaint_id NEW = Some code -> In code (codes db) ->
  after db (store s db NEW) = db.
Proof.
  intros Hc Hin. destruct (store s db NEW) as [db'|e] eqn:H; cbn [after];
    [|reflexivity].
  apply store_ok in H as (r & Hnn & _ & Hu & ->).
  apply check_not_null_ok in Hnn. rewrite <- Hnn in Hc.
  cbn [tuple_of t_complaint_id] in Hc. injection Hc as Hc.
  apply unique_code_not_stored in Hu. rewrite Hc in Hu. contradiction.
Qed.

(** X9: two submissions without a code by one user in one year, whose
    triggers both run before either row is stored, store at most one row,
    in whichever order the two inserts finish. *)
Theorem overlapping_submissions_store_at_most_one
        (db : database) (s1 s2 : session) (c1 c2 : columns) (k : nat) :
  auth_uid s2 = auth_uid s1 -> ts_year (now s2) = ts_year (now s1) ->
  Concurrent.supplies_no_code c1 = true ->
  Concurrent.supplies_no_code c2 = true ->
  length (complaints
            (Concurrent.db
               (Concurrent.run (Concurrent.start db)
                  [Concurrent.Begin s1 c1; Concurrent.Begin s2 c2;
                   Concurrent.Finish k; Concurrent.Finish 0])))
  <= length (complaints db) + 1.
Proof.
  intros Hu Hy H1 H2.
  cbn [Concurrent.run fold_left Concurrent.exec Concurrent.start
       Concurrent.db Concurrent.running].
  destruct (before_insert s1 db c1) as [NEW1|e1] eqn:E1;
    cbn [Concurrent.start Concurrent.db Concurrent.running app].
  - destruct (before_insert s2 db c2) as [NEW2|e2] eqn:E2;
      cbn [Concurrent.db Concurrent.running app].
    + apply before_insert_generated in E1 as (code & Hg1 & Hc1); [|exact H1].
      apply before_insert_generated in E2 as (code2 & Hg2 & Hc2); [|exact H2].
      rewrite (generate_same_user_year s1 s2 db Hu Hy), Hg1 in Hg2.
      injection Hg2 as <-.
      destruct k as [|[|k]];
        cbn [nth_error Concurrent.remove_nth Concurrent.start Concurrent.db Concurrent.running
             Concurrent.its_session Concurrent.its_tuple].
      * destruct (store_grows_by_at_most_one s1 db NEW1) as [E | (r & E & Hr)].
        -- destruct (store_grows_by_at_most_one s2 (after db (store s1 db NEW1)) NEW2)
             as [E' | (r' & E' & _)]; rewrite E', E, ?length_app; cbn; lia.
        -- rewrite (store_rejects_stored_code s2 _ NEW2 code Hc2).
           ++ rewrite E, length_app. cbn. lia.
           ++ unfold codes. rewrite E, map_app. apply in_or_app. right.
              rewrite Hc1 in Hr. injection Hr as ->. now left.
      * destruct (store_grows_by_at_most_one s2 db NEW2) as [E | (r & E & Hr)].
        -- destruct (store_grows_by_at_most_one s1 (after db (store s2 db NEW2)) NEW1)
             as [E' | (r' & E' & _)]; rewrite E', E, ?length_app; cbn; lia.
        -- rewrite (store_rejects_stored_code s1 _ NEW1 code Hc1).
           ++ rewrite E, length_app. cbn. lia.
           ++ unfold codes. rewrite E, map_app. apply in_or_app. right.
              rewrite Hc2 in Hr. injection Hr as ->. now left.
      * replace (nth_error (@nil Concurrent.in_flight) k) with (@None Concurrent.in_flight)
          by (now destruct k).
        cbn [Concurrent.start Concurrent.db Concurrent.running nth_error Concurrent.remove_nth
             Concurrent.its_session Concurrent.its_tuple].
        destruct (store_grows_by_at_most_one s1 db NEW1) as [E | (r & E & _)];
          rewrite E, ?length_app; cbn; lia.
    + destruct k as [|k];
        cbn [nth_error Concurrent.remove_nth Concurrent.start Concurrent.db Concurrent.running
             Concurrent.its_session Concurrent.its_tuple].
      * destruct (store_grows_by_at_most_one s1 db NEW1) as [E | (r & E & _)];
          rewrite E, ?length_app; cbn; lia.
      * replace (nth_error (@nil Concurrent.in_flight) k) with (@None Concurrent.in_flight)
          by (now destruct k).
        cbn [Concurrent.start Concurrent.db Concurrent.running nth_error Concurrent.remove_nth
             Concurrent.its_session Concurrent.its_tuple].
        destruct (store_grows_by_at_most_one s1 db NEW1) as [E | (r & E & _)];
          rewrite E, ?length_app; cbn; lia.
  - destruct (before_insert s2 db c2) as [NEW2|e2] eqn:E2;
      cbn [Concurrent.db Concurrent.running app].
    + destruct k as [|k];
        cbn [nth_error Concurrent.remove_nth Concurrent.start Concurrent.db Concurrent.running
             Concurrent.its_session Concurrent.its_tuple].
      * destruct (store_grows_by_at_most_one s2 db NEW2) as [E | (r & E & _)];
          rewrite E, ?length_app; cbn; lia.
      * replace (nth_error (@nil Concurrent.in_flight) k) with (@None Concurrent.in_flight)
          by (now destruct k).
        cbn [Concurrent.start Concurrent.db Concurrent.running nth_error Concurrent.remove_nth
             Concurrent.its_session Concurrent.its_tuple].
        destruct (store_grows_by_at_most_one s2 db NEW2) as [E | (r & E & _)];
          rewrite E, ?length_app; cbn; lia.
    + destruct k; cbn; lia.
Qed.

Lemma overlapping_submissions_store_at_most_one_witness :
  length (complaints
            (Concurrent.db
               (Concurrent.run (Concurrent.start (Examples.submissions 1))
                  [Concurrent.Begin (Examples.session_of 1 102) Examples.form_row;
                   Concurrent.Begin (Examples.session_of 1 103) Examples.form_row;
                   Concurrent.Finish 1; Concurrent.Finish 0])))
  <= length (complaints (Examples.submissions 1)) + 1.
Proof.
  apply (overlapping_submissions_store_at_most_one
           (Examples.submissions 1) (Examples.session_of 1 102)
           (Examples.session_of 1 103) Examples.form_row Examples.form_row 1);
    reflexivity.
Defined.

Lemma unique_among_fresh (r : complaint) (others : list complaint) :
  is_unique_among r others = true ->
  ~ In (id r) (map id others)
  /\ ~ In (complaint_id r) (map complaint_id others).
Proof.
  intros H. split; [|now apply unique_code_not_stored].
  intros Hin. apply in_map_iff in Hin as (o & Ho & Hin).
  apply (proj1 (forallb_forall _ _) H) in Hin.
  rewrite Ho, N.eqb_refl in Hin. discriminate.
Qed.

Lemma NoDup_middle {A} (x : A) (l1 l2 : list A) :
  NoDup (l1 ++ l2) -> ~ In x (l1 ++ l2) -> NoDup (l1 ++ x :: l2).
Proof.
  intros Hd Hx. apply (Permutation_NoDup (Permutation_middle l1 l2 x)).
  now constructor.
Qed.

(** Rewriting rows one after the other keeps a key distinct, each new row
    being checked against the others. *)
Lemma update_rows_keep_key {K} (f : complaint -> K)
      (s : session) (db : database) (c : columns) (i : uuid) :
  (forall r others, is_unique_among r others = true ->
                    ~ In (f r) (map f others)) ->
  forall todo done cs,
    update_rows s db c i done todo = Ok cs ->
    NoDup (map f (done ++ todo)) -> NoDup (map f cs).
Proof.
  intros Hf. induction todo as [|old rest IH]; intros done cs H Hd.
  - cbn in H. injection H as <-. now rewrite app_nil_r in Hd.
  - cbn [update_rows] in H.
    destruct (N.eqb (id old) i && policy_update_using db s old).
    + apply bind_ok in H as (r & Hr & H).
      apply (IH _ _ H). rewrite <- app_assoc. cbn [app].
      apply update_row_checked in Hr as (_ & _ & Hu). apply Hf in Hu.
      rewrite map_app in *. cbn [map] in *.
      apply NoDup_middle; [now apply NoDup_remove_1 in Hd | exact Hu].
    + apply (IH _ _ H). now rewrite <- app_assoc.
Qed.

(** X10: the primary key [id] and the UNIQUE [complaint_id] stay distinct
    over the stored rows through every INSERT and every UPDATE, whether
    the statement succeeds or fails. *)
Theorem statements_keep_keys_distinct (s : session) (db : database) :
  Effects.keys_distinct db ->
  (forall c, Effects.keys_distinct (after db (insert_complaint s db c)))
  /\ (forall c i,
        Effects.keys_distinct (after db (update_complaint_by_id s db c i))).
Proof.
  intros [Hid Hcode]. split.
  - intros c. destruct (insert_complaint s db c) as [db'|e] eqn:H;
      cbn [after]; [|now split].
    apply insert_complaint_appends in H as (r & -> & _ & Hi & Hc).
    unfold Effects.keys_distinct, codes. cbn [with_complaints complaints].
    rewrite !map_app. split; now apply NoDup_snoc.
  - intros c i. destruct (update_complaint_by_id s db c i) as [db'|e] eqn:H;
      cbn [after]; [|now split].
    unfold update_complaint_by_id in H.
    apply bind_ok in H as (cs & H & Hdb). injection Hdb as <-.
    unfold Effects.keys_distinct, codes. cbn [with_complaints complaints].
    split.
    + apply (update_rows_keep_key id s db c i) with (todo := complaints db)
                                                    (done := []);
        [|exact H | exact Hid].
      intros r others Hu. now apply unique_among_fresh in Hu.
    + apply (update_rows_keep_key complaint_id s db c i)
        with (todo := complaints db) (done := []); [|exact H | exact Hcode].
      intros r others Hu. now apply unique_among_fresh in Hu.
Qed.

Lemma statements_keep_keys_distinct_witness :
  Effects.keys_distinct
    (after (Examples.submissions 1)
           (insert_complaint (Examples.session_of 1 102)
                             (Examples.submissions 1) Examples.form_row)).
Proof.
  apply (statements_keep_keys_distinct (Examples.session_of 1 102)
           (Examples.submissions 1)).
  split; vm_compute; (constructor; [intros [] | constructor]).
Defined.

End CodesAndKeys.

(* ===================================================================== *)
(** * The stored ticket codes through inserts and updates *)
(* ===================================================================== *)

Section StoredCodes.

Import Schema.
Import Invariant.

Lemma update_keeps_codes_distinct (s : session) (db : database) (c : columns)
      (i : uuid) :
  NoDup (codes db) ->
  NoDup (codes (after db (update_complaint_by_id s db c i))).
Proof.
  intros Hd. destruct (update_complaint_by_id s db c i) as [db'|e] eqn:H;
    cbn [after]; [|exact Hd].
  unfold update_complaint_by_id in H.
  apply bind_ok in H as (cs & H & Hdb). injection Hdb as <-.
  unfold codes. cbn [with_complaints complaints].
  apply (update_rows_keep_key complaint_id s db c i)
    with (todo := complaints db) (done := []); [|exact H | exact Hd].
  intros r others Hu. now apply unique_among_fresh in Hu.
Qed.

Lemma exec_keeps_codes_distinct (st : Concurrent.state) (e : Concurrent.event) :
  NoDup (codes (Concurrent.db st)) ->
  NoDup (codes (Concurrent.db (Concurrent.exec st e))).
Proof.
  intros Hd. destruct e as [s c|k|s c i]; cbn [Concurrent.exec Concurrent.db].
  - now destruct (before_insert s (Concurrent.db st) c).
  - destruct (nth_error (Concurrent.running st) k); [|exact Hd].
    now apply store_keeps_codes_distinct.
  - now apply update_keeps_codes_distinct.
Qed.

Lemma run_keeps_codes_distinct (schedule : list Concurrent.event)
      (st : Concurrent.state) :
  NoDup (codes (Concurrent.db st)) ->
  NoDup (codes (Concurrent.db (Concurrent.run st schedule))).
Proof.
  revert st. induction schedule as [|e schedule IH]; intros st Hd;
    [exact Hd|].
  cbn [Concurrent.run fold_left]. apply IH. now apply exec_keeps_codes_distinct.
Qed.

(** An update that sets neither column leaves the code and the creation
    time of every row as they are. *)
Lemma update_row_keeps_code_and_date (s : session) (db : database)
      (c : columns) (others : list complaint) (old r : complaint) :
  Concurrent.keeps_code_and_date c = true ->
  update_row s db c others old = Ok r ->
  complaint_id r = complaint_id old /\ created_at r = created_at old.
Proof.
  unfold Concurrent.keeps_code_and_date, update_row, updated_tuple.
  intros Hc H.
  apply bind_ok in H as (t & Ht & H).
  apply bind_ok in H as ([] & _ & H).
  apply bind_ok in H as (r' & Hr & H).
  apply bind_ok in H as ([] & _ & H). injection H as ->.
  apply bind_ok in Ht as (p & _ & Ht).
  apply bind_ok in Ht as (sc & _ & Ht).
  apply bind_ok in Ht as (st' & _ & Ht). injection Ht as <-.
  apply check_not_null_ok in Hr.
  apply (f_equal (fun t => (t_complaint_id t, t_created_at t))) in Hr.
  destruct (c_complaint_id c); try discriminate Hc.
  destruct (c_created_at c); try discriminate Hc.
  cbn in Hr. injection Hr as H1 H2. now rewrite H1, H2.
Qed.

Lemma update_keeps_codes_and_dates (s : session) (db db' : database)
      (c : columns) (i : uuid) :
  Concurrent.keeps_code_and_date c = true ->
  update_complaint_by_id s db c i = Ok db' ->
  Forall2 (fun old new => complaint_id new = complaint_id old
                          /\ created_at new = created_at old)
          (complaints db) (complaints db').
Proof.
  intros Hc H. unfold update_complaint_by_id in H.
  apply bind_ok in H as (cs & H & Hdb). injection Hdb as <-.
  apply (update_rows_pointwise
           (fun old new => complaint_id new = complaint_id old
                           /\ created_at new = created_at old)) in H
    as (todo' & -> & HF); [exact HF | now split |].
  intros others old r. now apply update_row_keeps_code_and_date.
Qed.

Lemma Forall2_same_codes (l l' : list complaint) :
  Forall2 (fun old new => complaint_id new = complaint_id old
                          /\ created_at new = created_at old) l l' ->
  map complaint_id l' = map complaint_id l
  /\ forall r', In r' l' ->
                exists r, In r l /\ complaint_id r' = complaint_id r
                          /\ created_at r' = created_at r.
Proof.
  induction 1 as [|old new l l' [Hc Hd] _ [IHm IHi]].
  - split; [reflexivity | intros r' []].
  - split; [cbn [map]; now rewrite Hc, IHm|].
    intros r' [<-|Hr'].
    + exists old. split; [now left | now split].
    + destruct (IHi r' Hr') as (r & Hr & Hrest).
      exists r. split; [now right | exact Hrest].
Qed.

Lemma update_numbered (st : Concurrent.state) (s : session) (c : columns)
      (i : uuid) :
  numbered st -> Concurrent.keeps_code_and_date c = true ->
  numbered (Concurrent.exec st (Concurrent.Update s c i)).
Proof.
  intros [Hy Hd Hw] Hc. cbn [Concurrent.exec].
  destruct (update_complaint_by_id s (Concurrent.db st) c i) as [db'|e] eqn:H;
    cbn [after]; [|now constructor].
  apply (update_keeps_codes_and_dates _ _ _ _ _ Hc) in H.
  apply Forall2_same_codes in H as [Hcodes Hrows].
  assert (Hyc : forall y, year_codes y db' = year_codes y (Concurrent.db st))
    by (intros y; unfold year_codes, codes; now rewrite Hcodes).
  constructor; cbn [Concurrent.db Concurrent.running].
  - intros y. rewrite Hyc. apply Hy.
  - intros r' Hr'. destruct (Hrows r' Hr') as (r & Hr & -> & ->).
    now apply Hd.
  - intros x Hx. rewrite Hyc. now apply Hw.
Qed.

Lemma run_numbered (schedule : list Concurrent.event) (st : Concurrent.state) :
  numbered st -> forallb Concurrent.form_only schedule = true ->
  numbered (Concurrent.run st schedule).
Proof.
  revert st. induction schedule as [|e schedule IH]; intros st Hst Hf;
    [exact Hst|].
  cbn [forallb] in Hf. apply andb_true_iff in Hf as [He Hf].
  cbn [Concurrent.run fold_left]. apply IH; [|exact Hf].
  destruct e as [s c|k|s c i];
    [now apply begin_numbered | now apply finish_numbered
     | now apply update_numbered].
Qed.

(** The first half of an insert decides the ticket code: the generated
    one when the request supplies none, the supplied one otherwise. *)
Lemma before_insert_code (s : session) (db : database) (c : columns)
      (NEW : tuple) :
  before_insert s db c = Ok NEW ->
  (Concurrent.supplies_no_code c = true ->
   exists code, t_complaint_id NEW = Some code
                /\ Spec.has_ticket_form (ts_year (now s)) code = true)
  /\ (forall code, c_complaint_id c = Value code -> code <> empty_string ->
                   t_complaint_id NEW = Some code).
Proof.
  unfold before_insert. intros H. apply bind_ok in H as (NEW0 & H0 & H).
  pose proof (new_tuple_complaint_id _ _ _ H0) as Hcode. split.
  - intros Hno.
    apply set_complaint_id_generates in H as (code & Hg & Hc).
    + exists code. split; [exact Hc|].
      now apply generate_complaint_id_shape in Hg.
    + unfold no_code_supplied. rewrite Hcode.
      unfold Concurrent.supplies_no_code in Hno.
      destruct (c_complaint_id c); cbn [or_default]; auto.
  - intros code Hv Hne. rewrite Hv in Hcode. cbn [or_default] in Hcode.
    unfold set_complaint_id, no_code_supplied in H. rewrite Hcode in H.
    apply text_eqb_neq in Hne. rewrite Hne in H. injection H as <-.
    exact Hcode.
Qed.

(** C2, as stated, fails: a row inserted with a ticket code of its own
    keeps it, so of two rows created in 2025 one carries [X], which is not
    of the form [CMP-2025-NNN]; and the owner of a pending complaint the
    form created can set its code to [X]. *)
Lemma supplied_code_counterexample :
  map (fun r => (Spec.created_in 2025 r, complaint_id r,
                 Spec.has_ticket_form 2025 (complaint_id r)))
      (complaints
         (after (Examples.submissions 1)
                (insert_complaint (Examples.session_of 1 300)
                                  (Examples.submissions 1)
                                  Examples.row_with_own_code)))
  = [(true, lit "CMP-2025-001", true); (true, lit "X", false)]
  /\ map (fun r => (Spec.created_in 2025 r, complaint_id r,
                    Spec.has_ticket_form 2025 (complaint_id r)))
         (complaints
            (after (Examples.submissions 2)
                   (update_complaint_by_id (Examples.session_of 1 0)
                      (Examples.submissions 2) Examples.recode 102%N)))
     = [(true, lit "CMP-2025-001", true); (true, lit "X", false)].
Proof. vm_compute. split; reflexivity. Qed.

(** Of two submissions that overlap the second is rejected: it was given
    the code of the first. *)
Lemma overlapping_submissions_example :
  map (fun r => (student_id r, complaint_id r))
      (complaints (Concurrent.db
                     (Concurrent.run (Concurrent.start Examples.empty_db)
                                     Examples.overlapping_schedule)))
  = [(1%N, lit "CMP-2025-001"); (1%N, lit "CMP-2025-002")].
Proof. vm_compute. reflexivity. Qed.

(** C2, amended.  Whatever the inserts and updates and however the
    halves of the inserts overlap, the stored ticket codes stay pairwise
    distinct, a statement that would store a code a second time being
    rejected.  The first half of an insert decides the code, the generated
    one, of the form [CMP-<year>-NNN] with the year of the insert, when
    the request supplies none, and the supplied one when it is not empty;
    the second half stores the row with that code.  When moreover the
    table starts empty, every row is created as the form creates it (no
    ticket code and no creation time supplied) and no update sets the
    ticket code or the creation time, every stored row carries a code of
    the form [CMP-<year>-NNN] with the year of its creation, and the rows
    created in one calendar year carry, in the order they were stored, the
    consecutive numbers 001, 002, 003 and so on. *)
Theorem stored_codes_distinct_and_numbered
        (db0 : database) (schedule : list Concurrent.event) :
  NoDup (codes db0) ->
  NoDup (codes (Concurrent.db (Concurrent.run (Concurrent.start db0) schedule)))
  /\ (forall s db c NEW,
         before_insert s db c = Ok NEW ->
         (Concurrent.supplies_no_code c = true ->
          exists code, t_complaint_id NEW = Some code
                       /\ Spec.has_ticket_form (ts_year (now s)) code = true)
         /\ (forall code, c_complaint_id c = Value code ->
                          code <> empty_string ->
                          t_complaint_id NEW = Some code))
  /\ (forall s db NEW db',
         store s db NEW = Ok db' ->
         exists r, complaints db' = complaints db ++ [r]
                   /\ t_complaint_id NEW = Some (complaint_id r))
  /\ (complaints db0 = [] ->
      forallb Concurrent.form_only schedule = true ->
      Forall (fun r => Spec.has_ticket_form (ts_year (created_at r))
                                            (complaint_id r) = true)
             (complaints
                (Concurrent.db (Concurrent.run (Concurrent.start db0) schedule)))
      /\ forall y, exists n,
          map complaint_id
              (filter (Spec.created_in y)
                 (complaints
                    (Concurrent.db
                       (Concurrent.run (Concurrent.start db0) schedule))))
          = map (Spec.ticket_code y) (seq 1 n)).
Proof.
  intros Hd. split; [|split; [|split]].
  - apply run_keeps_codes_distinct. exact Hd.
  - intros s db c NEW. apply before_insert_code.
  - intros s db NEW db' H. apply store_ok in H as (r & Hr & _ & _ & ->).
    exists r. split; [reflexivity|].
    apply check_not_null_ok in Hr. now rewrite <- Hr.
  - intros H0 Hf.
    destruct (run_numbered schedule (Concurrent.start db0)
                (start_numbered db0 H0) Hf) as [Hy Hdt _].
    split.
    + apply Forall_forall. intros r Hr.
      destruct (Hdt r Hr) as (k & Hk & ->). now apply ticket_code_has_form.
    + intros y. destruct (Hy y) as (n & Hn & Hcodes).
      exists n. rewrite <- Hcodes.
      unfold year_codes, codes. apply filter_map_swap.
      intros r Hr. destruct (Hdt r Hr) as (k & _ & ->).
      rewrite like_ticket_code. unfold Spec.created_in. apply N.eqb_sym.
Qed.

(** The schedule [Examples.busy_schedule], two submissions that overlap,
    an admin's answer and a submission of another student, on a table
    that holds a complaint and on an empty table. *)
Lemma stored_codes_distinct_and_numbered_witness :
  NoDup (codes (Concurrent.db
                  (Concurrent.run (Concurrent.start (Examples.submissions 1))
                                  Examples.busy_schedule)))
  /\ map complaint_id
         (complaints (Concurrent.db
                        (Concurrent.run (Concurrent.start Examples.empty_db)
                                        Examples.busy_schedule)))
     = [lit "CMP-2025-001"; lit "CMP-2025-002"]
  /\ Forall (fun r => Spec.has_ticket_form (ts_year (created_at r))
                                           (complaint_id r) = true)
            (complaints (Concurrent.db
                           (Concurrent.run (Concurrent.start Examples.empty_db)
                                           Examples.busy_schedule))).
Proof.
  split; [|split].
  - apply (stored_codes_distinct_and_numbered
             (Examples.submissions 1) Examples.busy_schedule).
    vm_compute. constructor; [intros [] | constructor].
  - vm_compute. reflexivity.
  - destruct (stored_codes_distinct_and_numbered
                Examples.empty_db Examples.busy_schedule)
      as (_ & _ & _ & Hnumbered).
    + constructor.
    + apply Hnumbered; reflexivity.
Defined.

End StoredCodes.

(* ===================================================================== *)
(** * Further properties of the form *)
(* ===================================================================== *)

Section Form.

Import ComplaintForm.

Lemma trimStart_head (s : text) (c : code_unit) (t : text) :
  Js.trimStart s = c :: t -> Js.is_whitespace c = false.
Proof.
  induction s as [|x s IH]; cbn [Js.trimStart]; [discriminate|].
  destruct (Js.is_whitespace x) eqn:E; [exact IH|].
  intros H. injection H as <- _. exact E.
Qed.

Lemma trimStart_fixed (c : code_unit) (t : text) :
  Js.is_whitespace c = false -> Js.trimStart (c :: t) = c :: t.
Proof. intros H. cbn [Js.trimStart]. now rewrite H. Qed.

Lemma trimStart_snoc (l : text) (c : code_unit) :
  Js.is_whitespace c = false ->
  exists u, Js.trimStart (l ++ [c]) = u ++ [c].
Proof.
  intros Hc. induction l as [|x l IH]; cbn [app Js.trimStart].
  - rewrite Hc. now exists [].
  - destruct (Js.is_whitespace x); [exact IH|]. now exists (x :: l).
Qed.

(** What [trim] returns is empty or has a code unit that is not white
    space at either end. *)
Lemma trim_ends (s : text) :
  Js.trim s = []
  \/ exists c t d u,
       Js.trim s = c :: t /\ Js.is_whitespace c = false
       /\ rev (Js.trim s) = d :: u /\ Js.is_whitespace d = false.
Proof.
  unfold Js.trim, Js.trimEnd.
  destruct (Js.trimStart s) as [|c t] eqn:Hs; [now left|].
  apply trimStart_head in Hs. right.
  change (rev (c :: t)) with (rev t ++ [c]).
  destruct (trimStart_snoc (rev t) c Hs) as (u & Hu).
  rewrite Hu. exists c, (rev u).
  destruct u as [|d u].
  - exists c, []. repeat split; assumption.
  - exists d, (u ++ [c]). split; [|split; [|split]].
    + now rewrite rev_app_distr.
    + exact Hs.
    + now rewrite rev_involutive.
    + change ((d :: u) ++ [c]) with (d :: (u ++ [c])) in Hu.
      now apply trimStart_head in Hu.
Qed.

Lemma trim_idempotent (s : text) : Js.trim (Js.trim s) = Js.trim s.
Proof.
  destruct (trim_ends s) as [-> | (c & t & d & u & Hc & Hws & Hr & Hwd)];
    [reflexivity|].
  unfold Js.trim at 1. rewrite Hc, (trimStart_fixed c t Hws), <- Hc.
  unfold Js.trimEnd. rewrite Hr, (trimStart_fixed d u Hwd), <- Hr.
  apply rev_involutive.
Qed.

(** The data of a successful [safeParse]: title and description trimmed,
    the category as it is, all within the bounds. *)
Lemma safeParse_data (input data : Zod.fields text) :
  Zod.safeParse complaintSchema input = Zod.success data ->
  data = {| Zod.title := Js.trim (Zod.title input);
            Zod.description := Js.trim (Zod.description input);
            Zod.category := Zod.category input |}
  /\ 5 <= length (Js.trim (Zod.title input)) <= 200
  /\ 20 <= length (Js.trim (Zod.description input)) <= 2000
  /\ 1 <= length (Zod.category input).
Proof.
  unfold Zod.safeParse, complaintSchema.
  cbn [Zod.title Zod.description Zod.category Zod.parse_string].
  set (t := Js.trim (Zod.title input)).
  set (d := Js.trim (Zod.description input)).
  set (c := Zod.category input).
  destruct (length t <? 5) eqn:Ht5; destruct (200 <? length t) eqn:Ht200;
    destruct (length d <? 20) eqn:Hd20; destruct (2000 <? length d) eqn:Hd2000;
    destruct (length c <? 1) eqn:Hc1;
    cbn [Zod.at_path map app]; try discriminate.
  intros H. injection H as <-.
  apply Nat.ltb_ge in Ht5, Ht200, Hd20, Hd2000, Hc1.
  repeat split; assumption.
Qed.

(** A submission that passed validation, case by case. *)
Lemma handleSubmit_accepted (c : context) (w : world) (data : Zod.fields text) :
  Zod.safeParse complaintSchema (form_input w) = Zod.success data ->
  fst (handleSubmit c w) = inl tt
  /\ errors (st (snd (handleSubmit c w))) = []
  /\ loading (st (snd (handleSubmit c w))) = false
  /\ invocations (snd (handleSubmit c w)) = invocations w ++ [form_input w]
  /\ match analyze_complaint c (form_input w) with
     | inl e =>
         db (snd (handleSubmit c w)) = db w
         /\ inserts (snd (handleSubmit c w)) = inserts w
         /\ toasts (snd (handleSubmit c w)) = toasts w ++ [Effects.failed_with e]
         /\ onSuccess_calls (snd (handleSubmit c w)) = onSuccess_calls w
         /\ Effects.fields_kept w (snd (handleSubmit c w))
     | inr functionData =>
         (functionData = AnalyzeComplaint.JNull ->
          db (snd (handleSubmit c w)) = db w
          /\ inserts (snd (handleSubmit c w)) = inserts w
          /\ toasts (snd (handleSubmit c w))
             = toasts w
               ++ [Effects.failed_with (TypeError (TypeError_message c))]
          /\ onSuccess_calls (snd (handleSubmit c w)) = onSuccess_calls w
          /\ Effects.fields_kept w (snd (handleSubmit c w)))
         /\ (functionData <> AnalyzeComplaint.JNull ->
             inserts (snd (handleSubmit c w))
             = inserts w ++ [insert_row c data functionData]
             /\ match Schema.insert_complaint (session c) (db w)
                        (insert_row c data functionData) with
                | Schema.Ok db' =>
                    db (snd (handleSubmit c w)) = db'
                    /\ toasts (snd (handleSubmit c w))
                       = toasts w ++ [Effects.submitted]
                    /\ onSuccess_calls (snd (handleSubmit c w))
                       = S (onSuccess_calls w)
                    /\ Effects.fields_cleared (snd (handleSubmit c w))
                | Schema.Err e =>
                    db (snd (handleSubmit c w)) = db w
                    /\ toasts (snd (handleSubmit c w))
                       = toasts w
                         ++ [Effects.failed_with
                               (PostgrestError e (postgrest_message c e))]
                    /\ onSuccess_calls (snd (handleSubmit c w))
                       = onSuccess_calls w
                    /\ Effects.fields_kept w (snd (handleSubmit c w))
                end)
     end.
Proof.
  intros Hp. unfold handleSubmit. rewrite Hp.
  unfold try_catch_finally, bind, functions_invoke, setErrors, setLoading,
    set_state.
  cbn [fst snd st db toasts onSuccess_calls invocations inserts].
  destruct (analyze_complaint c (form_input w)) as [e|functionData].
  - unfold Effects.fields_kept. repeat split; reflexivity.
  - destruct (null_or_not functionData) as [->|Hn].
    + unfold Effects.fields_kept.
      do 4 (split; [reflexivity|]).
      split; [intros _ | intros Hn; now contradiction Hn].
      repeat split; reflexivity.
    + assert (E : read_members c functionData = ret tt)
        by (destruct functionData; try reflexivity; contradiction).
      rewrite E. unfold ret, from_complaints_insert.
      cbn [fst snd st db toasts onSuccess_calls invocations inserts].
      destruct (Schema.insert_complaint (session c) (db w)
                  (insert_row c data functionData)) as [db'|e];
        unfold Effects.fields_cleared, Effects.fields_kept;
        (do 4 (split; [reflexivity|]));
        (split; [intros E'; now contradiction Hn | intros _]);
        repeat split; reflexivity.
Qed.

Lemma accepts_success (input : Zod.fields text) :
  accepts input = true ->
  exists data, Zod.safeParse complaintSchema input = Zod.success data.
Proof.
  unfold accepts. destruct (Zod.safeParse complaintSchema input) as [data|];
    [eauto | discriminate].
Qed.

Lemma invalid_input_stops_submission_aux (c : context) (w : world) :
  accepts (form_input w) = false ->
  handleSubmit c w
  = (inl tt, Effects.with_errors w (validation_errors (form_input w))).
Proof.
  unfold accepts, validation_errors, handleSubmit.
  destruct (Zod.safeParse complaintSchema (form_input w)) as [data|issues];
    [discriminate|].
  intros _. reflexivity.
Qed.

(** X11: when the input does not pass validation, [handleSubmit] only sets
    the field errors: the classification function is not called, no row
    is sent, no toast is shown, the fields, the loading flag and the
    database stay as they are, and nothing is thrown. *)
Theorem invalid_input_stops_submission (c : context) (w : world) :
  accepts (form_input w) = false ->
  handleSubmit c w
  = (inl tt, Effects.with_errors w (validation_errors (form_input w))).
Proof. exact (invalid_input_stops_submission_aux c w). Qed.

(** X12: [handleSubmit] never throws; a submission that passes validation
    calls the classification function exactly once, with the fields as
    typed (not trimmed), shows exactly one toast, and ends with the
    loading flag off and no field errors. *)
Theorem accepted_submission_completes (c : context) (w : world) :
  fst (handleSubmit c w) = inl tt
  /\ (accepts (form_input w) = true ->
      invocations (snd (handleSubmit c w)) = invocations w ++ [form_input w]
      /\ length (toasts (snd (handleSubmit c w))) = S (length (toasts w))
      /\ loading (st (snd (handleSubmit c w))) = false
      /\ errors (st (snd (handleSubmit c w))) = []).
Proof.
  split.
  - destruct (accepts (form_input w)) eqn:Ha.
    + apply accepts_success in Ha as (data & Hd).
      now apply (handleSubmit_accepted c w data).
    + now rewrite (invalid_input_stops_submission_aux c w Ha).
  - intros Ha. apply accepts_success in Ha as (data & Hd).
    destruct (handleSubmit_accepted c w data Hd) as (_ & He & Hl & Hi & H).
    repeat split; try assumption.
    destruct (analyze_complaint c (form_input w)) as [e|functionData].
    + destruct H as (_ & _ & -> & _). rewrite length_app. cbn. lia.
    + destruct H as (Hnull & Hdata).
      destruct (null_or_not functionData) as [Hn|Hn].
      * destruct (Hnull Hn) as (_ & _ & -> & _). rewrite length_app. cbn. lia.
      * destruct (Hdata Hn) as (_ & H).
        destruct (Schema.insert_complaint _ _ _);
          destruct H as (_ & -> & _); rewrite length_app; cbn; lia.
Qed.

Lemma accepted_submission_completes_witness :
  invocations (snd (handleSubmit Examples.failing_context Examples.filled_form))
  = invocations Examples.filled_form ++ [form_input Examples.filled_form].
Proof.
  exact (proj1 (proj2 (accepted_submission_completes
                         Examples.failing_context Examples.filled_form)
                      eq_refl)).
Defined.

Lemma invalid_input_stops_submission_witness :
  handleSubmit Examples.failing_context More.blank_form
  = (inl tt,
     Effects.with_errors More.blank_form
       [(lit "title", lit "Title must be at least 5 characters")]).
Proof.
  apply (invalid_input_stops_submission Examples.failing_context More.blank_form).
  reflexivity.
Defined.

(** X13: a submission that passes validation ends in one of two ways.
    Either nothing is stored: the database is as before, the fields keep
    what was typed, [onSuccess] is not called and one destructive toast
    carries the message (or "Failed to submit complaint" when it is
    empty) of the error that stopped the submission, which is the error
    the classification call returned, or the [TypeError] of reading a
    member of the data [null], or the error the insert returned.  Or one
    row is stored: the fields are cleared, [onSuccess] is called once and
    the success toast is shown. *)
Theorem submission_outcome (c : context) (w : world) :
  accepts (form_input w) = true ->
  (exists e,
      (analyze_complaint c (form_input w) = inl e
       \/ (analyze_complaint c (form_input w) = inr AnalyzeComplaint.JNull
           /\ e = TypeError (TypeError_message c))
       \/ (exists data functionData pe,
              Zod.safeParse complaintSchema (form_input w) = Zod.success data
              /\ analyze_complaint c (form_input w) = inr functionData
              /\ functionData <> AnalyzeComplaint.JNull
              /\ Schema.insert_complaint (session c) (db w)
                   (insert_row c data functionData) = Schema.Err pe
              /\ e = PostgrestError pe (postgrest_message c pe)))
      /\ toasts (snd (handleSubmit c w))
         = toasts w
           ++ [{| toast_title := lit "Error";
                  toast_description :=
                    match error_message e with
                    | [] => lit "Failed to submit complaint"
                    | m => m
                    end;
                  destructive := true |}]
      /\ db (snd (handleSubmit c w)) = db w
      /\ Effects.fields_kept w (snd (handleSubmit c w))
      /\ onSuccess_calls (snd (handleSubmit c w)) = onSuccess_calls w)
  \/ (exists r,
        Schema.complaints (db (snd (handleSubmit c w)))
        = Schema.complaints (db w) ++ [r]
        /\ Effects.fields_cleared (snd (handleSubmit c w))
        /\ onSuccess_calls (snd (handleSubmit c w)) = S (onSuccess_calls w)
        /\ toasts (snd (handleSubmit c w)) = toasts w ++ [Effects.submitted]).
Proof.
  intros Ha. apply accepts_success in Ha as (data & Hd).
  assert (Htoast : forall e,
            Effects.failed_with e
            = {| toast_title := lit "Error";
                 toast_description :=
                   match error_message e with
                   | [] => lit "Failed to submit complaint"
                   | m => m
                   end;
                 destructive := true |}).
  { intros e. unfold Effects.failed_with, Js.or_else, Js.truthy.
    now destruct (error_message e). }
  destruct (handleSubmit_accepted c w data Hd) as (_ & _ & _ & _ & H).
  destruct (analyze_complaint c (form_input w)) as [e|functionData].
  - left. destruct H as (Hdb & _ & Ht & Ho & Hf). exists e.
    rewrite <- Htoast. auto 6.
  - destruct H as (Hnull & Hdata).
    destruct (null_or_not functionData) as [Hn|Hn].
    + left. destruct (Hnull Hn) as (Hdb & _ & Ht & Ho & Hf). subst.
      exists (TypeError (TypeError_message c)). rewrite <- Htoast. auto 6.
    + destruct (Hdata Hn) as (_ & H).
      destruct (Schema.insert_complaint (session c) (db w)
                  (insert_row c data functionData)) as [db'|e] eqn:Hi.
      * right. destruct H as (Hdb & Ht & Ho & Hf).
        apply insert_complaint_ok in Hi
          as (_ & _ & r & _ & _ & _ & _ & _ & ->).
        exists r. rewrite Hdb. auto.
      * left. destruct H as (Hdb & Ht & Ho & Hf).
        exists (PostgrestError e (postgrest_message c e)).
        rewrite <- Htoast. split; [|auto].
        right. right. exists data, functionData, e. auto 6.
Qed.

Lemma submission_outcome_witness :
  toasts (snd (handleSubmit Examples.failing_context Examples.filled_form))
  = [{| toast_title := lit "Error";
        toast_description :=
          lit "Edge Function returned a non-2xx status code";
        destructive := true |}]
  \/ toasts (snd (handleSubmit Examples.failing_context Examples.filled_form))
     = [Effects.submitted].
Proof.
  destruct (submission_outcome Examples.failing_context Examples.filled_form)
    as [(e & _ & He & _) | (r & _ & _ & _ & Ht)].
  - reflexivity.
  - left. reflexivity.
  - right. exact Ht.
Defined.

Lemma trim_trimmed (s : text) : Effects.trimmed (Js.trim s).
Proof.
  destruct (trim_ends s) as [-> | (c & t & d & u & Hc & Hws & Hr & Hwd)].
  - split; intros c H; discriminate H.
  - rewrite Hc in *. split; intros x Hx.
    + cbn in Hx. injection Hx as <-. exact Hws.
    + rewrite Hr in Hx. cbn in Hx. injection Hx as <-. exact Hwd.
Qed.

Lemma new_tuple_of_form_row (c : context) (data : Zod.fields text)
      (functionData : analysis) (NEW0 : Schema.tuple) :
  Schema.new_tuple (session c) (insert_row c data functionData) = Schema.Ok NEW0 ->
  Schema.t_title NEW0 = Some (Zod.title data)
  /\ Schema.t_description NEW0 = Some (Zod.description data)
  /\ Schema.t_category NEW0 = Some (Zod.category data)
  /\ Schema.t_admin_response NEW0 = None
  /\ Schema.t_created_at NEW0 = Some (Schema.now (session c)).
Proof.
  unfold Schema.new_tuple. intros H.
  apply bind_ok in H as (p & _ & H).
  apply bind_ok in H as (sc & _ & H).
  apply bind_ok in H as (st' & _ & H).
  injection H as <-. cbn. repeat split.
Qed.

(** X14: a row [handleSubmit] stores carries the title and the description
    of the form after [trim], with no white space at either end and
    lengths within [5,200] and [20,2000], the category chosen, which is
    not empty, the user of the session as its owner, the time of the
    insert as [created_at], and no admin response. *)
Theorem stored_row_is_validated (c : context) (w : world) (r : Schema.complaint) :
  Schema.complaints (db (snd (handleSubmit c w)))
    = Schema.complaints (db w) ++ [r] ->
  (Schema.title r = Js.trim (title (st w))
   /\ 5 <= length (Schema.title r) <= 200
   /\ Effects.trimmed (Schema.title r))
  /\ (Schema.description r = Js.trim (description (st w))
      /\ 20 <= length (Schema.description r) <= 2000
      /\ Effects.trimmed (Schema.description r))
  /\ (Schema.category r = Some (category (st w))
      /\ category (st w) <> empty_string)
  /\ Schema.auth_uid (session c) = Some (Schema.student_id r)
  /\ Schema.created_at r = Schema.now (session c)
  /\ Schema.admin_response r = None.
Proof.
  intros Hr.
  apply stored_row_of_submission in Hr
    as (data & functionData & NEW0 & Hd & _ & _ & Hi & Hn & Ht).
  pose proof (insert_complaint_appends _ _ _ _ Hi) as (r0 & Hdb0 & Hown & _).
  apply (f_equal Schema.complaints) in Hdb0.
  cbn [Schema.with_complaints Schema.complaints] in Hdb0.
  apply app_inv_head in Hdb0. injection Hdb0 as <-.
  apply set_complaint_id_frame in Ht
    as (_ & _ & Hti & Hde & Hca & _ & _ & _ & _ & Har & _ & Hcr & _).
  apply new_tuple_of_form_row in Hn as (Nti & Nde & Nca & Nar & Ncr).
  cbn [Schema.tuple_of Schema.t_title Schema.t_description Schema.t_category
       Schema.t_admin_response Schema.t_created_at] in *.
  rewrite Nti in Hti. rewrite Nde in Hde. rewrite Nca in Hca.
  rewrite Nar in Har. rewrite Ncr in Hcr.
  injection Hti as Hti. injection Hde as Hde. injection Hcr as Hcr.
  apply safeParse_data in Hd as (-> & Hbt & Hbd & Hbc).
  cbn [Zod.title Zod.description Zod.category form_input] in *.
  rewrite Hti, Hde, Hca.
  repeat split; try assumption; try lia; try apply trim_trimmed.
  intros E. rewrite E in Hbc. cbn in Hbc. lia.
Qed.

Lemma stored_row_is_validated_witness :
  Schema.title Examples.scenario_row
  = Js.trim (title (st More.spaced_form))
  /\ Effects.trimmed (Schema.title Examples.scenario_row).
Proof.
  destruct (stored_row_is_validated
              (Examples.context_answering (inr Examples.medium_analysis))
              More.spaced_form Examples.scenario_row)
    as ((Ht & _ & Htrim) & _).
  - vm_compute. reflexivity.
  - split; assumption.
Defined.

Lemma safeParse_within_bounds (input : Zod.fields text) :
  5 <= length (Js.trim (Zod.title input)) <= 200 ->
  20 <= length (Js.trim (Zod.description input)) <= 2000 ->
  1 <= length (Zod.category input) ->
  Zod.safeParse complaintSchema input
  = Zod.success {| Zod.title := Js.trim (Zod.title input);
                   Zod.description := Js.trim (Zod.description input);
                   Zod.category := Zod.category input |}.
Proof.
  intros Ht Hd Hc. unfold Zod.safeParse, complaintSchema.
  cbn [Zod.title Zod.description Zod.category Zod.parse_string].
  rewrite (proj2 (Nat.ltb_ge _ _) (proj1 Ht)).
  rewrite (proj2 (Nat.ltb_ge _ _) (proj2 Ht)).
  rewrite (proj2 (Nat.ltb_ge _ _) (proj1 Hd)).
  rewrite (proj2 (Nat.ltb_ge _ _) (proj2 Hd)).
  rewrite (proj2 (Nat.ltb_ge _ _) Hc).
  reflexivity.
Qed.

(** X15: validation is stable on what it returns: the data of a
    successful [safeParse] pass [safeParse] again and come back
    unchanged. *)
Theorem validated_data_is_stable (input data : Zod.fields text) :
  Zod.safeParse complaintSchema input = Zod.success data ->
  Zod.safeParse complaintSchema data = Zod.success data.
Proof.
  intros H. apply safeParse_data in H as (-> & Ht & Hd & Hc).
  rewrite safeParse_within_bounds;
    cbn [Zod.title Zod.description Zod.category];
    rewrite ?trim_idempotent; auto.
Qed.

Lemma validated_data_is_stable_witness :
  Zod.safeParse complaintSchema Examples.a_form_input
  = Zod.success Examples.a_form_input.
Proof.
  apply (validated_data_is_stable (form_input More.spaced_form)
                                  Examples.a_form_input).
  vm_compute. reflexivity.
Defined.

End Form.

(* ===================================================================== *)
(** * Further properties of the classification endpoint *)
(* ===================================================================== *)

Section EndpointMore.

Import AnalyzeComplaint.

Local Open Scope N_scope.

Lemma call_gateway_without_key_same (r : request) f p :
  LOVABLE_API_KEY r = None \/ LOVABLE_API_KEY r = Some [] ->
  call_gateway (Effects.with_platform r f p) = call_gateway r
  /\ exists e, call_gateway r = inr e.
Proof.
  intros Hkey. split; [|now apply call_gateway_without_key].
  unfold call_gateway, Effects.with_platform.
  cbn [req_json TypeError_message LOVABLE_API_KEY fetch].
  destruct (req_json r) as [body|e]; cbn [and_then]; [|reflexivity].
  destruct (get (TypeError_message r) (Some body) (lit "title"));
    cbn [and_then]; [|reflexivity].
  destruct (get (TypeError_message r) (Some body) (lit "description"));
    cbn [and_then]; [|reflexivity].
  destruct (get (TypeError_message r) (Some body) (lit "category"));
    cbn [and_then]; [|reflexivity].
  destruct Hkey as [-> | ->]; reflexivity.
Qed.

(** X16: without the key (missing or empty) the endpoint answers without
    the gateway and the parser: its response is the same whatever they
    would have answered, and for a request whose body is readable and not
    [null] it is status 500 with the message that the key is not
    configured. *)
Theorem missing_key_stops_before_gateway (r : request) f p :
  LOVABLE_API_KEY r = None \/ LOVABLE_API_KEY r = Some [] ->
  handler (Effects.with_platform r f p) = handler r
  /\ (text_eqb (method r) (lit "OPTIONS") = false ->
      forall body, req_json r = inl body -> body <> JNull ->
                   handler r = Effects.not_configured).
Proof.
  intros Hkey. split.
  - destruct (call_gateway_without_key_same r f p Hkey) as (Hsame & e & He).
    unfold handler, try_block. rewrite Hsame, He.
    cbn [method Effects.with_platform and_then]. reflexivity.
  - intros Hm body Hb Hn. unfold handler, try_block, call_gateway.
    rewrite Hm, Hb. cbn [and_then].
    destruct body; try contradiction; cbn [get and_then];
      destruct Hkey as [-> | ->]; reflexivity.
Qed.

Lemma missing_key_stops_before_gateway_witness :
  handler More.keyless_request = Effects.not_configured.
Proof.
  apply (proj2 (missing_key_stops_before_gateway More.keyless_request
                  (fetch More.keyless_request)
                  (JSON_parse More.keyless_request)
                  (or_introl eq_refl))
               eq_refl Examples.a_request_body eq_refl).
  discriminate.
Defined.

Lemma gateway_error_message_inj (a b : N) :
  gateway_error_message a = gateway_error_message b -> a = b.
Proof.
  unfold gateway_error_message. intros H. apply app_inv_head in H.
  apply text_of_uint_inj in H.
  rewrite <- (DecimalN.Unsigned.of_to a), <- (DecimalN.Unsigned.of_to b).
  now rewrite H.
Qed.

(** X17: when the gateway refuses with a status other than 429 and 402,
    the endpoint answers 500 with the message [AI Gateway error: <status>],
    and the status can be read back from the message: different statuses
    give different messages. *)
Theorem gateway_failure_reports_status
        (r : request) (resp : gateway_response) (errorText : text) :
  text_eqb (method r) (lit "OPTIONS") = false ->
  call_gateway r = inl resp -> ok resp = false ->
  response_text resp = inl errorText ->
  status resp <> 429 -> status resp <> 402 ->
  handler r = {| res_status := 500;
                 res_body := Some (error_body
                                     (gateway_error_message (status resp))) |}
  /\ forall other, gateway_error_message other
                   = gateway_error_message (status resp) ->
                   other = status resp.
Proof.
  intros Hm Hg Hok Ht H429 H402. split.
  - unfold handler, try_block, read_answer. rewrite Hm, Hg.
    cbn [and_then]. rewrite Hok, Ht. cbn [negb and_then].
    apply N.eqb_neq in H429, H402. now rewrite H429, H402.
  - intros other. apply gateway_error_message_inj.
Qed.

Lemma gateway_failure_reports_status_witness :
  handler More.unavailable_request
  = {| res_status := 500;
       res_body := Some (error_body (lit "AI Gateway error: 503")) |}.
Proof.
  apply (gateway_failure_reports_status More.unavailable_request
           More.unavailable (lit "Service Unavailable"));
    try reflexivity; discriminate.
Defined.

(** X18: when the gateway answers with data whose first choice carries,
    in its message, a first tool call with arguments that are truthy and
    that [JSON.parse] accepts, whatever else the answer holds, the
    endpoint answers 200 with what [JSON.parse] returned. *)
Theorem structured_answer_is_passed_through
        (r : request) (resp : gateway_response) (data a analysis : json) :
  text_eqb (method r) (lit "OPTIONS") = false ->
  call_gateway r = inl resp -> ok resp = true ->
  response_json resp = inl data ->
  Effects.carries_arguments data a ->
  truthy (Some a) = true ->
  JSON_parse r a = inl analysis ->
  handler r = {| res_status := 200; res_body := Some analysis |}.
Proof.
  intros Hm Hg Hok Hj Hd Ha Hp.
  unfold handler, try_block, read_answer. rewrite Hm, Hg.
  cbn [and_then]. rewrite Hok, Hj. cbn [negb and_then].
  assert (Hargs : tool_call_arguments r data = inl a).
  { destruct Hd as (members & choice & choices & message & call & calls
                    & function & -> & Hc & Hmsg & Ht & Hf & Harg).
    unfold tool_call_arguments.
    cbn [get get_member and_then]. rewrite Hc.
    cbn [index0_opt get_opt get_member]. rewrite Hmsg.
    cbn [get_opt get_member]. rewrite Ht.
    cbn [index0_opt get_opt get_member]. rewrite Hf.
    cbn [get_opt get_member]. rewrite Harg, Ha.
    reflexivity. }
  rewrite Hargs. cbn [and_then]. now rewrite Hp.
Qed.

Lemma structured_answer_is_passed_through_witness :
  handler More.answered_request
  = {| res_status := 200; res_body := Some (JObject []) |}.
Proof.
  apply (structured_answer_is_passed_through More.answered_request
           More.gateway_answer More.gateway_data
           (JString (lit "{}")) (JObject []));
    try reflexivity.
  unfold Effects.carries_arguments, More.gateway_data.
  do 7 eexists. repeat split; reflexivity.
Defined.

(** X19: the arguments handed to [JSON.parse] are never falsy: whatever
    the gateway data, [tool_call_arguments] returns truthy arguments or
    throws; it throws "No valid response from AI" for data without
    [choices], with an empty list of choices, and with a first tool call
    whose arguments are falsy, and a [TypeError] for the data [null]. *)
Theorem arguments_are_present_or_refused (r : request) :
  (forall data a, tool_call_arguments r data = inl a -> truthy (Some a) = true)
  /\ tool_call_arguments r (JObject []) = inr Effects.no_valid_response
  /\ tool_call_arguments r (JObject [(lit "choices", JArray [])])
     = inr Effects.no_valid_response
  /\ (forall a, truthy (Some a) = false ->
                tool_call_arguments r (Effects.answer_with_arguments a)
                = inr Effects.no_valid_response)
  /\ tool_call_arguments r JNull = inr (Error (TypeError_message r)).
Proof.
  split; [|split; [|split; [|split]]]; try reflexivity.
  - intros data a. unfold tool_call_arguments.
    destruct (get (TypeError_message r) (Some data) (lit "choices"))
      as [choices|e]; cbn [and_then]; [|discriminate].
    set (toolCall := index0_opt _).
    set (arguments := get_opt _ _).
    destruct (truthy toolCall); cbn [negb orb]; [|discriminate].
    destruct (truthy arguments) eqn:Ha; cbn [negb]; [|discriminate].
    destruct arguments as [x|]; [|discriminate].
    intros H. injection H as <-. exact Ha.
  - intros a Ha. unfold tool_call_arguments, Effects.answer_with_arguments.
    cbv -[truthy negb orb]. rewrite Ha. reflexivity.
Qed.

Lemma arguments_are_present_or_refused_witness :
  truthy (Some (JString (lit "{}"))) = true.
Proof.
  exact (proj1 (arguments_are_present_or_refused
                  Examples.empty_arguments_request)
               Examples.empty_arguments_data (JString (lit "{}")) eq_refl).
Defined.

End EndpointMore.

(* ===================================================================== *)
(** * Registration: [handle_new_user] *)
(* ===================================================================== *)

Section Registration.

Import Schema Accounts.

Lemma insert_profile_ok now ps i name email ps' :
  insert_profile now ps i name email = Ok ps' ->
  exists e,
    email = Some e
    /\ ps' = ps ++ [{| p_id := i; p_name := name; p_email := e;
                       p_created_at := now; p_updated_at := now |}]
    /\ Forall (fun p => p_id p <> i /\ p_email p <> e) ps.
Proof.
  unfold insert_profile. destruct email as [e|]; [|discriminate].
  destruct (forallb _ ps) eqn:Hall; [|discriminate].
  intros H. injection H as <-. exists e. split; [reflexivity|].
  split; [reflexivity|].
  apply Forall_forall. intros p Hp.
  apply (proj1 (forallb_forall _ _) Hall) in Hp.
  apply andb_true_iff in Hp as [Hi He].
  apply negb_true_iff in Hi, He. split.
  - now apply N.eqb_neq.
  - now apply text_eqb_neq.
Qed.

Lemma insert_user_role_ok rs u r rs' :
  insert_user_role rs u r = Ok rs' ->
  rs' = rs ++ [{| ur_user_id := u; ur_role := r |}]
  /\ existsb (fun ur => N.eqb (ur_user_id ur) u
                        && app_role_eqb (ur_role ur) r) rs = false.
Proof.
  unfold insert_user_role. destruct (existsb _ rs); [discriminate|].
  intros H. injection H as <-. now split.
Qed.

Lemma handle_new_user_ok now st new st' :
  handle_new_user now st new = Ok st' ->
  exists e,
    new_email new = Some e
    /\ profiles st'
       = profiles st
         ++ [{| p_id := new_id new;
                p_name := COALESCE (new_name new) (lit "User");
                p_email := e;
                p_created_at := now; p_updated_at := now |}]
    /\ Forall (fun p => p_id p <> new_id new /\ p_email p <> e) (profiles st)
    /\ user_roles (data st')
       = user_roles (data st)
         ++ [{| ur_user_id := new_id new; ur_role := student |}]
    /\ has_role (data st) (new_id new) student = false
    /\ complaints (data st') = complaints (data st).
Proof.
  unfold handle_new_user. intros H.
  apply bind_ok in H as (ps & Hps & H).
  apply bind_ok in H as (rs & Hrs & H).
  injection H as <-.
  apply insert_profile_ok in Hps as (e & He & -> & Hall).
  apply insert_user_role_ok in Hrs as (-> & Hno).
  exists e. cbn [profiles data user_roles complaints]. repeat split; auto.
Qed.

Lemma profiles_of_none (u : uuid) (ps : list profile) :
  Forall (fun p => p_id p <> u) ps -> profiles_of u ps = [].
Proof.
  induction 1 as [|p ps Hp _ IH]; [reflexivity|].
  cbn [profiles_of filter]. apply N.eqb_neq in Hp. rewrite Hp. exact IH.
Qed.

(** X20: a registration that goes through leaves exactly one profile for
    the new user, with the name given at sign-up or [User] when none was
    given, and the student role; the profiles of the other users and the
    complaints are as before. *)
Theorem registration_creates_student_account
        (now : timestamptz) (st st' : site) (new : auth_user) :
  handle_new_user now st new = Ok st' ->
  exists e,
    new_email new = Some e
    /\ profiles_of (new_id new) (profiles st')
       = [{| p_id := new_id new;
             p_name := match new_name new with
                       | Some n => n
                       | None => lit "User"
                       end;
             p_email := e;
             p_created_at := now; p_updated_at := now |}]
    /\ has_role (data st') (new_id new) student = true
    /\ (forall u, u <> new_id new ->
                  profiles_of u (profiles st') = profiles_of u (profiles st))
    /\ complaints (data st') = complaints (data st).
Proof.
  intros H. apply handle_new_user_ok in H as (e & He & Hp & Hall & Hr & _ & Hc).
  exists e. split; [exact He|]. split; [|split; [|split]].
  - rewrite Hp. unfold profiles_of. rewrite filter_app.
    fold (profiles_of (new_id new) (profiles st)).
    rewrite profiles_of_none.
    + cbn [filter p_id app]. rewrite N.eqb_refl.
      unfold COALESCE. reflexivity.
    + eapply Forall_impl; [|exact Hall]. now intros p [Hi _].
  - unfold has_role. rewrite Hr, existsb_app. cbn [existsb ur_user_id ur_role].
    rewrite N.eqb_refl. cbn. apply orb_true_r.
  - intros u Hu. rewrite Hp. unfold profiles_of. rewrite filter_app.
    cbn [filter p_id]. apply not_eq_sym in Hu. apply N.eqb_neq in Hu.
    rewrite Hu. apply app_nil_r.
  - exact Hc.
Qed.

Lemma registration_creates_student_account_witness :
  exists st',
    handle_new_user Examples.in_2025 More.fresh_site More.applicant = Ok st'
    /\ has_role (data st') 7%N student = true
    /\ map p_name (profiles_of 7%N (profiles st')) = [lit "User"].
Proof.
  eexists. split; [reflexivity|].
  destruct (registration_creates_student_account
              Examples.in_2025 More.fresh_site _ More.applicant eq_refl)
    as (e & _ & Hp & Hr & _).
  split; [exact Hr|]. exact (f_equal (map p_name) Hp).
Defined.

(** X21: a registration gives nobody the admin role: for every user,
    holding the admin role is the same before and after, and for every
    user but the new one so is holding the student role. *)
Theorem registration_grants_no_admin_role
        (now : timestamptz) (st st' : site) (new : auth_user) :
  handle_new_user now st new = Ok st' ->
  (forall u, has_role (data st') u admin = has_role (data st) u admin)
  /\ (forall u, u <> new_id new ->
                has_role (data st') u student = has_role (data st) u student).
Proof.
  intros H. apply handle_new_user_ok in H as (e & _ & _ & _ & Hr & _ & _).
  split.
  - intros u. unfold has_role. rewrite Hr, existsb_app.
    cbn [existsb ur_user_id ur_role app_role_eqb].
    now rewrite andb_false_r, !orb_false_r.
  - intros u Hu. unfold has_role. rewrite Hr, existsb_app.
    cbn [existsb ur_user_id ur_role]. apply not_eq_sym in Hu.
    apply N.eqb_neq in Hu. rewrite Hu. cbn. now rewrite orb_false_r.
Qed.

Lemma registration_grants_no_admin_role_witness :
  exists st',
    handle_new_user Examples.in_2025 More.fresh_site More.applicant = Ok st'
    /\ has_role (data st') 7%N admin
       = has_role (data More.fresh_site) 7%N admin.
Proof.
  eexists. split; [reflexivity|].
  exact (proj1 (registration_grants_no_admin_role
                  Examples.in_2025 More.fresh_site _ More.applicant eq_refl)
               7%N).
Defined.

(** X22: registrations keep the primary key and the UNIQUE constraint of
    [profiles]: when ids and emails of the profiles are pairwise distinct
    before, they are after. *)
Theorem registration_keeps_profiles_distinct
        (now : timestamptz) (st st' : site) (new : auth_user) :
  NoDup (map p_id (profiles st)) -> NoDup (map p_email (profiles st)) ->
  handle_new_user now st new = Ok st' ->
  NoDup (map p_id (profiles st')) /\ NoDup (map p_email (profiles st')).
Proof.
  intros Hi He H.
  apply handle_new_user_ok in H as (e & _ & Hp & Hall & _).
  rewrite Hp, !map_app. cbn [map p_id p_email]. split.
  - apply NoDup_snoc; [exact Hi|]. intros Hin.
    apply in_map_iff in Hin as (p & Hpi & Hin).
    apply (proj1 (Forall_forall _ _) Hall) in Hin. now destruct Hin.
  - apply NoDup_snoc; [exact He|]. intros Hin.
    apply in_map_iff in Hin as (p & Hpe & Hin).
    apply (proj1 (Forall_forall _ _) Hall) in Hin. now destruct Hin.
Qed.

(** A second visitor registers on [More.busy_site], which holds the
    profile of student 1. *)
Lemma registration_keeps_profiles_distinct_witness :
  exists st',
    handle_new_user Examples.in_2025 More.busy_site More.second_applicant
    = Ok st'
    /\ map p_id (profiles st') = [1%N; 8%N]
    /\ NoDup (map p_id (profiles st'))
    /\ NoDup (map p_email (profiles st')).
Proof.
  eexists. split; [reflexivity|]. split; [reflexivity|].
  apply (registration_keeps_profiles_distinct
           Examples.in_2025 More.busy_site _ More.second_applicant).
  - constructor; [intros [] | constructor].
  - constructor; [intros [] | constructor].
  - reflexivity.
Defined.

End Registration.

(* ===================================================================== *)
(** * The dashboards *)
(* ===================================================================== *)

Section Dashboards.

Import Schema.

Lemma before_spec (a b : timestamptz) :
  Queries.before a b = true <->
  (ts_year a < ts_year b
   \/ (ts_year a = ts_year b /\ ts_rest a < ts_rest b))%N.
Proof.
  unfold Queries.before.
  rewrite orb_true_iff, andb_true_iff, !N.ltb_lt, N.eqb_eq. tauto.
Qed.

Lemma before_asym (a b : timestamptz) :
  Queries.before a b = true -> Queries.before b a = false.
Proof.
  intros H. apply before_spec in H. apply not_true_iff_false.
  rewrite before_spec. lia.
Qed.

Lemma not_before_trans (a b c : timestamptz) :
  Queries.before a b = false -> Queries.before b c = false ->
  Queries.before a c = false.
Proof. rewrite <- !not_true_iff_false, !before_spec. lia. Qed.

Lemma insert_desc_perm (r : complaint) (l : list complaint) :
  Permutation (Queries.insert_desc r l) (r :: l).
Proof.
  induction l as [|x l IH]; cbn [Queries.insert_desc]; [reflexivity|].
  destruct (Queries.before _ _); [|reflexivity].
  rewrite IH. apply perm_swap.
Qed.

Lemma order_desc_perm (l : list complaint) :
  Permutation (Queries.order_desc l) l.
Proof.
  induction l as [|x l IH]; [reflexivity|].
  change (Permutation (Queries.insert_desc x (Queries.order_desc l)) (x :: l)).
  rewrite insert_desc_perm. now apply perm_skip.
Qed.

Lemma newest_first_insert (r : complaint) (l : list complaint) :
  Queries.newest_first l = true ->
  Queries.newest_first (Queries.insert_desc r l) = true.
Proof.
  induction l as [|x l IH]; intros H; [reflexivity|].
  cbn [Queries.newest_first] in H. apply andb_true_iff in H as [Hx Hl].
  cbn [Queries.insert_desc].
  destruct (Queries.before (created_at r) (created_at x)) eqn:E.
  - cbn [Queries.newest_first]. apply andb_true_iff. split; [|now apply IH].
    apply forallb_forall. intros y Hy.
    apply (Permutation_in _ (insert_desc_perm r l)) in Hy.
    destruct Hy as [<-|Hy].
    + apply negb_true_iff. now apply before_asym.
    + exact (proj1 (forallb_forall _ _) Hx y Hy).
  - cbn [Queries.newest_first forallb]. rewrite E, Hx, Hl. cbn [negb andb].
    rewrite andb_true_r. apply forallb_forall. intros y Hy.
    apply negb_true_iff. apply (not_before_trans _ (created_at x)); [exact E|].
    apply negb_true_iff. exact (proj1 (forallb_forall _ _) Hx y Hy).
Qed.

Lemma order_desc_sorted (l : list complaint) :
  Queries.newest_first (Queries.order_desc l) = true.
Proof.
  induction l as [|x l IH]; [reflexivity|].
  change (Queries.newest_first
            (Queries.insert_desc x (Queries.order_desc l)) = true).
  now apply newest_first_insert.
Qed.

(** The query of the student dashboard: the rows of the user. *)
Lemma student_query (s : session) (db : database) (u : uuid) :
  auth_uid s = Some u ->
  Permutation
    (Queries.select_complaints s db (fun r => N.eqb (student_id r) u))
    (filter (fun r => N.eqb (student_id r) u) (complaints db))
  /\ Queries.newest_first
       (Queries.select_complaints s db (fun r => N.eqb (student_id r) u))
     = true.
Proof.
  intros Hu. unfold Queries.select_complaints. split; [|apply order_desc_sorted].
  rewrite order_desc_perm.
  rewrite (filter_ext _ (fun r => N.eqb (student_id r) u)); [reflexivity|].
  intros r. unfold policy_select, uid_is. rewrite Hu.
  destruct (N.eqb (student_id r) u) eqn:E; [|apply andb_false_r].
  apply N.eqb_eq in E. rewrite E, N.eqb_refl. reflexivity.
Qed.

(** X23: for a signed-in user whose request is answered,
    [loadComplaints] of the student dashboard shows exactly the stored
    complaints of that user, each once, the newest first; it shows no
    toast and ends the loading state. *)
Theorem student_dashboard_lists_own_complaints
        (s : session) (db : database) (st : StudentDashboard.state) (u : uuid) :
  auth_uid s = Some u ->
  Permutation
    (StudentDashboard.complaints (StudentDashboard.loadComplaints true s db st))
    (filter (fun r => N.eqb (student_id r) u) (complaints db))
  /\ Queries.newest_first
       (StudentDashboard.complaints
          (StudentDashboard.loadComplaints true s db st)) = true
  /\ StudentDashboard.toasts (StudentDashboard.loadComplaints true s db st)
     = StudentDashboard.toasts st
  /\ StudentDashboard.loading (StudentDashboard.loadComplaints true s db st)
     = false.
Proof.
  intros Hu. unfold StudentDashboard.loadComplaints, StudentDashboard.query.
  rewrite Hu. cbn [StudentDashboard.complaints StudentDashboard.toasts
                   StudentDashboard.loading].
  destruct (student_query s db u Hu) as [Hp Hs]. auto.
Qed.

Lemma student_dashboard_lists_own_complaints_witness :
  Permutation
    (StudentDashboard.complaints
       (StudentDashboard.loadComplaints true (Examples.session_of 1 0)
          (Examples.submissions 2) More.student_page))
    (filter (fun r => N.eqb (student_id r) 1%N)
            (complaints (Examples.submissions 2))).
Proof.
  exact (proj1 (student_dashboard_lists_own_complaints
                  (Examples.session_of 1 0) (Examples.submissions 2)
                  More.student_page 1%N eq_refl)).
Defined.

(** X24: once a complaint has been stored for the user of the session,
    [handleComplaintSubmit] closes the dialog and the reloaded list holds
    the new row and is one longer than the list loaded before the
    submission. *)
Theorem submitted_complaint_is_listed
        (s : session) (db db' : database) (c : columns)
        (st : StudentDashboard.state) :
  insert_complaint s db c = Ok db' ->
  exists r,
    complaints db' = complaints db ++ [r]
    /\ In r (StudentDashboard.complaints
               (StudentDashboard.handleComplaintSubmit true s db' st))
    /\ length (StudentDashboard.complaints
                 (StudentDashboard.handleComplaintSubmit true s db' st))
       = S (length (StudentDashboard.complaints
                      (StudentDashboard.loadComplaints true s db st)))
    /\ StudentDashboard.dialogOpen
         (StudentDashboard.handleComplaintSubmit true s db' st) = false.
Proof.
  intros H. apply insert_complaint_appends in H as (r & -> & Hu & _).
  exists r. split; [reflexivity|].
  unfold StudentDashboard.handleComplaintSubmit,
    StudentDashboard.loadComplaints, StudentDashboard.query.
  rewrite Hu.
  cbn [StudentDashboard.complaints StudentDashboard.dialogOpen].
  destruct (student_query s (with_complaints db (complaints db ++ [r]))
                          (student_id r) Hu) as [Hp' _].
  destruct (student_query s db (student_id r) Hu) as [Hp _].
  cbn [with_complaints complaints] in Hp'.
  rewrite filter_app in Hp'. cbn [filter] in Hp'.
  rewrite N.eqb_refl in Hp'.
  split; [|split; [|reflexivity]].
  - apply (Permutation_in _ (Permutation_sym Hp')).
    apply in_or_app. right. now left.
  - rewrite (Permutation_length Hp'), (Permutation_length Hp).
    rewrite length_app. cbn [length]. lia.
Qed.

Lemma submitted_complaint_is_listed_witness :
  exists r,
    complaints (after Examples.empty_db
                  (insert_complaint (Examples.session_of 1 0)
                     Examples.empty_db Examples.form_row))
    = complaints Examples.empty_db ++ [r].
Proof.
  destruct (insert_complaint (Examples.session_of 1 0) Examples.empty_db
              Examples.form_row) as [db'|e] eqn:E; [|discriminate E].
  destruct (submitted_complaint_is_listed
              (Examples.session_of 1 0) Examples.empty_db db'
              Examples.form_row More.student_page E) as (r & Hr & _).
  exists r. exact Hr.
Defined.

(** The query of the admin dashboard for an admin: every row. *)
Lemma admin_query (s : session) (db : database) :
  uid_has_role db s admin = true ->
  Permutation (Queries.select_complaints s db (fun _ => true)) (complaints db)
  /\ Queries.newest_first (Queries.select_complaints s db (fun _ => true))
     = true.
Proof.
  intros Ha. unfold Queries.select_complaints.
  split; [|apply order_desc_sorted].
  rewrite order_desc_perm.
  rewrite (filter_ext _ (fun _ => true)).
  - induction (complaints db) as [|x l IH];
      [reflexivity|]. cbn [filter]. now apply perm_skip.
  - intros r. unfold policy_select. rewrite Ha. now rewrite orb_true_r.
Qed.

(** X25: for an admin whose request is answered, [loadComplaints] of the
    admin dashboard shows every stored complaint, each once, the newest
    first, whether or not the profiles could be read. *)
Theorem admin_dashboard_lists_every_complaint
        (profiles_ok : bool) (s : session) (site : Accounts.site)
        (st : AdminDashboardPage.state) :
  uid_has_role (Accounts.data site) s admin = true ->
  Permutation
    (AdminDashboardPage.complaints
       (AdminDashboardPage.loadComplaints true profiles_ok s site st))
    (complaints (Accounts.data site))
  /\ Queries.newest_first
       (AdminDashboardPage.complaints
          (AdminDashboardPage.loadComplaints true profiles_ok s site st))
     = true.
Proof.
  intros Ha. unfold AdminDashboardPage.loadComplaints.
  cbn [AdminDashboardPage.complaints]. now apply admin_query.
Qed.

Lemma admin_dashboard_lists_every_complaint_witness :
  Permutation
    (AdminDashboardPage.complaints
       (AdminDashboardPage.loadComplaints true false (Examples.session_of 9 0)
          More.busy_site More.admin_page))
    (complaints (Examples.submissions 2)).
Proof.
  exact (proj1 (admin_dashboard_lists_every_complaint
                  false (Examples.session_of 9 0) More.busy_site
                  More.admin_page eq_refl)).
Defined.

Lemma profile_get_set (m : AdminDashboardPage.ProfileMap) (k k' : uuid)
      (v : AdminDashboardPage.Profile) :
  AdminDashboardPage.profile_get (AdminDashboardPage.profile_set m k v) k'
  = if N.eqb k k' then Some v else AdminDashboardPage.profile_get m k'.
Proof.
  induction m as [|[k0 v0] m IH];
    cbn [AdminDashboardPage.profile_set AdminDashboardPage.profile_get].
  - reflexivity.
  - destruct (N.eqb k0 k) eqn:E0;
      cbn [AdminDashboardPage.profile_get].
    + apply N.eqb_eq in E0. subst k0.
      destruct (N.eqb k k'); reflexivity.
    + destruct (N.eqb k0 k') eqn:E1.
      * apply N.eqb_eq in E1. subst k0.
        rewrite N.eqb_sym in E0. now rewrite E0.
      * exact IH.
Qed.

Lemma profile_fold_other (ps : list Accounts.profile)
      (m : AdminDashboardPage.ProfileMap) (k : uuid) :
  ~ In k (map Accounts.p_id ps) ->
  AdminDashboardPage.profile_get
    (fold_left (fun m p => AdminDashboardPage.profile_set m (Accounts.p_id p)
                             {| AdminDashboardPage.name := Accounts.p_name p;
                                AdminDashboardPage.email := Accounts.p_email p |})
               ps m) k
  = AdminDashboardPage.profile_get m k.
Proof.
  revert m. induction ps as [|a ps IH]; intros m Hk; [reflexivity|].
  cbn [fold_left]. rewrite IH.
  - rewrite profile_get_set.
    destruct (N.eqb (Accounts.p_id a) k) eqn:E; [|reflexivity].
    apply N.eqb_eq in E. exfalso. apply Hk. now left.
  - intros Hin. apply Hk. now right.
Qed.

Lemma profileMap_lookup (ps : list Accounts.profile) (p : Accounts.profile) :
  NoDup (map Accounts.p_id ps) -> In p ps ->
  AdminDashboardPage.profile_get (AdminDashboardPage.profileMap ps)
                                 (Accounts.p_id p)
  = Some {| AdminDashboardPage.name := Accounts.p_name p;
            AdminDashboardPage.email := Accounts.p_email p |}.
Proof.
  unfold AdminDashboardPage.profileMap. generalize (@nil (uuid * AdminDashboardPage.Profile)).
  induction ps as [|a ps IH]; intros m Hnd Hin; [contradiction|].
  cbn [map] in Hnd. apply NoDup_cons_iff in Hnd as [Ha Hnd].
  cbn [fold_left]. destruct Hin as [->|Hin].
  - rewrite profile_fold_other by exact Ha.
    rewrite profile_get_set. now rewrite N.eqb_refl.
  - now apply IH.
Qed.

Lemma NoDup_map_filter {A B} (f : A -> B) (g : A -> bool) (l : list A) :
  NoDup (map f l) -> NoDup (map f (filter g l)).
Proof.
  induction l as [|x l IH]; intros H; [constructor|].
  cbn [map] in H. apply NoDup_cons_iff in H as [Hx Hl].
  cbn [filter]. destruct (g x); [|now apply IH].
  cbn [map]. constructor; [|now apply IH].
  intros Hin. apply Hx. apply in_map_iff in Hin as (y & Hy & Hin).
  apply filter_In in Hin as [Hin _]. apply in_map_iff. eauto.
Qed.

Lemma distinct_In (x : uuid) (ids : list uuid) :
  In x (AdminDashboardPage.distinct ids) <-> In x ids.
Proof.
  induction ids as [|y ids IH]; [reflexivity|].
  cbn [AdminDashboardPage.distinct]. split.
  - intros [<-|Hin]; [now left|].
    apply filter_In in Hin as [Hin _]. right. now apply IH.
  - intros [<-|Hin]; [now left|].
    destruct (N.eq_dec x y) as [->|Hne]; [now left|].
    right. apply filter_In. split; [now apply IH|].
    apply negb_true_iff. now apply N.eqb_neq.
Qed.

(** X26: when an admin loads the dashboard and both requests are
    answered, the map of profiles holds, for every stored complaint whose
    student has a profile, the name and email of that profile under the
    id of the student (the ids of the profiles being distinct, as the
    primary key has it). *)
Theorem admin_dashboard_finds_student_profile
        (s : session) (site : Accounts.site) (st : AdminDashboardPage.state)
        (r : complaint) (p : Accounts.profile) :
  uid_has_role (Accounts.data site) s admin = true ->
  NoDup (map Accounts.p_id (Accounts.profiles site)) ->
  In r (complaints (Accounts.data site)) ->
  In p (Accounts.profiles site) ->
  Accounts.p_id p = student_id r ->
  AdminDashboardPage.profile_get
    (AdminDashboardPage.profiles
       (AdminDashboardPage.loadComplaints true true s site st))
    (student_id r)
  = Some {| AdminDashboardPage.name := Accounts.p_name p;
            AdminDashboardPage.email := Accounts.p_email p |}.
Proof.
  intros Ha Hnd Hr Hp Hid.
  destruct (admin_query s (Accounts.data site) Ha) as [Hperm _].
  unfold AdminDashboardPage.loadComplaints.
  cbn [AdminDashboardPage.profiles]. rewrite <- Hid.
  apply profileMap_lookup.
  - unfold AdminDashboardPage.select_profiles. now apply NoDup_map_filter.
  - unfold AdminDashboardPage.select_profiles. apply filter_In.
    split; [exact Hp|]. apply andb_true_iff. split.
    + unfold Accounts.policy_select_profile. rewrite Ha. apply orb_true_r.
    + apply existsb_exists. exists (student_id r). split.
      * apply distinct_In. apply in_map.
        apply (Permutation_in _ (Permutation_sym Hperm)). exact Hr.
      * rewrite Hid. apply N.eqb_refl.
Qed.

Lemma admin_dashboard_finds_student_profile_witness :
  AdminDashboardPage.profile_get
    (AdminDashboardPage.profiles
       (AdminDashboardPage.loadComplaints true true (Examples.session_of 9 0)
          More.busy_site More.admin_page))
    1%N
  = Some {| AdminDashboardPage.name := lit "Asha";
            AdminDashboardPage.email := lit "asha@example.org" |}.
Proof.
  apply (admin_dashboard_finds_student_profile
           (Examples.session_of 9 0) More.busy_site More.admin_page
           (Examples.numbered_row 1) More.profile_of_1).
  - reflexivity.
  - constructor; [intros []|constructor].
  - now left.
  - now left.
  - reflexivity.
Defined.

Lemma has_status_label (c : complaint) (st : complaint_status) :
  AdminDashboardPage.has_status (status_label st) c = status_eqb (status c) st.
Proof.
  unfold AdminDashboardPage.has_status.
  destruct (status c), st; vm_compute; reflexivity.
Qed.

Lemma count_by_status (l : list complaint) :
  length l
  = length (filter (fun c => status_eqb (status c) Pending) l)
    + length (filter (fun c => status_eqb (status c) In_Progress) l)
    + length (filter (fun c => status_eqb (status c) Resolved) l)
    + length (filter (fun c => status_eqb (status c) Withdrawn) l).
Proof.
  induction l as [|c l IH]; [reflexivity|].
  cbn [filter]. destruct (status c); cbn [status_eqb length]; lia.
Qed.

(** X27: the three counters of the admin dashboard leave out the
    withdrawn complaints: the total is the sum of the pending, the
    in-progress and the resolved counters and the number of withdrawn
    complaints, so the counters add up to the total exactly when no
    complaint shown is withdrawn. *)
Theorem counters_leave_out_withdrawn (st : AdminDashboardPage.state) :
  AdminDashboardPage.total (AdminDashboardPage.stats st)
  = AdminDashboardPage.pending (AdminDashboardPage.stats st)
    + AdminDashboardPage.inProgress (AdminDashboardPage.stats st)
    + AdminDashboardPage.resolved (AdminDashboardPage.stats st)
    + length (filter (fun c => status_eqb (status c) Withdrawn)
                     (AdminDashboardPage.complaints st)).
Proof.
  unfold AdminDashboardPage.stats.
  cbn [AdminDashboardPage.total AdminDashboardPage.pending
       AdminDashboardPage.inProgress AdminDashboardPage.resolved].
  rewrite (filter_ext _ (fun c => status_eqb (status c) Pending))
    by (intros c; apply (has_status_label c Pending)).
  rewrite (filter_ext (AdminDashboardPage.has_status (lit "In Progress"))
                      (fun c => status_eqb (status c) In_Progress))
    by (intros c; apply (has_status_label c In_Progress)).
  rewrite (filter_ext (AdminDashboardPage.has_status (lit "Resolved"))
                      (fun c => status_eqb (status c) Resolved))
    by (intros c; apply (has_status_label c Resolved)).
  apply count_by_status.
Qed.

(** X28: the list under a filter agrees with the counters: under [all]
    every complaint is listed; under the label of a status exactly the
    complaints of that status are, so the lists under [Pending],
    [In Progress] and [Resolved] are as long as the counters say; under
    any other text nothing is listed. *)
Theorem filter_agrees_with_counters (st : AdminDashboardPage.state) :
  (AdminDashboardPage.filter st = lit "all" ->
   AdminDashboardPage.filteredComplaints st = AdminDashboardPage.complaints st)
  /\ (forall label,
         AdminDashboardPage.filter st = status_label label ->
         AdminDashboardPage.filteredComplaints st
         = filter (fun c => status_eqb (status c) label)
                  (AdminDashboardPage.complaints st))
  /\ (AdminDashboardPage.filter st = lit "Pending" ->
      length (AdminDashboardPage.filteredComplaints st)
      = AdminDashboardPage.pending (AdminDashboardPage.stats st))
  /\ (AdminDashboardPage.filter st = lit "In Progress" ->
      length (AdminDashboardPage.filteredComplaints st)
      = AdminDashboardPage.inProgress (AdminDashboardPage.stats st))
  /\ (AdminDashboardPage.filter st = lit "Resolved" ->
      length (AdminDashboardPage.filteredComplaints st)
      = AdminDashboardPage.resolved (AdminDashboardPage.stats st))
  /\ (AdminDashboardPage.filter st <> lit "all" ->
      (forall label, AdminDashboardPage.filter st <> status_label label) ->
      AdminDashboardPage.filteredComplaints st = []).
Proof.
  unfold AdminDashboardPage.filteredComplaints, AdminDashboardPage.stats.
  cbn [AdminDashboardPage.pending AdminDashboardPage.inProgress
       AdminDashboardPage.resolved].
  split; [|split; [|split; [|split; [|split]]]].
  - intros ->. induction (AdminDashboardPage.complaints st) as [|c l IH];
      [reflexivity|]. cbn [filter]. rewrite text_eqb_refl. cbn [orb].
    now f_equal.
  - intros label ->. apply filter_ext. intros c.
    rewrite has_status_label. now destruct label.
  - intros ->. reflexivity.
  - intros ->. reflexivity.
  - intros ->. reflexivity.
  - intros Hall Hlabel. rewrite (filter_ext _ (fun _ => false)).
    + induction (AdminDashboardPage.complaints st) as [|c l IH];
        [reflexivity | exact IH].
    + intros c. apply text_eqb_neq in Hall. rewrite Hall. cbn [orb].
      unfold AdminDashboardPage.has_status. apply text_eqb_neq.
      apply not_eq_sym. apply Hlabel.
Qed.

Lemma filter_agrees_with_counters_witness :
  AdminDashboardPage.filteredComplaints More.admin_page
  = AdminDashboardPage.complaints More.admin_page.
Proof.
  exact (proj1 (filter_agrees_with_counters More.admin_page) eq_refl).
Defined.

Lemma or_empty_value (t : option text) :
  AdminDashboardPage.or_empty t
  = match t with Some x => x | None => empty_string end.
Proof.
  destruct t as [[|c x]|]; reflexivity.
Qed.

(** X29: a card keeps the cells it was mounted with, whatever is loaded
    afterwards.  For an admin, saving a card that was not touched writes
    to the stored row the status the complaint had when the card was
    mounted, and as response the response it had then, or the empty text
    when that was NULL, and stamps [updated_at]: a change made to the row
    since is undone, and a NULL response becomes the empty text.  After
    "use AI suggestion" the response saved is the suggestion of the
    complaint as it is shown now (the empty text when there is none). *)
Theorem saving_an_untouched_card
        (s : session) (db : database) (pre post : list complaint)
        (r mounted shown : complaint) :
  complaints db = pre ++ r :: post ->
  (forall o, In o (pre ++ post) ->
             id o <> id r /\ complaint_id o <> complaint_id r) ->
  uid_has_role db s admin = true ->
  id shown = id r ->
  AdminDashboardPage.handleSave s db shown
    (AdminDashboardPage.ComplaintCard mounted)
  = (with_complaints db
       (pre ++ Effects.answered r (status mounted)
                 match admin_response mounted with
                 | Some x => x
                 | None => empty_string
                 end (now s) :: post),
     Effects.update_succeeded)
  /\ AdminDashboardPage.handleSave s db shown
       (AdminDashboardPage.useAISuggestion shown
          (AdminDashboardPage.ComplaintCard mounted))
     = (with_complaints db
          (pre ++ Effects.answered r (status mounted)
                    match ai_suggested_response shown with
                    | Some x => x
                    | None => empty_string
                    end (now s) :: post),
        Effects.update_succeeded).
Proof.
  intros Hdb Huniq Ha Hid. unfold AdminDashboardPage.handleSave.
  cbn [AdminDashboardPage.ComplaintCard AdminDashboardPage.useAISuggestion
       AdminDashboardPage.status AdminDashboardPage.response].
  rewrite !or_empty_value, Hid.
  split; now apply updateComplaint_admin.
Qed.

(** The card of complaint 101 was mounted while the complaint was
    pending; the complaint has been resolved since, and the card is saved
    untouched: the row is pending again, its response the empty text. *)
Lemma saving_an_untouched_card_witness :
  map (fun r => (status r, admin_response r))
      (complaints Examples.resolved_db)
  = [(Resolved, Some (lit "Repaired."))]
  /\ map (fun r => (status r, admin_response r))
         (complaints
            (fst (AdminDashboardPage.handleSave (Examples.session_of 9 0)
                    Examples.resolved_db More.resolved_row
                    (AdminDashboardPage.ComplaintCard
                       (Examples.numbered_row 1)))))
     = [(Pending, Some empty_string)].
Proof.
  split; [reflexivity|].
  rewrite (proj1 (saving_an_untouched_card (Examples.session_of 9 0)
                    Examples.resolved_db [] [] More.resolved_row
                    (Examples.numbered_row 1) More.resolved_row
                    eq_refl (fun o (H : In o []) => match H with end)
                    eq_refl eq_refl)).
  reflexivity.
Defined.

End Dashboards.
